(** * pdblp: the session engine of [pdblp.py], embedded in Rocq

    The development follows the layout of the Python module: the generic
    values the decoder produces, the element decoder [_element_to_dict] and
    [message_to_dict], the blpapi session seen through the calls [BCon]
    makes on it, the methods of [BCon] ([__init__], [start],
    [_init_services], [_create_req], [_receive_events], [_bdh_list],
    [_parse_ref], [_parse_bulkref], [_check_fieldExceptions], [_send_hist]),
    and then the properties of these definitions.

    Logging has no influence on any result and is left out; the lookup
    [_EVENT_DICT[ev.eventType()]] that feeds the logger is kept, because it
    can raise. *)

From Stdlib Require Import ZArith List String Ascii Bool Lia DecimalString.
Import ListNotations.
Set Warnings "-register-all".
Local Open Scope string_scope.
Local Open Scope list_scope.

(** ** Python values *)

(** The values that flow through the module.  No arithmetic is ever done on
    a float, so a float is kept as its literal; [PyNaN] is [np.NaN].  A
    string is a sequence of ASCII characters. *)
Inductive pyval : Type :=
| PyNone
| PyBool (b : bool)
| PyInt (z : Z)
| PyFloat (lit : string)
| PyNaN
| PyStr (s : string)
| PyList (l : list pyval)
| PyTuple (l : list pyval)
| PyDict (d : list (string * pyval)).

(** The result of a [str.format] call: the literal parts of the template
    and the arguments substituted with [{}] ([Str]) or [{!r}] ([Repr]). *)
Inductive piece : Type :=
| Lit (s : string)
| Str (v : pyval)
| Repr (v : pyval).

Definition text := list piece.

(** ** Event types and data types of the library *)

(** Modelled from the spec: the tags of [blpapi.Event], which is not part
    of the module; the spec's data model lists SessionStatus, ServiceStatus,
    Response, PartialResponse, Timeout, Request and Unknown. *)
Inductive EventType : Type :=
| SESSION_STATUS | RESPONSE | PARTIAL_RESPONSE | SERVICE_STATUS
| TIMEOUT | REQUEST | UNKNOWN.

Definition EventType_eqb (a b : EventType) : bool :=
  match a, b with
  | SESSION_STATUS, SESSION_STATUS | RESPONSE, RESPONSE
  | PARTIAL_RESPONSE, PARTIAL_RESPONSE | SERVICE_STATUS, SERVICE_STATUS
  | TIMEOUT, TIMEOUT | REQUEST, REQUEST | UNKNOWN, UNKNOWN => true
  | _, _ => false
  end.

(** Modelled from the spec: the tags of [blpapi.DataType] as the decoder
    tells them apart (scalar / sequence / choice). *)
Inductive DataType : Type := CHOICE | SEQUENCE | SCALAR.

(** ** Exceptions *)

Inductive lookup_key : Type :=
| KName (s : string)
| KEventType (t : EventType).

Inductive exn_arg : Type :=
| Msg (t : text)
| Obj (v : pyval).

Inductive exn : Type :=
| ValueError (args : list exn_arg)
| RuntimeError (t : text)
| ConnectionError (t : text)
| KeyError (k : lookup_key)
| TypeError
| AttributeError
| BlpapiException.

(** What a call does: it returns, it raises, or it does not return (a poll
    without timeout on a queue that stays empty, a loop that has not ended
    within its fuel). *)
Inductive result (A : Type) : Type :=
| Ok (a : A)
| Raise (e : exn)
| Hang.
Arguments Ok {A} a.
Arguments Raise {A} e.
Arguments Hang {A}.

Definition rbind {A B} (r : result A) (f : A -> result B) : result B :=
  match r with
  | Ok a => f a
  | Raise e => Raise e
  | Hang => Hang
  end.

Notation "x <- r ;; k" := (rbind r (fun x => k))
  (at level 61, r at next level, right associativity).

(** Runs the computations of a list from left to right and stops at the
    first one that raises (a list comprehension). *)
Fixpoint collect {A} (rs : list (result A)) : result (list A) :=
  match rs with
  | [] => Ok []
  | r :: rs' => a <- r ;; l <- collect rs' ;; Ok (a :: l)
  end.

(** ** Python dictionaries with string keys, in insertion order *)

Definition dict := list (string * pyval).

Fixpoint dict_get (d : dict) (k : string) : option pyval :=
  match d with
  | [] => None
  | (k', v) :: d' => if String.eqb k k' then Some v else dict_get d' k
  end.

Definition dict_mem (d : dict) (k : string) : bool :=
  match dict_get d k with Some _ => true | None => false end.

(** [d[k] = v]: a key already present keeps its place and takes the new
    value, a new key goes to the end. *)
Fixpoint dict_set (d : dict) (k : string) (v : pyval) : dict :=
  match d with
  | [] => [(k, v)]
  | (k', v') :: d' =>
      if String.eqb k k' then (k', v) :: d' else (k', v') :: dict_set d' k v
  end.

(** ** Elements of the library, as the decoder sees them *)

(** What [_element_to_dict] is called on: an [Element] of the library, or a
    plain Python value ([values()] of an array of scalars yields the values
    themselves).  An [Element] is described by what the methods used by the
    decoder answer; [None] for [getValue] or [getChoice] means that the call
    raises. *)
Inductive node : Type :=
| Raw (v : pyval)
| Element (name : string) (datatype : DataType) (isArray isNull : bool)
          (getValue : option pyval) (getChoice : option node)
          (values : list node) (elements : list node).

(** [e.name()] *)
Definition node_name (n : node) : result string :=
  match n with
  | Raw _ => Raise AttributeError
  | Element name _ _ _ _ _ _ _ => Ok name
  end.

(** The leaf branch of [_element_to_dict]. *)
Definition leaf_value (isNull : bool) (getValue : option pyval) : pyval :=
  if isNull then PyNone
  else match getValue with
       | Some v => v
       | None => PyNone
       end.

(** [{str(e.name()): value(e) for e in es}], continuing from [acc]. *)
Definition dict_comprehension (value : node -> result pyval)
  : list node -> dict -> result dict :=
  fix comprehension (es : list node) (acc : dict) : result dict :=
    match es with
    | [] => Ok acc
    | e :: es' =>
        k <- node_name e ;;
        d <- value e ;;
        comprehension es' (dict_set acc k d)
    end.

Fixpoint _element_to_dict (elem : node) : result pyval :=
  match elem with
  | Raw (PyStr s) => Ok (PyStr s)
  | Raw _ => Raise AttributeError
  | Element name dtype isArray isNull getValue getChoice values elements =>
      match dtype with
      | CHOICE =>
          match getChoice with
          | Some c => d <- _element_to_dict c ;; Ok (PyDict [(name, d)])
          | None => Raise BlpapiException
          end
      | _ =>
          if isArray then
            l <- collect (map _element_to_dict values) ;; Ok (PyList l)
          else
            match dtype with
            | SEQUENCE =>
                inner <- dict_comprehension _element_to_dict elements [] ;;
                Ok (PyDict [(name, PyDict inner)])
            | _ => Ok (leaf_value isNull getValue)
            end
      end
  end.

Record Message : Type := mkMessage {
  correlationIds : list pyval;
  messageType : string;
  topicName : string;
  asElement : node
}.

Definition message_to_dict (msg : Message) : result pyval :=
  element <- _element_to_dict (asElement msg) ;;
  Ok (PyDict [("correlationIds", PyList (correlationIds msg));
              ("messageType", PyStr (messageType msg));
              ("topicName", PyStr (topicName msg));
              ("element", element)]).

(** ** Operations of Python on decoded values *)

(** [needle in haystack] on two strings *)
Fixpoint is_prefix (p s : string) : bool :=
  match p, s with
  | EmptyString, _ => true
  | String a p', String b s' => Ascii.eqb a b && is_prefix p' s'
  | String _ _, EmptyString => false
  end.

Fixpoint is_substring (p s : string) : bool :=
  is_prefix p s ||
  match s with
  | EmptyString => false
  | String _ s' => is_substring p s'
  end.

Definition is_str (k : string) (v : pyval) : bool :=
  match v with
  | PyStr s => String.eqb s k
  | _ => false
  end.

(** [x[k]] for a string [k] *)
Definition getitem (x : pyval) (k : string) : result pyval :=
  match x with
  | PyDict d =>
      match dict_get d k with
      | Some v => Ok v
      | None => Raise (KeyError (KName k))
      end
  | _ => Raise TypeError
  end.

(** [k in x] for a string [k] *)
Definition contains (k : string) (x : pyval) : result bool :=
  match x with
  | PyDict d => Ok (dict_mem d k)
  | PyList l | PyTuple l => Ok (existsb (is_str k) l)
  | PyStr s => Ok (is_substring k s)
  | _ => Raise TypeError
  end.

(** [len(x)] *)
Definition py_len (x : pyval) : result nat :=
  match x with
  | PyDict d => Ok (List.length d)
  | PyList l | PyTuple l => Ok (List.length l)
  | PyStr s => Ok (String.length s)
  | _ => Raise TypeError
  end.

Fixpoint chars (s : string) : list pyval :=
  match s with
  | EmptyString => []
  | String a s' => PyStr (String a EmptyString) :: chars s'
  end.

(** what [for v in x] goes through *)
Definition py_iter (x : pyval) : result (list pyval) :=
  match x with
  | PyList l | PyTuple l => Ok l
  | PyDict d => Ok (map (fun kv => PyStr (fst kv)) d)
  | PyStr s => Ok (chars s)
  | _ => Raise TypeError
  end.

(** [x.items()] *)
Definition items (x : pyval) : result (list (string * pyval)) :=
  match x with
  | PyDict d => Ok d
  | _ => Raise AttributeError
  end.

(** [isinstance(x, list)] *)
Definition isinstance_list (x : pyval) : bool :=
  match x with
  | PyList _ => true
  | _ => false
  end.

(** [v if type(v) is list else [v]] *)
Definition as_list (v : pyval) : list pyval :=
  match v with
  | PyList l => l
  | _ => [v]
  end.

(** A [for] loop whose body can raise: the body takes the state of the loop
    and one item, and the loop stops at the first item that raises. *)
Fixpoint for_each {A X} (body : A -> X -> result A) (xs : list X) (acc : A)
  : result A :=
  match xs with
  | [] => Ok acc
  | x :: xs' => acc' <- body acc x ;; for_each body xs' acc'
  end.

(** ** The session of the library *)

Record Event : Type := mkEvent {
  eventType : EventType;
  messages : list Message
}.

(** A request under construction: the values appended to [securities] and
    [fields], the elements set by name, and the elements of [overrides],
    each with the sub-elements set on it. *)
Record Request : Type := mkRequest {
  operation : string;
  securities : list pyval;
  fields : list pyval;
  elements_set : dict;
  overrides : list dict
}.

Record Service : Type := mkService { service_name : string }.

Inductive call : Type :=
| Call_start
| Call_nextEvent (timeout : Z)
| Call_tryNextEvent
| Call_openService (name : string)
| Call_getService (name : string)
| Call_sendRequest (request : Request) (identity correlationId : option pyval)
| Call_stop.

(** The session as [BCon] drives it: the events waiting in its queue (the
    oldest first), what the service side answers ([start()], [openService()],
    the events queued in reply to a request), and the calls made on the
    session so far (the latest last). *)
Record Session : Type := mkSession {
  queue : list Event;
  start_answer : bool;
  openService_answer : string -> bool;
  reply : Request -> option pyval -> list Event;
  calls : list call
}.

Definition with_queue (s : Session) (q : list Event) : Session :=
  mkSession q (start_answer s) (openService_answer s) (reply s) (calls s).

Definition logged (c : call) (s : Session) : Session :=
  mkSession (queue s) (start_answer s) (openService_answer s) (reply s)
            (calls s ++ [c]).

(** Code that drives the session. *)
Definition M (A : Type) : Type := Session -> result A * Session.

Definition ret {A} (a : A) : M A := fun s => (Ok a, s).

Definition raise {A} (e : exn) : M A := fun s => (Raise e, s).

Definition lift {A} (r : result A) : M A := fun s => (r, s).

Definition bind {A B} (m : M A) (f : A -> M B) : M B :=
  fun s =>
    match m s with
    | (Ok a, s') => f a s'
    | (Raise e, s') => (Raise e, s')
    | (Hang, s') => (Hang, s')
    end.

Notation "x <~ m ;; k" := (bind m (fun x => k))
  (at level 61, m at next level, right associativity).

(** The event a poll answers with when its wait runs out. *)
Definition timeout_event : Event := mkEvent TIMEOUT [].

(** [session.nextEvent(timeout)]; the default timeout, 0, waits for ever. *)
Definition nextEvent (timeout : Z) : M Event :=
  fun s =>
    let s' := logged (Call_nextEvent timeout) s in
    match queue s with
    | ev :: q => (Ok ev, with_queue s' q)
    | [] => if Z.eqb timeout 0 then (Hang, s') else (Ok timeout_event, s')
    end.

(** [session.tryNextEvent()] *)
Definition tryNextEvent : M (option Event) :=
  fun s =>
    let s' := logged Call_tryNextEvent s in
    match queue s with
    | ev :: q => (Ok (Some ev), with_queue s' q)
    | [] => (Ok None, s')
    end.

(** [session.start()] *)
Definition session_start : M bool :=
  fun s => (Ok (start_answer s), logged Call_start s).

(** [session.openService(name)] *)
Definition openService (name : string) : M bool :=
  fun s => (Ok (openService_answer s name), logged (Call_openService name) s).

(** [session.getService(name)] *)
Definition getService (name : string) : M Service :=
  fun s => (Ok (mkService name), logged (Call_getService name) s).

(** [session.sendRequest(request, identity=..., correlationId=...)] *)
Definition sendRequest (request : Request) (identity correlationId : option pyval)
  : M unit :=
  fun s =>
    let s' := logged (Call_sendRequest request identity correlationId) s in
    (Ok tt, with_queue s' (queue s ++ reply s request correlationId)).

(** [session.stop()] *)
Definition session_stop : M unit :=
  fun s => (Ok tt, logged Call_stop s).

(** ** Module constants *)

Definition _RESPONSE_TYPES : list EventType := [RESPONSE; PARTIAL_RESPONSE].

Definition in_RESPONSE_TYPES (t : EventType) : bool :=
  existsb (EventType_eqb t) _RESPONSE_TYPES.

(** The partial lookup table of event names; a type that is not in the
    table raises [KeyError]. *)
Definition _EVENT_DICT (t : EventType) : result string :=
  match t with
  | SESSION_STATUS => Ok "SESSION_STATUS"
  | RESPONSE => Ok "RESPONSE"
  | PARTIAL_RESPONSE => Ok "PARTIAL_RESPONSE"
  | SERVICE_STATUS => Ok "SERVICE_STATUS"
  | TIMEOUT => Ok "TIMEOUT"
  | REQUEST => Ok "REQUEST"
  | UNKNOWN => Raise (KeyError (KEventType UNKNOWN))
  end.

(** ** [BCon] *)

(** The attributes of a [BCon] object next to its session, which is the
    state the methods run on.  The two services are unset until
    [_init_services] has opened them. *)
Record BCon : Type := mkBCon {
  timeout : Z;
  _identity : option pyval;
  debug : bool;
  refDataService : option Service;
  exrService : option Service
}.

Notation "m >> k" := (bind m (fun _ => k))
  (at level 61, right associativity).

Section Construction.

(** [blpapi.Session(sessionOptions)] for a host and a port. *)
Variable blpapi_Session : string -> Z -> Session.

(** [BCon(host, port, debug, timeout, session, identity)]: the object
    built, or the error raised, and the session it is about. *)
Definition __init__ (host : string) (port : Z) (debug : bool) (timeout : Z)
           (session : option Session) (identity : option pyval)
  : result BCon * Session :=
  let self := mkBCon timeout identity debug None None in
  match session with
  | None => (Ok self, blpapi_Session host port)
  | Some session =>
      (ev <~ nextEvent timeout ;;
       if negb (EventType_eqb (eventType ev) TIMEOUT) then
         raise (ValueError [Msg [Lit "Flush event queue of blpapi.Session prior to instantiation"]])
       else ret self) session
  end.

End Construction.

Definition dq : string := String "034"%char EmptyString.

(** ['Expected a "..." event but received a {!r}'.format(ev_name)] *)
Definition expected_but_received (expected ev_name : string) : text :=
  [Lit ("Expected a " ++ dq ++ expected ++ dq ++ " event but received a ");
   Repr (PyStr ev_name)].

(** The block that [start] and [_init_services] repeat: poll without
    timeout, look the event's name up, and check the event's type. *)
Definition await (expected : EventType) (expected_name : string) : M unit :=
  ev <~ nextEvent 0 ;;
  ev_name <~ lift (_EVENT_DICT (eventType ev)) ;;
  if negb (EventType_eqb (eventType ev) expected) then
    raise (RuntimeError (expected_but_received expected_name ev_name))
  else ret tt.

Definition open_one (name : string) : M Service :=
  opened <~ openService name ;;
  await SERVICE_STATUS "SERVICE_STATUS" >>
  if negb opened then
    raise (ConnectionError [Lit ("Could not open a " ++ name ++ " service")])
  else getService name.

Definition _init_services (self : BCon) : M BCon :=
  ref <~ open_one "//blp/refdata" ;;
  let self := mkBCon (timeout self) (_identity self) (debug self)
                     (Some ref) (exrService self) in
  exr <~ open_one "//blp/exrsvc" ;;
  ret (mkBCon (timeout self) (_identity self) (debug self)
              (refDataService self) (Some exr)).

Definition start (self : BCon) : M BCon :=
  started <~ session_start ;;
  (if started then
     await SESSION_STATUS "SESSION_STATUS" >>
     await SESSION_STATUS "SESSION_STATUS"
   else
     ev <~ nextEvent (timeout self) ;;
     if EventType_eqb (eventType ev) SESSION_STATUS then
       raise (ConnectionError [Lit "Could not start blpapi.Session"])
     else ret tt) >>
  _init_services self.

(** [while(self._session.tryNextEvent()): pass] *)
Fixpoint flush (fuel : nat) : M unit :=
  match fuel with
  | O => lift Hang
  | S fuel' =>
      ev <~ tryNextEvent ;;
      match ev with
      | Some _ => flush fuel'
      | None => ret tt
      end
  end.

(** [service.createRequest(rtype)] *)
Definition createRequest (rtype : string) : Request :=
  mkRequest rtype [] [] [] [].

Definition append_security (r : Request) (t : pyval) : Request :=
  mkRequest (operation r) (securities r ++ [t]) (fields r) (elements_set r)
            (overrides r).

Definition append_field (r : Request) (f : pyval) : Request :=
  mkRequest (operation r) (securities r) (fields r ++ [f]) (elements_set r)
            (overrides r).

Definition request_set (r : Request) (nv : string * pyval) : Request :=
  mkRequest (operation r) (securities r) (fields r)
            (dict_set (elements_set r) (fst nv) (snd nv)) (overrides r).

Definition with_overrides (r : Request) (o : list dict) : Request :=
  mkRequest (operation r) (securities r) (fields r) (elements_set r) o.

(** [ovrd = overrides.appendElement()] followed by the two [setElement]
    calls of [_create_req] *)
Definition append_override (r : Request) (ov : pyval * pyval) : Request :=
  with_overrides r
    (overrides r ++ [dict_set (dict_set [] "fieldId" (fst ov)) "value" (snd ov)]).

Definition _create_req (self : BCon) (rtype : string) (tickers flds : list pyval)
           (ovrds : list (pyval * pyval)) (setvals : list (string * pyval))
  : M Request :=
  fun s =>
    (flush (S (List.length (queue s))) >>
     match refDataService self with
     | None => raise AttributeError
     | Some _ =>
         let request := createRequest rtype in
         let request := fold_left append_security tickers request in
         let request := fold_left append_field flds request in
         let request := fold_left request_set setvals request in
         let request := fold_left append_override ovrds request in
         ret request
     end) s.

(** ** The event pump *)

(** What the generator yields: the decoded message, or, with
    [to_dict=False], the message itself. *)
Inductive item : Type :=
| Decoded (d : pyval)
| Plain (msg : Message).

(** How a run of the generator ends: its loop is left with [break], an
    exception comes out of it, or it does not come back. *)
Inductive ending : Type :=
| Finished
| Failed (e : exn)
| Hung.

(** A generator run to its end: the items yielded in order, the ending,
    and the session it leaves. *)
Record run : Type := mkRun {
  yielded : list item;
  ending_of : ending;
  session_after : Session
}.

Definition prepend (ys : list item) (r : run) : run :=
  mkRun (ys ++ yielded r) (ending_of r) (session_after r).

Definition emit (to_dict : bool) (msg : Message) : result item :=
  if to_dict then d <- message_to_dict msg ;; Ok (Decoded d)
  else Ok (Plain msg).

(** [for msg in ev: yield ...]: the items yielded, and whether the loop
    went through. *)
Fixpoint emit_all (to_dict : bool) (msgs : list Message)
  : list item * result unit :=
  match msgs with
  | [] => ([], Ok tt)
  | msg :: msgs' =>
      match emit to_dict msg with
      | Ok y => let (ys, r) := emit_all to_dict msgs' in (y :: ys, r)
      | Raise e => ([], Raise e)
      | Hang => ([], Hang)
      end
  end.

Definition timeout_text : text :=
  [Lit "Timeout, increase BCon.timeout attribute"].

Definition unexpected_text (ev_name : string) : text :=
  [Lit "Unexpected Event Type: "; Repr (PyStr ev_name)].

(** The [while True] loop of [_receive_events]; one unit of fuel per
    iteration. *)
Fixpoint receive_loop (fuel : nat) (timeout : Z) (to_dict : bool)
         (sent_events : Z) (s : Session) : run :=
  match fuel with
  | O => mkRun [] Hung s
  | S fuel' =>
      match nextEvent timeout s with
      | (Raise e, s') => mkRun [] (Failed e) s'
      | (Hang, s') => mkRun [] Hung s'
      | (Ok ev, s') =>
          match _EVENT_DICT (eventType ev) with
          | Raise e => mkRun [] (Failed e) s'
          | Hang => mkRun [] Hung s'
          | Ok ev_name =>
              let (ys, went_through) :=
                if in_RESPONSE_TYPES (eventType ev)
                then emit_all to_dict (messages ev)
                else ([], Ok tt) in
              match went_through with
              | Raise e => mkRun ys (Failed e) s'
              | Hang => mkRun ys Hung s'
              | Ok _ =>
                  if EventType_eqb (eventType ev) RESPONSE then
                    let sent_events := (sent_events - 1)%Z in
                    if (sent_events =? 0)%Z then mkRun ys Finished s'
                    else prepend ys
                           (receive_loop fuel' timeout to_dict sent_events s')
                  else if negb (in_RESPONSE_TYPES (eventType ev)) then
                    if EventType_eqb (eventType ev) TIMEOUT then
                      mkRun ys (Failed (RuntimeError timeout_text)) s'
                    else
                      mkRun ys (Failed (RuntimeError (unexpected_text ev_name))) s'
                  else prepend ys
                         (receive_loop fuel' timeout to_dict sent_events s')
              end
          end
      end
  end.

(** [self._receive_events(sent_events, to_dict)], run to its end.  Every
    iteration takes an event off the queue or ends the loop, so one more
    unit of fuel than there are events is enough. *)
Definition _receive_events (self : BCon) (sent_events : Z) (to_dict : bool)
           (s : Session) : run :=
  receive_loop (S (List.length (queue s))) (timeout self) to_dict sent_events s.

(** [for msg in self._receive_events(...): body], from the run of the
    generator: the body sees the items in order, an exception of the body
    ends the loop, and the ending of the generator shows after its last
    item. *)
Definition consume {A} (body : A -> item -> result A) (r : run) (acc : A)
  : result A :=
  acc' <- for_each body (yielded r) acc ;;
  match ending_of r with
  | Finished => Ok acc'
  | Failed e => Raise e
  | Hung => Hang
  end.

(** [msg[k]] on an item of the generator *)
Definition msg_getitem (msg : item) (k : string) : result pyval :=
  match msg with
  | Decoded d => getitem d k
  | Plain _ => Raise TypeError
  end.

(** ** Parsers *)

(** [datum = [...]; datum.extend(corrId); data.append(datum)] *)
Definition append_datum (data : list pyval) (datum : list pyval) (corrId : pyval)
  : result (list pyval) :=
  ids <- py_iter corrId ;;
  Ok (data ++ [PyList (datum ++ ids)]).

(** Runs the session part of a query, then the parser on what follows. *)
Definition then_parse {A B} (m : M A) (parse : Session -> result B)
  : Session -> result B :=
  fun s =>
    match m s with
    | (Ok _, s') => parse s'
    | (Raise e, _) => Raise e
    | (Hang, _) => Hang
    end.

(** The body of [for fname, value in fd['fieldData'].items()] in
    [_bdh_list]. *)
Definition bdh_value (ticker fd : pyval) (data : list pyval)
           (fv : string * pyval) : result (list pyval) :=
  if String.eqb (fst fv) "date" then Ok data
  else
    inner <- getitem fd "fieldData" ;;
    date <- getitem inner "date" ;;
    Ok (data ++ [PyTuple [date; ticker; PyStr (fst fv); snd fv]]).

(** The body of [for fd in fldDatas] in [_bdh_list]. *)
Definition bdh_fieldData (ticker : pyval) (data : list pyval) (fd : pyval)
  : result (list pyval) :=
  inner <- getitem fd "fieldData" ;;
  kvs <- items inner ;;
  for_each (bdh_value ticker fd) kvs data.

(** The body of [for msg in self._receive_events()] in [_bdh_list]. *)
Definition bdh_message (data : list pyval) (msg : item) : result (list pyval) :=
  element <- msg_getitem msg "element" ;;
  d <- getitem element "HistoricalDataResponse" ;;
  securityData <- getitem d "securityData" ;;
  has_security_error <- contains "securityError" securityData ;;
  securityData <- getitem d "securityData" ;;
  fieldExceptions <- getitem securityData "fieldExceptions" ;;
  n <- py_len fieldExceptions ;;
  let has_field_exception := Nat.ltb 0 n in
  if has_security_error || has_field_exception then
    Raise (ValueError [Obj (PyList data)])
  else
    securityData <- getitem d "securityData" ;;
    ticker <- getitem securityData "security" ;;
    fldDatas <- getitem securityData "fieldData" ;;
    fds <- py_iter fldDatas ;;
    for_each (bdh_fieldData ticker) fds data.

Definition _bdh_list (self : BCon) (tickers flds start_date end_date : pyval)
           (elms : list (string * pyval)) (ovrds : list (pyval * pyval))
  : Session -> result (list pyval) :=
  let tickers := as_list tickers in
  let flds := as_list flds in
  let setvals := elms ++ [("startDate", start_date)] ++ [("endDate", end_date)] in
  then_parse
    (request <~ _create_req self "HistoricalDataRequest" tickers flds ovrds
                            setvals ;;
     sendRequest request (_identity self) None)
    (fun s => consume bdh_message (_receive_events self 1 true s) []).

(** The body of [for fe_dict in field_exceptions]. *)
Definition check_fieldException (_ : unit) (fe_dict : pyval) : result unit :=
  fe <- getitem fe_dict "fieldExceptions" ;;
  errorInfo <- getitem fe "errorInfo" ;;
  errorInfo <- getitem errorInfo "errorInfo" ;;
  subcategory <- getitem errorInfo "subcategory" ;;
  if is_str "INVALID_FIELD" subcategory then
    fieldId <- getitem fe "fieldId" ;;
    Raise (ValueError [Msg [Str fieldId; Lit ": INVALID_FIELD"]])
  else Ok tt.

Definition _check_fieldExceptions (field_exceptions : pyval) : result unit :=
  entries <- py_iter field_exceptions ;;
  for_each check_fieldException entries tt.

(** The body of [for fld in flds] in [_parse_ref]. *)
Definition ref_field (ticker fieldData corrId : pyval) (data : list pyval)
           (fld : string) : result (list pyval) :=
  present <- contains fld fieldData ;;
  bulk <- (if present then v <- getitem fieldData fld ;; Ok (isinstance_list v)
           else Ok false) ;;
  if bulk then
    Raise (ValueError [Msg [Lit "Field "; Repr (PyStr fld);
                            Lit " returns bulk reference data which is not supported"]])
  else
    present <- contains fld fieldData ;;
    if negb present then
      append_datum data [ticker; PyStr fld; PyNaN] corrId
    else
      val <- getitem fieldData fld ;;
      append_datum data [ticker; PyStr fld; val] corrId.

(** The head that [_parse_ref] and [_parse_bulkref] share for one element
    of the response: the ticker, the two checks, and the field data. *)
Definition checked_fieldData (security_data_dict : pyval)
  : result (pyval * pyval) :=
  secData <- getitem security_data_dict "securityData" ;;
  ticker <- getitem secData "security" ;;
  has_error <- contains "securityError" secData ;;
  if has_error then
    Raise (ValueError [Msg [Lit "Unknow security "; Repr ticker]])
  else
    fieldExceptions <- getitem secData "fieldExceptions" ;;
    _ <- _check_fieldExceptions fieldExceptions ;;
    fieldData <- getitem secData "fieldData" ;;
    fieldData <- getitem fieldData "fieldData" ;;
    Ok (ticker, fieldData).

(** The body of [for security_data_dict in d] in [_parse_ref]. *)
Definition ref_security (flds : list string) (corrId : pyval)
           (data : list pyval) (security_data_dict : pyval)
  : result (list pyval) :=
  tf <- checked_fieldData security_data_dict ;;
  for_each (ref_field (fst tf) (snd tf) corrId) flds data.

(** [corrId] and [d] at the head of the message loop of both parsers. *)
Definition corrId_and_response (keep_corrId : bool) (msg : item)
  : result (pyval * list pyval) :=
  corrId <- (if keep_corrId then msg_getitem msg "correlationIds"
             else Ok (PyList [])) ;;
  element <- msg_getitem msg "element" ;;
  d <- getitem element "ReferenceDataResponse" ;;
  ds <- py_iter d ;;
  Ok (corrId, ds).

(** The body of [for msg in self._receive_events(sent_events)] in
    [_parse_ref]. *)
Definition ref_message (flds : list string) (keep_corrId : bool)
           (data : list pyval) (msg : item) : result (list pyval) :=
  cd <- corrId_and_response keep_corrId msg ;;
  for_each (ref_security flds (fst cd)) (snd cd) data.

Definition _parse_ref (self : BCon) (flds : list string) (keep_corrId : bool)
           (sent_events : Z) (s : Session) : result (list pyval) :=
  consume (ref_message flds keep_corrId)
          (_receive_events self sent_events true s) [].

(** [for i, x in enumerate(xs)] *)
Fixpoint enumerate_from {X} (i : Z) (xs : list X) : list (Z * X) :=
  match xs with
  | [] => []
  | x :: xs' => (i, x) :: enumerate_from (i + 1) xs'
  end.

Definition enumerate {X} (xs : list X) : list (Z * X) := enumerate_from 0 xs.

(** The body of [for i, data_dict in enumerate(fieldData[fld])] in
    [_parse_bulkref], with its inner loop over [data_dict[fld].items()]. *)
Definition bulk_element (ticker corrId : pyval) (fld : string)
           (data : list pyval) (ix : Z * pyval) : result (list pyval) :=
  record <- getitem (snd ix) fld ;;
  kvs <- items record ;;
  for_each (fun data nv =>
              append_datum data [ticker; PyStr fld; PyStr (fst nv); snd nv;
                                 PyInt (fst ix)] corrId)
           kvs data.

(** The body of [for fld in flds] in [_parse_bulkref]. *)
Definition bulkref_field (ticker fieldData corrId : pyval) (data : list pyval)
           (fld : string) : result (list pyval) :=
  present <- contains fld fieldData ;;
  scalar <- (if present then v <- getitem fieldData fld ;;
                             Ok (negb (isinstance_list v))
             else Ok false) ;;
  if scalar then
    Raise (ValueError [Msg [Lit "Cannot parse field "; Repr (PyStr fld);
                            Lit " which is not bulk reference data"]])
  else
    present <- contains fld fieldData ;;
    if present then
      v <- getitem fieldData fld ;;
      vs <- py_iter v ;;
      for_each (bulk_element ticker corrId fld) (enumerate vs) data
    else
      append_datum data [ticker; PyStr fld; PyNaN; PyNaN; PyNaN] corrId.

Definition bulkref_security (flds : list string) (corrId : pyval)
           (data : list pyval) (security_data_dict : pyval)
  : result (list pyval) :=
  tf <- checked_fieldData security_data_dict ;;
  for_each (bulkref_field (fst tf) (snd tf) corrId) flds data.

Definition bulkref_message (flds : list string) (keep_corrId : bool)
           (data : list pyval) (msg : item) : result (list pyval) :=
  cd <- corrId_and_response keep_corrId msg ;;
  for_each (bulkref_security flds (fst cd)) (snd cd) data.

Definition _parse_bulkref (self : BCon) (flds : list string)
           (keep_corrId : bool) (sent_events : Z) (s : Session)
  : result (list pyval) :=
  consume (bulkref_message flds keep_corrId)
          (_receive_events self sent_events true s) [].

(** ** Sending one request per date *)

(** [ovrd.setElement(k, v)] on the element appended last to [overrides] *)
Definition set_last_override (r : Request) (k : string) (v : pyval) : Request :=
  match rev (overrides r) with
  | [] => r
  | ovrd :: before => with_overrides r (rev before ++ [dict_set ovrd k v])
  end.

(** The body of [for dt in dates] in [_send_hist]: the one override element
    takes the date, and the request goes out under the date as its
    correlation id. *)
Definition send_date (self : BCon) (date_field : pyval) (request : Request)
           (dt : pyval) : M Request :=
  let request := set_last_override request "fieldId" date_field in
  let request := set_last_override request "value" dt in
  sendRequest request (_identity self) (Some dt) >>
  ret request.

Fixpoint send_dates (self : BCon) (date_field : pyval) (dates : list pyval)
         (request : Request) : M unit :=
  match dates with
  | [] => ret tt
  | dt :: dates' =>
      request <~ send_date self date_field request dt ;;
      send_dates self date_field dates' request
  end.

Definition _send_hist (self : BCon) (tickers flds dates : list pyval)
           (date_field : pyval) (ovrds : list (pyval * pyval)) : M unit :=
  request <~ _create_req self "ReferenceDataRequest" tickers flds ovrds [] ;;
  if Nat.eqb (List.length dates) 0 then
    raise (ValueError [Msg [Lit "dates must by non empty"]])
  else
    let request := with_overrides request (overrides request ++ [[]]) in
    send_dates self date_field dates request.

(** * Predicates and data of the statements *)

(** ** Nodes *)








(** A record node: a sequence that is not an array. *)
Definition record (name : string) (children : list node) : node :=
  Element name SEQUENCE false false None None [] children.

Definition leaf (name : string) (v : pyval) : node :=
  Element name SCALAR false false (Some v) None [] [].

Definition array (name : string) (dtype : DataType) (vs : list node) : node :=
  Element name dtype true false None None vs [].

Definition choice (name : string) (selected : node) : node :=
  Element name CHOICE false false None (Some selected) [] [].

Section node_induction.

Variable P : node -> Prop.

Hypothesis P_Raw : forall v, P (Raw v).

Hypothesis P_Element :
  forall name dtype isArray isNull getValue getChoice values elements,
    match getChoice with Some c => P c | None => True end ->
    Forall P values -> Forall P elements ->
    P (Element name dtype isArray isNull getValue getChoice values elements).

Fixpoint node_induction (n : node) : P n :=
  match n with
  | Raw v => P_Raw v
  | Element name dtype isArray isNull getValue getChoice values elements =>
      P_Element name dtype isArray isNull getValue getChoice values elements
        (match getChoice
               return match getChoice with Some c => P c | None => True end
         with
         | Some c => node_induction c
         | None => I
         end)
        ((fix all (l : list node) : Forall P l :=
            match l with
            | [] => Forall_nil P
            | x :: l' => Forall_cons x (node_induction x) (all l')
            end) values)
        ((fix all (l : list node) : Forall P l :=
            match l with
            | [] => Forall_nil P
            | x :: l' => Forall_cons x (node_induction x) (all l')
            end) elements)
  end.

End node_induction.

(** ** Events *)

Definition response_typed (ev : Event) : bool :=
  in_RESPONSE_TYPES (eventType ev).

(** The number of [RESPONSE] events among [evs]. *)
Fixpoint count_responses (evs : list Event) : Z :=
  match evs with
  | [] => 0
  | ev :: evs' =>
      ((if EventType_eqb (eventType ev) RESPONSE then 1 else 0)
       + count_responses evs')%Z
  end.

(** The messages of [evs], in the order of delivery. *)
Definition messages_of (evs : list Event) : list Message :=
  flat_map messages evs.

(** The session once [n] polls with timeout [t] have taken the events in
    front of [q]. *)
Definition after_polls (t : Z) (n : nat) (q : list Event) (s : Session)
  : Session :=
  mkSession q (start_answer s) (openService_answer s) (reply s)
            (calls s ++ repeat (Call_nextEvent t) n).

(** ** Texts *)

(** [str(z)] for an integer *)
Definition decimal (z : Z) : string := NilZero.string_of_int (Z.to_int z).

(** The text names the integer [z]: [z] is one of its arguments, or its
    digits stand in one of its literal parts. *)
Definition mentions_int (z : Z) (t : text) : bool :=
  existsb (fun p =>
             match p with
             | Lit l => is_substring (decimal z) l
             | Str (PyInt z') | Repr (PyInt z') => Z.eqb z' z
             | _ => false
             end) t.

(** ** Sample sessions and connections *)

(** A session with the events [q] in its queue, on which nothing has been
    called yet; the service side starts, opens every service and answers
    no request. *)
Definition sample_session (q : list Event) : Session :=
  mkSession q true (fun _ => true) (fun _ _ => []) [].

(** A started connection with the timeout [t]. *)
Definition sample_con (t : Z) : BCon :=
  mkBCon t None false (Some (mkService "//blp/refdata"))
         (Some (mkService "//blp/exrsvc")).

Definition sample_message (element : node) : Message :=
  mkMessage [PyInt 1] "Response" "" element.

(** A connection as [__init__] leaves it: no service opened yet. *)
Definition fresh_con (t : Z) : BCon := mkBCon t None false None None.

(** ** Calls *)

(** The call opens or fetches a service, or sends a request. *)
Definition uses_service (c : call) : bool :=
  match c with
  | Call_openService _ | Call_getService _ | Call_sendRequest _ _ _ => true
  | _ => false
  end.

Definition is_sendRequest (c : call) : bool :=
  match c with
  | Call_sendRequest _ _ _ => true
  | _ => false
  end.

(** [ev] is one of the two events [start] waits for when the session has
    started: the first event of the queue, or the second one when the
    first is a [SESSION_STATUS] event. *)
Inductive awaited : list Event -> Event -> Prop :=
| awaited_first (ev : Event) (q : list Event) : awaited (ev :: q) ev
| awaited_second (ev1 ev : Event) (q : list Event) :
    eventType ev1 = SESSION_STATUS -> awaited (ev1 :: ev :: q) ev.

(** The session once the loop of [tryNextEvent] calls has emptied its
    queue. *)
Definition drained (s : Session) : Session :=
  mkSession [] (start_answer s) (openService_answer s) (reply s)
            (calls s ++ repeat Call_tryNextEvent (S (List.length (queue s)))).

(** ** Faults *)

(** The arguments an exception was raised with. *)
Definition exn_args (e : exn) : list exn_arg :=
  match e with
  | ValueError args => args
  | RuntimeError t | ConnectionError t => [Msg t]
  | _ => []
  end.

(** The fault names the value [v]: [v] is substituted in one of its
    texts. *)
Definition names_value (v : pyval) (e : exn) : Prop :=
  exists t, In (Msg t) (exn_args e) /\ (In (Str v) t \/ In (Repr v) t).

(** The fault carries the rows [rows]. *)
Definition carries_rows (rows : list pyval) (e : exn) : Prop :=
  In (Obj (PyList rows)) (exn_args e).

(** ** Field exceptions *)

(** [fe_dict['fieldExceptions']['errorInfo']['errorInfo']['subcategory']] *)
Definition subcategory_of (fe_dict : pyval) : result pyval :=
  fe <- getitem fe_dict "fieldExceptions" ;;
  errorInfo <- getitem fe "errorInfo" ;;
  errorInfo <- getitem errorInfo "errorInfo" ;;
  getitem errorInfo "subcategory".

(** [fe_dict['fieldExceptions']['fieldId']] *)
Definition fieldId_of (fe_dict : pyval) : result pyval :=
  fe <- getitem fe_dict "fieldExceptions" ;;
  getitem fe "fieldId".

(** The entry has the subcategory [INVALID_FIELD]. *)
Definition invalid_field (fe_dict : pyval) : bool :=
  match subcategory_of fe_dict with
  | Ok v => is_str "INVALID_FIELD" v
  | _ => false
  end.

(** The entry has a subcategory and a field id where the code looks for
    them. *)
Definition shaped (fe_dict : pyval) : bool :=
  match subcategory_of fe_dict, fieldId_of fe_dict with
  | Ok _, Ok _ => true
  | _, _ => false
  end.

(** ** Rows of bulk data *)

(** The rows [_parse_bulkref] makes of the records of one field: for the
    record at position [i], one row for each of its entries. *)
Definition bulk_rows (ticker : pyval) (fld : string) (ids : list pyval)
           (records : list (Z * dict)) : list pyval :=
  flat_map (fun ir =>
              map (fun nv => PyList ([ticker; PyStr fld; PyStr (fst nv); snd nv;
                                      PyInt (fst ir)] ++ ids))
                  (snd ir))
           records.

(** The position that a row of bulk data carries. *)
Definition row_position (row : pyval) : option pyval :=
  match row with
  | PyList (_ :: _ :: _ :: _ :: i :: _) => Some i
  | _ => None
  end.

(** ** Sample responses *)

(** The value a node decodes to ([None] when the decoder raises). *)
Definition decoded (n : node) : pyval :=
  match _element_to_dict n with
  | Ok d => d
  | _ => PyNone
  end.

Definition errorInfo (category subcategory : string) : node :=
  record "errorInfo"
         [leaf "source" (PyStr "3923::bbdbd10");
          leaf "code" (PyInt 9);
          leaf "category" (PyStr category);
          leaf "message" (PyStr "Field not valid");
          leaf "subcategory" (PyStr subcategory)].

Definition fieldException (fieldId subcategory : string) : node :=
  record "fieldExceptions"
         [leaf "fieldId" (PyStr fieldId); errorInfo "BAD_FLD" subcategory].

Definition securityError : node :=
  record "securityError"
         [leaf "source" (PyStr "3923::bbdbd10");
          leaf "code" (PyInt 15);
          leaf "category" (PyStr "BAD_SEC");
          leaf "message" (PyStr "Unknown/Invalid security");
          leaf "subcategory" (PyStr "INVALID_SECURITY")].

(** One element of [securityData[]] in a [ReferenceDataResponse]. *)
Definition ref_securityData (security : string) (error exceptions : list node)
           (fieldData : list node) : node :=
  record "securityData"
         ([leaf "security" (PyStr security); array "eidData" SCALAR []]
            ++ error
            ++ [array "fieldExceptions" SEQUENCE exceptions;
                leaf "sequenceNumber" (PyInt 0);
                record "fieldData" fieldData]).

Definition ReferenceDataResponse (securities : list node) : node :=
  choice "ReferenceDataResponse" (array "securityData" SEQUENCE securities).

(** A [HistoricalDataResponse] for one security. *)
Definition HistoricalDataResponse (security : string)
           (error exceptions : list node) (fieldData : list node) : node :=
  choice "HistoricalDataResponse"
         (record "securityData"
                 ([leaf "security" (PyStr security);
                   array "eidData" SCALAR [];
                   leaf "sequenceNumber" (PyInt 0)]
                    ++ error
                    ++ [array "fieldExceptions" SEQUENCE exceptions;
                        array "fieldData" SEQUENCE fieldData])).

(** A session that holds one [RESPONSE] event with the message
    [element]. *)
Definition answered (element : node) : Session :=
  sample_session [mkEvent RESPONSE [sample_message element]].

(** A session with an empty queue whose service side answers every request
    with one [RESPONSE] event with the message [element]. *)
Definition answering (element : node) : Session :=
  mkSession [] true (fun _ => true)
            (fun _ _ => [mkEvent RESPONSE [sample_message element]]) [].

(** Two securities, the second of which is unknown. *)
Definition known_then_unknown : node :=
  ReferenceDataResponse
    [ref_securityData "IBM US Equity" [] [] [leaf "PX_LAST" (PyFloat "154.1")];
     ref_securityData "XXX Equity" [securityError] [] []].

(** A field exception that is not [INVALID_FIELD] in a historical
    response. *)
Definition not_applicable : list node :=
  [fieldException "PX_LAST" "NOT_APPLICABLE_TO_HIST_DATA"].

Definition hist_with_exception : node :=
  HistoricalDataResponse "IBM US Equity" [] not_applicable [].

Definition INDX_MWEIGHT (member weight : string) : node :=
  record "INDX_MWEIGHT"
         [leaf "Member Ticker and Exchange Code" (PyStr member);
          leaf "Percentage Weight" (PyFloat weight)].

(** A bulk field with three elements of two entries each. *)
Definition three_weights : node :=
  ReferenceDataResponse
    [ref_securityData "BCOM Index" [] []
       [array "INDX_MWEIGHT" SEQUENCE
              [INDX_MWEIGHT "BON8" "2.41"; INDX_MWEIGHT "C N8" "6.56";
               INDX_MWEIGHT "CLN8" "7.62"]]].

(** ** Sample inputs of the statements *)


Definition two_children : list node :=
  [leaf "security" (PyStr "IBM US Equity"); leaf "sequenceNumber" (PyInt 0)].

Definition partial_then_two_responses : list Event :=
  [mkEvent PARTIAL_RESPONSE [sample_message (leaf "a" (PyInt 1))];
   mkEvent RESPONSE [sample_message (leaf "b" (PyInt 2))];
   mkEvent PARTIAL_RESPONSE [];
   mkEvent RESPONSE [sample_message (leaf "c" (PyInt 3))];
   mkEvent PARTIAL_RESPONSE [sample_message (leaf "d" (PyInt 4))]].

Definition partial_then_timeout : list Event :=
  [mkEvent PARTIAL_RESPONSE [sample_message (leaf "a" (PyInt 1))];
   mkEvent TIMEOUT []].

(** [x[k]], or [None] when the lookup raises *)
Definition inner (x : pyval) (k : string) : pyval :=
  match getitem x k with
  | Ok v => v
  | _ => PyNone
  end.

Definition unknown_security : pyval :=
  decoded (ref_securityData "XXX Equity" [securityError] [] []).

Definition two_exceptions : list pyval :=
  map decoded [fieldException "PX_LAST" "NOT_APPLICABLE_TO_REF_DATA";
               fieldException "BAD_FLD" "INVALID_FIELD"].

Definition weights_fieldData : pyval :=
  PyDict [("INDX_MWEIGHT",
           PyList (map decoded [INDX_MWEIGHT "BON8" "2.41";
                                INDX_MWEIGHT "C N8" "6.56"]))].

(** A session that has not started and holds the status event of the
    failure. *)
Definition not_started : Session :=
  mkSession [mkEvent SESSION_STATUS []] false (fun _ => false)
            (fun _ _ => []) [].

(** * More of the module *)

(** [BCon.stop] *)
Definition stop (self : BCon) : M unit := session_stop.

Section Managed.

(** [blpapi.Session(sessionOptions)] for a host and a port. *)
Variable blpapi_Session : string -> Z -> Session.

(** [with bopen(...) as con: body]: the connection is built and started,
    the body runs on it, and [con.stop()] runs in the [finally] clause
    when the body has returned or raised. *)
Definition bopen {A} (host : string) (port : Z) (debug : bool) (timeout : Z)
           (session : option Session) (identity : option pyval)
           (body : BCon -> M A) : result A * Session :=
  match __init__ blpapi_Session host port debug timeout session identity with
  | (Ok con, s) =>
      match start con s with
      | (Ok con, s) =>
          match body con s with
          | (Ok a, s) => (stop con >> ret a) s
          | (Raise e, s) => (stop con >> raise e) s
          | (Hang, s) => (Hang, s)
          end
      | (Raise e, s) => (Raise e, s)
      | (Hang, s) => (Hang, s)
      end
  | (Raise e, s) => (Raise e, s)
  | (Hang, s) => (Hang, s)
  end.

End Managed.

(** ** Predicates and data of the further statements *)

(** The value set last under [name] by the [request.set] calls. *)
Definition last_set (setvals : list (string * pyval)) (name : string)
  : option pyval :=
  match find (fun nv => String.eqb name (fst nv)) (rev setvals) with
  | Some nv => Some (snd nv)
  | None => None
  end.

(** The element of [overrides] made for one override. *)
Definition override_of (ov : pyval * pyval) : dict :=
  [("fieldId", fst ov); ("value", snd ov)].

(** The request [_send_hist] sends for the date [dt]: the request built by
    [_create_req] with one more override, the date field set to [dt]. *)
Definition dated (base : Request) (date_field dt : pyval) : Request :=
  with_overrides base (overrides base ++ [override_of (date_field, dt)]).

(** The reply is some [PARTIAL_RESPONSE] events and then one [RESPONSE]
    event. *)
Definition one_response (evs : list Event) : Prop :=
  exists partials last,
    evs = partials ++ [last]
    /\ Forall (fun ev => eventType ev = PARTIAL_RESPONSE) partials
    /\ eventType last = RESPONSE.

(** The value of the field in a row of the reference parser: the value in
    the field data, or [NaN] when the field is not there. *)
Definition value_or_nan (fd : dict) (fld : string) : pyval :=
  match dict_get fd fld with
  | Some v => v
  | None => PyNaN
  end.

(** The field is in the field data with a list as its value. *)
Definition is_bulk (fd : dict) (fld : string) : bool :=
  match dict_get fd fld with
  | Some v => isinstance_list v
  | None => false
  end.

(** The row ends with the correlation ids [ids]. *)
Definition ends_with (ids : list pyval) (row : pyval) : Prop :=
  exists datum, row = PyList (datum ++ ids).

(** The rows [_bdh_list] makes of one element of [fieldData]: one for each
    entry that is not the date. *)
Definition bdh_rows (ticker date : pyval) (kvs : dict) : list pyval :=
  map (fun kv => PyTuple [date; ticker; PyStr (fst kv); snd kv])
      (filter (fun kv => negb (String.eqb (fst kv) "date")) kvs).

(** A session whose service side answers a request sent under the
    correlation id [cid] with one [PARTIAL_RESPONSE] and one [RESPONSE]
    event, each with a message that carries [cid]. *)
Definition echoing (stale : list Event) : Session :=
  mkSession stale true (fun _ => true)
            (fun _ cid =>
               let ids := match cid with Some c => [c] | None => [] end in
               [mkEvent PARTIAL_RESPONSE
                        [mkMessage ids "ReferenceDataResponse" ""
                                   (ReferenceDataResponse [])];
                mkEvent RESPONSE
                        [mkMessage ids "ReferenceDataResponse" ""
                                   (ReferenceDataResponse
                                      [ref_securityData "AUD1M CMPN Curncy" [] []
                                         [leaf "SETTLE_DT" (PyStr "2016-07-27")]])]])
            [].

(** A session that starts and delivers the four status events of a
    start-up. *)
Definition starting : Session :=
  sample_session [mkEvent SESSION_STATUS []; mkEvent SESSION_STATUS [];
                  mkEvent SERVICE_STATUS []; mkEvent SERVICE_STATUS []].

Definition strings : list string := ["IBM US Equity"; "MSFT US Equity"].

(** A record in which the name [a] comes twice. *)
Definition twice_a : list node :=
  [leaf "a" (PyInt 1); leaf "b" (PyInt 2); leaf "a" (PyInt 3)].

Definition partial_then_status : list Event :=
  [mkEvent PARTIAL_RESPONSE [sample_message (leaf "a" (PyInt 1))];
   mkEvent SESSION_STATUS [sample_message (leaf "SessionTerminated" PyNone)];
   mkEvent RESPONSE []].

Definition is_stop (c : call) : bool :=
  match c with
  | Call_stop => true
  | _ => false
  end.

(** The session with the queue [q] and the calls [cs] made after the
    calls of [s]. *)
Definition moved_on (s : Session) (q : list Event) (cs : list call) : Session :=
  mkSession q (start_answer s) (openService_answer s) (reply s) (calls s ++ cs).

(** The computation makes no [stop()] call. *)
Definition never_stops {A} (m : M A) : Prop :=
  forall s, filter is_stop (calls (snd (m s))) = filter is_stop (calls s).

(** A session on which the reference data service does not open. *)
Definition refusing : Session :=
  mkSession [mkEvent SERVICE_STATUS []; mkEvent SERVICE_STATUS []] true
            (fun name => negb (String.eqb name "//blp/refdata"))
            (fun _ _ => []) [].

(** A session that has not started and whose queue is empty. *)
Definition silent : Session :=
  mkSession [] false (fun _ => true) (fun _ _ => []) [].

(** The override element that [_send_hist] sets for every date can take
    the two settings: it is empty or holds a field id and a value. *)
Definition settable (d : dict) : Prop :=
  d = [] \/ exists x y, d = [("fieldId", x); ("value", y)].

Definition two_dates : list pyval := [PyStr "20160625"; PyStr "20160626"].

(** The decoded record of a security with one of two fields asked for. *)
Definition ibm_record : pyval :=
  decoded (ref_securityData "IBM US Equity" [] []
                            [leaf "PX_LAST" (PyFloat "154.1")]).

(** The decoded record of an index with its weights. *)
Definition bcom_record : pyval :=
  decoded (ref_securityData "BCOM Index" [] []
             [array "INDX_MWEIGHT" SEQUENCE
                    [INDX_MWEIGHT "BON8" "2.41"; INDX_MWEIGHT "C N8" "6.56"]]).

(** The dictionary made of a message ([None] when the decoder raises). *)
Definition decoded_message (msg : Message) : pyval :=
  match message_to_dict msg with
  | Ok d => d
  | _ => PyNone
  end.

(** The decoded message of a historical response with two days. *)
Definition two_days : pyval :=
  decoded_message
    (sample_message
       (HistoricalDataResponse
          "IBM US Equity" [] []
          [record "fieldData" [leaf "date" (PyStr "2015-06-29");
                               leaf "PX_LAST" (PyFloat "162.97")];
           record "fieldData" [leaf "date" (PyStr "2015-06-30");
                               leaf "PX_LAST" (PyFloat "162.66")]])).

(** The records of the weights in [bcom_record]. *)
Definition weights (fld : string) : list dict :=
  if String.eqb fld "INDX_MWEIGHT" then
    [[("Member Ticker and Exchange Code", PyStr "BON8");
      ("Percentage Weight", PyFloat "2.41")];
     [("Member Ticker and Exchange Code", PyStr "C N8");
      ("Percentage Weight", PyFloat "6.56")]]
  else [].

(** The body of a loop only adds rows, and [Q] holds of the rows it
    adds. *)
Definition appends (Q : pyval -> Prop) {X}
           (body : list pyval -> X -> result (list pyval)) : Prop :=
  forall data x data',
    body data x = Ok data' ->
    exists rows, data' = data ++ rows /\ Forall Q rows.

(** The rows made with the correlation ids [corrId] end with them. *)
Definition with_ids (corrId : pyval) (row : pyval) : Prop :=
  forall ids, py_iter corrId = Ok ids -> ends_with ids row.

(** The decoded message of a reply sent under a date. *)
Definition dated_message : pyval :=
  decoded_message
    (mkMessage [PyStr "20160625"] "ReferenceDataResponse" ""
               (ReferenceDataResponse
                  [ref_securityData "IBM US Equity" [] []
                                    [leaf "PX_LAST" (PyFloat "154.1")]])).

(** ** Intraday bars *)

(** The body of [for bar in d['barData']['barTickData']] in [bdib]. *)
Definition bdib_bar (data : list pyval) (bar : pyval) : result (list pyval) :=
  tick <- getitem bar "barTickData" ;;
  Ok (data ++ [tick]).

(** The body of [for msg in self._receive_events()] in [bdib]. *)
Definition bdib_message (data : list pyval) (msg : item)
  : result (list pyval) :=
  element <- msg_getitem msg "element" ;;
  d <- getitem element "IntradayBarResponse" ;;
  barData <- getitem d "barData" ;;
  bars <- getitem barData "barTickData" ;;
  bars <- py_iter bars ;;
  for_each bdib_bar bars data.

(** The settings that [bdib] makes from its arguments, in the order of the
    code. *)
Definition bar_settings (ticker start_datetime end_datetime event_type
                         interval : pyval) : list (string * pyval) :=
  [("security", ticker); ("eventType", event_type); ("interval", interval);
   ("startDateTime", start_datetime); ("endDateTime", end_datetime)].

(** [bdib] up to the list [data] of the bars received; the method then
    hands this list to pandas, which indexes it by time, sorts it and
    keeps six columns. *)
Definition bdib_data (self : BCon)
           (ticker start_datetime end_datetime event_type interval : pyval)
           (elms : list (string * pyval)) : Session -> result (list pyval) :=
  then_parse
    (fun s =>
       (flush (S (List.length (queue s))) >>
        match refDataService self with
        | None => raise AttributeError
        | Some _ =>
            let request := createRequest "IntradayBarRequest" in
            let request := request_set request ("security", ticker) in
            let request := request_set request ("eventType", event_type) in
            let request := request_set request ("interval", interval) in
            let request :=
              request_set request ("startDateTime", start_datetime) in
            let request := request_set request ("endDateTime", end_datetime) in
            let request := fold_left request_set elms request in
            sendRequest request (_identity self) None
        end) s)
    (fun s => consume bdib_message (_receive_events self 1 true s) []).
(** * Properties *)

(** ** The element decoder *)

Lemma dict_set_fresh (d : dict) (k : string) (v : pyval) :
  ~ In k (map fst d) -> dict_set d k v = d ++ [(k, v)].
Proof.
  induction d as [|[k' v'] d IH]; simpl; intros Hk; [reflexivity|].
  destruct (String.eqb k k') eqn:E.
  - apply String.eqb_eq in E. subst. exfalso. apply Hk. now left.
  - rewrite IH; [reflexivity|]. intros Hin. apply Hk. now right.
Qed.

Lemma collect_cons_inv {A} (r : result A) (rs : list (result A)) (l : list A) :
  collect (r :: rs) = Ok l ->
  exists a l', r = Ok a /\ collect rs = Ok l' /\ l = a :: l'.
Proof.
  simpl. destruct r as [a| |]; simpl; try discriminate.
  destruct (collect rs) as [l'| |]; simpl; try discriminate.
  intros H. injection H as <-. eauto.
Qed.

Lemma collect_app {A} (xs ys : list (result A)) (l : list A) :
  collect (xs ++ ys) = Ok l ->
  exists l1 l2, collect xs = Ok l1 /\ collect ys = Ok l2 /\ l = l1 ++ l2.
Proof.
  revert l. induction xs as [|r xs IH]; intros l H.
  - exists [], l. auto.
  - rewrite <- app_comm_cons in H.
    apply collect_cons_inv in H as (a & l' & -> & H & ->).
    apply IH in H as (l1 & l2 & H1 & H2 & ->).
    exists (a :: l1), l2. simpl. rewrite H1. auto.
Qed.










Lemma dict_comprehension_combine (value : node -> result pyval)
      (es : list node) :
  forall (ks : list string) (ds : list pyval) (acc : dict),
    collect (map node_name es) = Ok ks ->
    collect (map value es) = Ok ds ->
    NoDup (map fst acc ++ ks) ->
    dict_comprehension value es acc = Ok (acc ++ combine ks ds).
Proof.
  induction es as [|e es IH]; intros ks ds acc Hks Hds Hnd.
  - simpl in *. injection Hks as <-. injection Hds as <-.
    simpl. now rewrite app_nil_r.
  - simpl map in Hks, Hds.
    apply collect_cons_inv in Hks as (k & ks' & Hk & Hks & ->).
    apply collect_cons_inv in Hds as (d & ds' & Hd & Hds & ->).
    simpl. rewrite Hk, Hd. simpl.
    rewrite dict_set_fresh.
    + rewrite (IH ks' ds' (acc ++ [(k, d)]) Hks Hds).
      * now rewrite <- app_assoc.
      * rewrite map_app. simpl. now rewrite <- app_assoc.
    + apply NoDup_remove_2 in Hnd. intros Hin. apply Hnd.
      apply in_or_app. now left.
Qed.

(** C7, as the code has it.  A record node decodes to a mapping with one
    entry, under the record's own name, whose value is the mapping from
    each child's name to the decoded child, in the order of the children
    (the names being distinct). *)
Theorem record_decodes_under_its_own_name
        (name : string) (isNull : bool) (getValue : option pyval)
        (getChoice : option node) (values children : list node)
        (ks : list string) (ds : list pyval) :
  collect (map node_name children) = Ok ks ->
  NoDup ks ->
  collect (map _element_to_dict children) = Ok ds ->
  _element_to_dict
    (Element name SEQUENCE false isNull getValue getChoice values children)
  = Ok (PyDict [(name, PyDict (combine ks ds))]).
Proof.
  intros Hks Hnd Hds. simpl.
  rewrite (dict_comprehension_combine _ children ks ds [] Hks Hds Hnd).
  reflexivity.
Qed.

(** ** The event pump *)

Lemma emit_all_collect (to_dict : bool) (msgs : list Message) (ys : list item) :
  collect (map (emit to_dict) msgs) = Ok ys ->
  emit_all to_dict msgs = (ys, Ok tt).
Proof.
  revert ys. induction msgs as [|msg msgs IH]; intros ys H.
  - simpl in H. injection H as <-. reflexivity.
  - simpl map in H. apply collect_cons_inv in H as (y & ys' & Hy & H & ->).
    simpl. rewrite Hy, (IH ys' H). reflexivity.
Qed.

Lemma collect_emit_all (to_dict : bool) (msgs : list Message) (ys : list item) :
  emit_all to_dict msgs = (ys, Ok tt) ->
  collect (map (emit to_dict) msgs) = Ok ys.
Proof.
  revert ys. induction msgs as [|msg msgs IH]; intros ys H; simpl in *.
  - injection H as <-. reflexivity.
  - destruct (emit to_dict msg) as [y| |]; try discriminate.
    destruct (emit_all to_dict msgs) as [ys' r].
    injection H as <- ->. simpl. rewrite (IH ys' eq_refl). reflexivity.
Qed.

Lemma collect_app_intro {A} (xs ys : list (result A)) (l1 l2 : list A) :
  collect xs = Ok l1 -> collect ys = Ok l2 -> collect (xs ++ ys) = Ok (l1 ++ l2).
Proof.
  revert l1. induction xs as [|r xs IH]; intros l1 H1 H2.
  - simpl in H1. injection H1 as <-. exact H2.
  - apply collect_cons_inv in H1 as (a & l' & -> & H1 & ->).
    simpl. rewrite (IH l' H1 H2). reflexivity.
Qed.

Lemma count_responses_nonneg (evs : list Event) : (0 <= count_responses evs)%Z.
Proof.
  induction evs as [|ev evs IH]; simpl; [lia|].
  destruct (EventType_eqb (eventType ev) RESPONSE); lia.
Qed.

Lemma count_responses_cons (ev : Event) (evs : list Event) :
  count_responses (ev :: evs)
  = ((if EventType_eqb (eventType ev) RESPONSE then 1 else 0)
     + count_responses evs)%Z.
Proof. reflexivity. Qed.

Lemma prepend_nil (r : run) : prepend [] r = r.
Proof. destruct r. reflexivity. Qed.

Lemma prepend_prepend (ys1 ys2 : list item) (r : run) :
  prepend ys1 (prepend ys2 r) = prepend (ys1 ++ ys2) r.
Proof. unfold prepend. simpl. now rewrite app_assoc. Qed.

Lemma after_polls_0 (t : Z) (s : Session) : after_polls t 0 (queue s) s = s.
Proof. destruct s. unfold after_polls. simpl. now rewrite app_nil_r. Qed.

Lemma after_polls_S (t : Z) (n : nat) (q q' : list Event) (s : Session) :
  after_polls t n q' (with_queue (logged (Call_nextEvent t) s) q)
  = after_polls t (S n) q' s.
Proof. unfold after_polls. simpl. now rewrite <- app_assoc. Qed.

(** The loop goes through a front of response-typed events as long as the
    counter does not reach zero there: it yields their messages and polls
    on, with the counter lowered by the number of [RESPONSE] events. *)
Lemma receive_loop_through (pre : list Event) :
  forall (fuel : nat) (t : Z) (to_dict : bool) (N : Z) (s : Session)
         (q : list Event) (ys : list item),
    queue s = pre ++ q ->
    forallb response_typed pre = true ->
    ~ (1 <= N <= count_responses pre)%Z ->
    collect (map (emit to_dict) (messages_of pre)) = Ok ys ->
    receive_loop (List.length pre + fuel) t to_dict N s
    = prepend ys (receive_loop fuel t to_dict (N - count_responses pre)
                               (after_polls t (List.length pre) q s)).
Proof.
  induction pre as [|ev pre IH]; intros fuel t to_dict N s q ys Hq Hall HN Hys.
  - simpl in *. injection Hys as <-. rewrite prepend_nil, Z.sub_0_r.
    rewrite <- Hq, after_polls_0. reflexivity.
  - simpl in Hall. apply andb_true_iff in Hall as [Hev Hall].
    unfold messages_of in Hys. simpl flat_map in Hys. rewrite map_app in Hys.
    apply collect_app in Hys as (ys1 & ys2 & Hys1 & Hys2 & ->).
    pose proof (count_responses_nonneg pre) as Hnn.
    rewrite count_responses_cons in *. simpl List.length. simpl Nat.add.
    simpl receive_loop. unfold nextEvent. rewrite Hq. simpl app.
    unfold response_typed in Hev.
    rewrite <- prepend_prepend, <- after_polls_S with (q := pre ++ q).
    destruct (eventType ev) eqn:Hty; try discriminate Hev;
      cbn [_EVENT_DICT in_RESPONSE_TYPES existsb EventType_eqb _RESPONSE_TYPES
           orb negb] in HN |- *;
      rewrite (emit_all_collect _ _ _ Hys1).
    + destruct (N - 1 =? 0)%Z eqn:E1; [apply Z.eqb_eq in E1; lia|].
      rewrite (IH fuel t to_dict (N - 1)%Z
                 (with_queue (logged (Call_nextEvent t) s) (pre ++ q)) q ys2
                 eq_refl Hall); [|lia|exact Hys2].
      replace (N - (1 + count_responses pre))%Z
        with (N - 1 - count_responses pre)%Z by lia.
      reflexivity.
    + rewrite (IH fuel t to_dict N
                 (with_queue (logged (Call_nextEvent t) s) (pre ++ q)) q ys2
                 eq_refl Hall); [|lia|exact Hys2].
      replace (N - (0 + count_responses pre))%Z
        with (N - count_responses pre)%Z by lia.
      reflexivity.
Qed.

Lemma receive_loop_last_response
      (fuel : nat) (t : Z) (to_dict : bool) (s : Session)
      (last : Event) (rest : list Event) (ys : list item) :
  queue s = last :: rest ->
  eventType last = RESPONSE ->
  collect (map (emit to_dict) (messages last)) = Ok ys ->
  receive_loop (S fuel) t to_dict 1 s
  = mkRun ys Finished (with_queue (logged (Call_nextEvent t) s) rest).
Proof.
  intros Hq Hty Hys. simpl. unfold nextEvent. rewrite Hq, Hty.
  cbn [_EVENT_DICT in_RESPONSE_TYPES existsb EventType_eqb _RESPONSE_TYPES orb].
  rewrite (emit_all_collect _ _ _ Hys). reflexivity.
Qed.

Lemma receive_loop_timeout_event
      (fuel : nat) (t : Z) (to_dict : bool) (N : Z) (s : Session)
      (ev : Event) (rest : list Event) :
  queue s = ev :: rest ->
  eventType ev = TIMEOUT ->
  receive_loop (S fuel) t to_dict N s
  = mkRun [] (Failed (RuntimeError timeout_text))
          (with_queue (logged (Call_nextEvent t) s) rest).
Proof.
  intros Hq Hty. simpl. unfold nextEvent. rewrite Hq, Hty. reflexivity.
Qed.

Lemma receive_loop_wait_runs_out
      (fuel : nat) (t : Z) (to_dict : bool) (N : Z) (s : Session) :
  queue s = [] ->
  t <> 0%Z ->
  receive_loop (S fuel) t to_dict N s
  = mkRun [] (Failed (RuntimeError timeout_text)) (logged (Call_nextEvent t) s).
Proof.
  intros Hq Ht. simpl. unfold nextEvent. rewrite Hq.
  apply Z.eqb_neq in Ht. rewrite Ht. reflexivity.
Qed.

(** A run that ends with [break] has polled a front of response-typed
    events that holds exactly [N] [RESPONSE] events, the last of them at
    its end, and has yielded the messages of that front. *)
Lemma receive_loop_finished (fuel : nat) :
  forall (t : Z) (to_dict : bool) (N : Z) (s : Session),
    ending_of (receive_loop fuel t to_dict N s) = Finished ->
    exists pre last rest,
      queue s = pre ++ last :: rest
      /\ forallb response_typed pre = true
      /\ eventType last = RESPONSE
      /\ count_responses pre = (N - 1)%Z
      /\ collect (map (emit to_dict) (messages_of (pre ++ [last])))
         = Ok (yielded (receive_loop fuel t to_dict N s))
      /\ queue (session_after (receive_loop fuel t to_dict N s)) = rest.
Proof.
  induction fuel as [|fuel IH]; intros t to_dict N s; [discriminate|].
  simpl receive_loop. unfold nextEvent.
  destruct (queue s) as [|ev q] eqn:Hq.
  - destruct (t =? 0)%Z; discriminate.
  - destruct (eventType ev) eqn:Hty;
      cbn [_EVENT_DICT in_RESPONSE_TYPES existsb EventType_eqb _RESPONSE_TYPES
           orb negb]; try discriminate.
    + destruct (emit_all to_dict (messages ev)) as [ys [[]| |]] eqn:Hem;
        try discriminate.
      apply collect_emit_all in Hem.
      destruct (N - 1 =? 0)%Z eqn:E.
      * intros _. apply Z.eqb_eq in E. exists [], ev, q.
        unfold messages_of. simpl. rewrite !app_nil_r. repeat split; auto.
      * intros Hfin.
        destruct (IH t to_dict (N - 1)%Z _ Hfin)
          as (pre & last & rest & Hq' & Hall & Hlast & Hcount & Hys & Hrest).
        exists (ev :: pre), last, rest. simpl in Hq'.
        rewrite count_responses_cons, Hty, Hcount. simpl forallb.
        unfold response_typed at 1. rewrite Hty.
        repeat split; auto.
        -- simpl. now rewrite Hq'.
        -- cbn [EventType_eqb]. lia.
        -- unfold messages_of in *. simpl flat_map. rewrite map_app.
           apply collect_app_intro; assumption.
    + destruct (emit_all to_dict (messages ev)) as [ys [[]| |]] eqn:Hem;
        try discriminate.
      apply collect_emit_all in Hem.
      intros Hfin.
      destruct (IH t to_dict N _ Hfin)
        as (pre & last & rest & Hq' & Hall & Hlast & Hcount & Hys & Hrest).
      exists (ev :: pre), last, rest. simpl in Hq'.
      rewrite count_responses_cons, Hty, Hcount. simpl forallb.
      unfold response_typed at 1. rewrite Hty.
      repeat split; auto.
      * simpl. now rewrite Hq'.
      * unfold messages_of in *. simpl flat_map. rewrite map_app.
        apply collect_app_intro; assumption.
Qed.


(** The fuel of [_receive_events] is enough: more fuel changes nothing. *)
Lemma receive_loop_fuel (fuel : nat) :
  forall (fuel' : nat) (t : Z) (to_dict : bool) (N : Z) (s : Session),
    (List.length (queue s) < fuel)%nat ->
    (List.length (queue s) < fuel')%nat ->
    receive_loop fuel t to_dict N s = receive_loop fuel' t to_dict N s.
Proof.
  induction fuel as [|fuel IH]; intros [|fuel'] t to_dict N s H H'; try lia.
  simpl receive_loop. unfold nextEvent.
  destruct (queue s) as [|ev q] eqn:Hq; [destruct (t =? 0)%Z; reflexivity|].
  simpl in H, H'.
  assert (Hrec : forall n,
             receive_loop fuel t to_dict n
                          (with_queue (logged (Call_nextEvent t) s) q)
             = receive_loop fuel' t to_dict n
                            (with_queue (logged (Call_nextEvent t) s) q))
    by (intros n; apply IH; simpl; lia).
  destruct (_EVENT_DICT (eventType ev)); try reflexivity.
  destruct (if in_RESPONSE_TYPES (eventType ev)
            then emit_all to_dict (messages ev) else ([], Ok tt))
    as [ys [[]| |]]; try reflexivity.
  now rewrite !Hrec.
Qed.

(** The decoder always comes back. *)
Lemma collect_comes_back {X A} (f : X -> result A) (xs : list X) :
  Forall (fun x => f x <> Hang) xs -> collect (map f xs) <> Hang.
Proof.
  induction 1 as [|x xs Hx _ IH]; simpl; [discriminate|].
  destruct (f x); simpl; try congruence.
  destruct (collect (map f xs)); simpl; congruence.
Qed.

Lemma dict_comprehension_comes_back (value : node -> result pyval)
      (es : list node) :
  Forall (fun e => value e <> Hang) es ->
  forall acc, dict_comprehension value es acc <> Hang.
Proof.
  induction 1 as [|e es He _ IH]; intros acc; simpl; [discriminate|].
  destruct (node_name e) eqn:Hn; simpl; try discriminate.
  - destruct (value e); simpl; [apply IH|discriminate|congruence].
  - destruct e; discriminate.
Qed.

Lemma decoder_comes_back (n : node) : _element_to_dict n <> Hang.
Proof.
  induction n as [v|name dtype isArray isNull getValue getChoice values elements
                  IHc IHv IHe] using node_induction.
  - destruct v; discriminate.
  - pose proof (collect_comes_back _ values IHv) as Hv.
    pose proof (dict_comprehension_comes_back _ elements IHe []) as He.
    simpl. destruct dtype.
    + destruct getChoice as [c|]; [|discriminate].
      destruct (_element_to_dict c); simpl; congruence.
    + destruct isArray.
      * destruct (collect (map _element_to_dict values)); simpl; congruence.
      * destruct (dict_comprehension _element_to_dict elements []); simpl;
          congruence.
    + destruct isArray; [|discriminate].
      destruct (collect (map _element_to_dict values)); simpl; congruence.
Qed.

Lemma emit_all_comes_back (to_dict : bool) (msgs : list Message) :
  snd (emit_all to_dict msgs) <> Hang.
Proof.
  induction msgs as [|msg msgs IH]; simpl; [discriminate|].
  destruct (emit to_dict msg) eqn:He; simpl; try discriminate.
  - destruct (emit_all to_dict msgs). exact IH.
  - unfold emit, message_to_dict in He. destruct to_dict; [|discriminate].
    pose proof (decoder_comes_back (asElement msg)) as Hd.
    destruct (_element_to_dict (asElement msg)); simpl in He; congruence.
Qed.

(** With a timeout that is not 0 the generator always ends: it breaks or
    it raises. *)
Lemma receive_loop_ends (fuel : nat) :
  forall (t : Z) (to_dict : bool) (N : Z) (s : Session),
    t <> 0%Z ->
    (List.length (queue s) < fuel)%nat ->
    ending_of (receive_loop fuel t to_dict N s) <> Hung.
Proof.
  induction fuel as [|fuel IH]; intros t to_dict N s Ht Hlen; [lia|].
  simpl receive_loop. unfold nextEvent.
  destruct (queue s) as [|ev q] eqn:Hq.
  - apply Z.eqb_neq in Ht. rewrite Ht. discriminate.
  - simpl in Hlen.
    assert (Hrec : forall n,
               ending_of (receive_loop fuel t to_dict n
                            (with_queue (logged (Call_nextEvent t) s) q))
               <> Hung) by (intros n; apply IH; [exact Ht|simpl; lia]).
    pose proof (emit_all_comes_back to_dict (messages ev)) as Hem.
    destruct (eventType ev);
      cbn [_EVENT_DICT in_RESPONSE_TYPES existsb EventType_eqb _RESPONSE_TYPES
           orb negb]; try discriminate.
    + destruct (emit_all to_dict (messages ev)) as [ys [[]| |]];
        try discriminate; [|now elim Hem].
      destruct (N - 1 =? 0)%Z; [discriminate|apply Hrec].
    + destruct (emit_all to_dict (messages ev)) as [ys [[]| |]];
        try discriminate; [apply Hrec|now elim Hem].
Qed.

(** C9, as the code has it.  When a poll of the generator yields a
    [TIMEOUT] event (one that was delivered, or the one the library makes
    up when the wait runs out), after a front of response-typed events
    that has not ended the run, the generator has yielded the messages of
    that front and raises [RuntimeError] with the fixed text
    ['Timeout, increase BCon.timeout attribute'], which names the attribute
    and is the same for every timeout: the event is taken off the queue
    and the error comes out. *)
Theorem timeout_event_raises_fixed_text
        (self : BCon) (to_dict : bool) (N : Z) (s : Session)
        (pre : list Event) (ys : list item) :
  forallb response_typed pre = true ->
  ~ (1 <= N <= count_responses pre)%Z ->
  collect (map (emit to_dict) (messages_of pre)) = Ok ys ->
  (exists ev rest, queue s = pre ++ ev :: rest /\ eventType ev = TIMEOUT)
  \/ (queue s = pre /\ timeout self <> 0%Z) ->
  yielded (_receive_events self N to_dict s) = ys
  /\ ending_of (_receive_events self N to_dict s)
     = Failed (RuntimeError [Lit "Timeout, increase BCon.timeout attribute"]).
Proof.
  intros Hall HN Hys Hpoll.
  assert (E : exists s', _receive_events self N to_dict s
                         = mkRun ys (Failed (RuntimeError timeout_text)) s').
  { unfold _receive_events.
    destruct Hpoll as [(ev & rest & Hq & Hty)|[Hq Ht]]; eexists.
    - rewrite Hq. rewrite length_app. simpl List.length.
      replace (S (List.length pre + S (List.length rest)))
        with (List.length pre + S (S (List.length rest)))%nat by lia.
      rewrite (receive_loop_through pre _ _ _ _ s (ev :: rest) ys Hq Hall HN Hys).
      erewrite receive_loop_timeout_event; [|reflexivity|exact Hty].
      unfold prepend. simpl. rewrite app_nil_r. reflexivity.
    - rewrite Hq.
      replace (S (List.length pre)) with (List.length pre + 1)%nat by lia.
      assert (Hq' : queue s = pre ++ []) by now rewrite app_nil_r.
      rewrite (receive_loop_through pre _ _ _ _ s [] ys Hq' Hall HN Hys).
      erewrite receive_loop_wait_runs_out; [|reflexivity|exact Ht].
      unfold prepend. simpl. rewrite app_nil_r. reflexivity. }
  destruct E as [s' ->]. split; reflexivity.
Qed.

(** C9, as the claim has it, fails: with a timeout of 500 ms and an empty
    queue the wait runs out, and the text of the error does not hold 500. *)
Lemma timeout_text_does_not_name_the_duration :
  ~ (exists txt,
        ending_of (_receive_events (sample_con 500) 1 true (sample_session []))
        = Failed (RuntimeError txt)
        /\ mentions_int (timeout (sample_con 500)) txt = true).
Proof.
  intros (txt & H & Hm). vm_compute in H. injection H as <-.
  vm_compute in Hm. discriminate.
Qed.

(** ** Construction and start-up *)

Lemma nextEvent_calls (t : Z) (s s1 : Session) (r : result Event) :
  nextEvent t s = (r, s1) -> calls s1 = calls s ++ [Call_nextEvent t].
Proof.
  unfold nextEvent. destruct (queue s); [destruct (t =? 0)%Z|];
    intros H; injection H as _ <-; reflexivity.
Qed.

(** C6.  Adopting a session supplied by the caller makes one poll of its
    queue and no other call, so no request has been sent; when the poll
    returns an event of another type than [TIMEOUT] the construction
    raises [ValueError], and an object comes out only when the poll
    returned a [TIMEOUT] event. *)
Theorem adoption_polls_once_and_accepts_only_a_timeout
        (blpapi_Session : string -> Z -> Session) (host : string)
        (port : Z) (dbg : bool) (t : Z) (session : Session)
        (identity : option pyval) (ev : Event) (s1 : Session) :
  nextEvent t session = (Ok ev, s1) ->
  calls (snd (__init__ blpapi_Session host port dbg t (Some session) identity))
  = calls session ++ [Call_nextEvent t]
  /\ (eventType ev <> TIMEOUT ->
      fst (__init__ blpapi_Session host port dbg t (Some session) identity)
      = Raise (ValueError [Msg [Lit "Flush event queue of blpapi.Session prior to instantiation"]]))
  /\ ((exists self,
          fst (__init__ blpapi_Session host port dbg t (Some session) identity)
          = Ok self)
      <-> eventType ev = TIMEOUT).
Proof.
  intros Hpoll. pose proof (nextEvent_calls _ _ _ _ Hpoll) as Hcalls.
  unfold __init__, bind. rewrite Hpoll.
  destruct (eventType ev) eqn:Hty; simpl; rewrite Hcalls;
    (split; [reflexivity|split; [intros Hne; try reflexivity; now elim Hne|]]);
    split; try discriminate; try (intros [self H]; discriminate);
    intros _; eauto.
Qed.

Lemma await_offending (expected : EventType) (expected_name : string)
      (s : Session) (ev : Event) (q : list Event) :
  queue s = ev :: q ->
  eventType ev <> expected ->
  await expected expected_name s
  = (match _EVENT_DICT (eventType ev) with
     | Ok name => Raise (RuntimeError (expected_but_received expected_name name))
     | Raise e => Raise e
     | Hang => Hang
     end, with_queue (logged (Call_nextEvent 0) s) q).
Proof.
  intros Hq Hne. unfold await, bind, nextEvent, lift. rewrite Hq.
  destruct (_EVENT_DICT (eventType ev)); try reflexivity.
  destruct (EventType_eqb (eventType ev) expected) eqn:E; [|reflexivity].
  exfalso. apply Hne. destruct (eventType ev), expected; try discriminate;
    reflexivity.
Qed.

Lemma await_expected (expected : EventType) (expected_name : string)
      (s : Session) (ev : Event) (q : list Event) :
  queue s = ev :: q ->
  eventType ev = expected ->
  (exists name, _EVENT_DICT expected = Ok name) ->
  await expected expected_name s
  = (Ok tt, with_queue (logged (Call_nextEvent 0) s) q).
Proof.
  intros Hq Hty [name Hname]. unfold await, bind, nextEvent, lift.
  rewrite Hq, Hty, Hname. destruct expected; reflexivity.
Qed.

Lemma bind_Ok {A B} (m : M A) (f : A -> M B) (s s' : Session) (a : A) :
  m s = (Ok a, s') -> bind m f s = f a s'.
Proof. unfold bind. now intros ->. Qed.

Lemma bind_Raise {A B} (m : M A) (f : A -> M B) (s s' : Session) (e : exn) :
  m s = (Raise e, s') -> bind m f s = (Raise e, s').
Proof. unfold bind. now intros ->. Qed.

Lemma bind_Hang {A B} (m : M A) (f : A -> M B) (s s' : Session) :
  m s = (Hang, s') -> bind m f s = (Hang, s').
Proof. unfold bind. now intros ->. Qed.

Lemma start_started (self : BCon) (s : Session) :
  start_answer s = true ->
  start self s
  = ((await SESSION_STATUS "SESSION_STATUS" >>
      await SESSION_STATUS "SESSION_STATUS") >>
     _init_services self) (logged Call_start s).
Proof.
  intros H. unfold start, session_start. unfold bind at 1. now rewrite H.
Qed.

(** [start] on a started session whose first event is not a
    [SESSION_STATUS] event. *)
Lemma start_first_offending (self : BCon) (s : Session) (ev : Event)
      (q : list Event) :
  start_answer s = true ->
  queue s = ev :: q ->
  eventType ev <> SESSION_STATUS ->
  fst (start self s)
  = match _EVENT_DICT (eventType ev) with
    | Ok name => Raise (RuntimeError
                          (expected_but_received "SESSION_STATUS" name))
    | Raise e => Raise e
    | Hang => Hang
    end
  /\ calls (snd (start self s)) = calls s ++ [Call_start; Call_nextEvent 0].
Proof.
  intros Hstart Hq Hne. rewrite (start_started _ _ Hstart).
  pose proof (await_offending SESSION_STATUS "SESSION_STATUS"
                              (logged Call_start s) ev q Hq Hne) as Ha.
  destruct (_EVENT_DICT (eventType ev)).
  - rewrite (bind_Raise _ _ _ _ _ (bind_Raise _ _ _ _ _ Ha)).
    simpl. now rewrite <- app_assoc.
  - rewrite (bind_Raise _ _ _ _ _ (bind_Raise _ _ _ _ _ Ha)).
    simpl. now rewrite <- app_assoc.
  - rewrite (bind_Hang _ _ _ _ (bind_Hang _ _ _ _ Ha)).
    simpl. now rewrite <- app_assoc.
Qed.

(** [start] on a started session whose first event is a [SESSION_STATUS]
    event and whose second event is not. *)
Lemma start_second_offending (self : BCon) (s : Session) (ev1 ev : Event)
      (q : list Event) :
  start_answer s = true ->
  queue s = ev1 :: ev :: q ->
  eventType ev1 = SESSION_STATUS ->
  eventType ev <> SESSION_STATUS ->
  fst (start self s)
  = match _EVENT_DICT (eventType ev) with
    | Ok name => Raise (RuntimeError
                          (expected_but_received "SESSION_STATUS" name))
    | Raise e => Raise e
    | Hang => Hang
    end
  /\ calls (snd (start self s))
     = calls s ++ [Call_start; Call_nextEvent 0; Call_nextEvent 0].
Proof.
  intros Hstart Hq H1 Hne. rewrite (start_started _ _ Hstart).
  assert (Ha1 : await SESSION_STATUS "SESSION_STATUS" (logged Call_start s)
                = (Ok tt, with_queue (logged (Call_nextEvent 0)
                                             (logged Call_start s)) (ev :: q)))
    by (apply (await_expected _ _ _ ev1);
        [exact Hq|exact H1|eexists; reflexivity]).
  pose proof (await_offending SESSION_STATUS "SESSION_STATUS"
                              (with_queue (logged (Call_nextEvent 0)
                                                  (logged Call_start s))
                                          (ev :: q))
                              ev q eq_refl Hne) as Ha2.
  destruct (_EVENT_DICT (eventType ev)).
  - rewrite (bind_Raise _ _ _ _ _
               (eq_trans (bind_Ok _ _ _ _ _ Ha1) Ha2)).
    simpl. now rewrite <- !app_assoc.
  - rewrite (bind_Raise _ _ _ _ _
               (eq_trans (bind_Ok _ _ _ _ _ Ha1) Ha2)).
    simpl. now rewrite <- !app_assoc.
  - rewrite (bind_Hang _ _ _ _
               (eq_trans (bind_Ok _ _ _ _ _ Ha1) Ha2)).
    simpl. now rewrite <- !app_assoc.
Qed.

(** C5, as the code has it.  When the session has started and one of the
    two events [start] waits for is not a [SESSION_STATUS] event, [start]
    raises [RuntimeError] with a text that names the type received (or
    the [KeyError] of the name lookup when the type has no name), never
    [ConnectionError]; [ConnectionError] is what [start] raises when the
    session has not started and the event polled is a [SESSION_STATUS]
    event.  In both cases the calls made on the session are [start()] and
    polls: no service has been opened or fetched and no request sent. *)
Theorem start_fails_before_any_service (self : BCon) (s : Session) (ev : Event) :
  (start_answer s = true ->
   awaited (queue s) ev ->
   eventType ev <> SESSION_STATUS ->
   (forall name, _EVENT_DICT (eventType ev) = Ok name ->
                 fst (start self s)
                 = Raise (RuntimeError
                            (expected_but_received "SESSION_STATUS" name)))
   /\ (forall e, _EVENT_DICT (eventType ev) = Raise e ->
                 fst (start self s) = Raise e)
   /\ (forall txt, fst (start self s) <> Raise (ConnectionError txt))
   /\ exists added, calls (snd (start self s)) = calls s ++ added
                    /\ existsb uses_service added = false)
  /\ (start_answer s = false ->
      (exists q, queue s = ev :: q) ->
      eventType ev = SESSION_STATUS ->
      fst (start self s)
      = Raise (ConnectionError [Lit "Could not start blpapi.Session"])
      /\ exists added, calls (snd (start self s)) = calls s ++ added
                       /\ existsb uses_service added = false).
Proof.
  split.
  - intros Hstart Haw Hne.
    assert (E : fst (start self s)
                = match _EVENT_DICT (eventType ev) with
                  | Ok name => Raise (RuntimeError
                                        (expected_but_received "SESSION_STATUS" name))
                  | Raise e => Raise e
                  | Hang => Hang
                  end
                /\ exists added, calls (snd (start self s)) = calls s ++ added
                                 /\ existsb uses_service added = false).
    { inversion Haw as [ev0 q Hq|ev1 ev0 q H1 Hq]; subst ev0.
      - destruct (start_first_offending self s ev q Hstart (eq_sym Hq) Hne)
          as [Hr Hc].
        split; [exact Hr|]. eexists. split; [exact Hc|reflexivity].
      - destruct (start_second_offending self s ev1 ev q Hstart (eq_sym Hq)
                                         H1 Hne) as [Hr Hc].
        split; [exact Hr|]. eexists. split; [exact Hc|reflexivity]. }
    destruct E as [-> Hcalls]. split; [|split; [|split]].
    + now intros name ->.
    + now intros e ->.
    + intros txt. destruct (eventType ev); simpl; discriminate.
    + exact Hcalls.
  - intros Hstart [q Hq] Hty.
    unfold start, bind, session_start, nextEvent. rewrite Hstart. simpl.
    rewrite Hq, Hty. simpl. split; [reflexivity|].
    exists [Call_start; Call_nextEvent (timeout self)].
    rewrite <- app_assoc. split; reflexivity.
Qed.

(** C5, as the claim has it, fails: the session starts, the first event
    polled is a [TIMEOUT] event, and [start] raises [RuntimeError], which is
    not [ConnectionError]. *)
Lemma start_raises_RuntimeError_not_ConnectionError :
  ~ (exists txt,
        fst (start (fresh_con 500) (sample_session [mkEvent TIMEOUT []]))
        = Raise (ConnectionError txt)).
Proof. intros [txt H]. vm_compute in H. discriminate. Qed.

(** ** Building and sending requests *)

Lemma flush_drains (q : list Event) :
  forall s, queue s = q -> flush (S (List.length q)) s = (Ok tt, drained s).
Proof.
  induction q as [|ev q IH]; intros s Hq.
  - unfold drained. simpl. unfold bind, tryNextEvent, ret, logged.
    rewrite Hq. reflexivity.
  - change (flush (S (List.length (ev :: q))) s)
      with (bind tryNextEvent
                 (fun ev => match ev with
                            | Some _ => flush (S (List.length q))
                            | None => ret tt
                            end) s).
    unfold bind, tryNextEvent. rewrite Hq.
    rewrite (IH (with_queue (logged Call_tryNextEvent s) q) eq_refl).
    unfold drained. rewrite Hq. simpl. now rewrite <- app_assoc.
Qed.

Lemma create_req_started (self : BCon) (rtype : string)
      (tickers flds : list pyval) (ovrds : list (pyval * pyval))
      (setvals : list (string * pyval)) (svc : Service) (s : Session) :
  refDataService self = Some svc ->
  exists request,
    _create_req self rtype tickers flds ovrds setvals s = (Ok request, drained s).
Proof.
  intros Hsvc. unfold _create_req, bind.
  rewrite (flush_drains (queue s) s eq_refl), Hsvc. eexists. reflexivity.
Qed.

Lemma filter_repeat_tryNextEvent (n : nat) :
  filter is_sendRequest (repeat Call_tryNextEvent n) = [].
Proof. induction n as [|n IH]; simpl; auto. Qed.

(** C10, as the code has it.  On a started connection [_send_hist] with an
    empty list of dates raises [ValueError] after the calls of
    [tryNextEvent] that empty the queue and without any other call on the
    session: the requests sent on the session are the ones sent before the
    call, and the queue is left empty. *)
Theorem send_hist_without_dates
        (self : BCon) (tickers flds : list pyval) (date_field : pyval)
        (ovrds : list (pyval * pyval)) (svc : Service) (s : Session) :
  refDataService self = Some svc ->
  fst (_send_hist self tickers flds [] date_field ovrds s)
  = Raise (ValueError [Msg [Lit "dates must by non empty"]])
  /\ calls (snd (_send_hist self tickers flds [] date_field ovrds s))
     = calls s ++ repeat Call_tryNextEvent (S (List.length (queue s)))
  /\ filter is_sendRequest
            (calls (snd (_send_hist self tickers flds [] date_field ovrds s)))
     = filter is_sendRequest (calls s)
  /\ queue (snd (_send_hist self tickers flds [] date_field ovrds s)) = [].
Proof.
  intros Hsvc. unfold _send_hist.
  destruct (create_req_started self "ReferenceDataRequest" tickers flds ovrds
                               [] svc s Hsvc) as [request Hreq].
  rewrite (bind_Ok _ _ _ _ _ Hreq). simpl.
  repeat split.
  rewrite filter_app.
  change (Call_tryNextEvent :: repeat Call_tryNextEvent (List.length (queue s)))
    with (repeat Call_tryNextEvent (S (List.length (queue s)))).
  rewrite filter_repeat_tryNextEvent. apply app_nil_r.
Qed.

(** C10, as the claim has it, fails: a stale event in the queue is gone
    after the call that raised. *)
Lemma send_hist_without_dates_changes_the_queue :
  ~ (queue (snd (_send_hist (sample_con 500) [PyStr "AUD1M CMPN Curncy"]
                            [PyStr "SETTLE_DT"] [] (PyStr "REFERENCE_DATE") []
                            (sample_session [mkEvent PARTIAL_RESPONSE []])))
     = queue (sample_session [mkEvent PARTIAL_RESPONSE []])).
Proof. vm_compute. discriminate. Qed.

(** ** Parsers *)

Lemma for_each_app {A X} (body : A -> X -> result A) (xs ys : list X)
      (acc acc' : A) :
  for_each body xs acc = Ok acc' ->
  for_each body (xs ++ ys) acc = for_each body ys acc'.
Proof.
  revert acc. induction xs as [|x xs IH]; intros acc H; simpl in *.
  - now injection H as ->.
  - destruct (body acc x) as [a| |]; simpl in *; try discriminate.
    now apply IH.
Qed.

(** The historical parser raises with the rows it holds as soon as the
    record has a [securityError] key or its list of field exceptions is not
    empty. *)
Lemma bdh_message_raises (data : list pyval) (m element d secData fes : pyval)
      (has_error : bool) (n : nat) :
  getitem m "element" = Ok element ->
  getitem element "HistoricalDataResponse" = Ok d ->
  getitem d "securityData" = Ok secData ->
  contains "securityError" secData = Ok has_error ->
  getitem secData "fieldExceptions" = Ok fes ->
  py_len fes = Ok n ->
  has_error || Nat.ltb 0 n = true ->
  bdh_message data (Decoded m) = Raise (ValueError [Obj (PyList data)]).
Proof.
  intros Hm He Hd Hc Hf Hn Hor. unfold bdh_message. simpl msg_getitem.
  rewrite Hm. simpl. rewrite He. simpl. rewrite Hd. simpl. rewrite Hc. simpl.
  rewrite Hf. simpl. rewrite Hn. simpl. rewrite Hor. reflexivity.
Qed.

(** C3, as the code has it.  For a decoded record of a subject that has a
    [securityError] key, the reference parser and the bulk parser raise
    [ValueError] with the text ['Unknow security {!r}'] of the subject, and
    nothing else: the rows gathered so far are not in the fault.  The
    historical parser raises [ValueError] with the rows gathered so far,
    and nothing else: the subject is not in the fault. *)
Theorem security_error_faults (secData : pyval) :
  contains "securityError" secData = Ok true ->
  (forall security_data_dict ticker flds corrId data,
      getitem security_data_dict "securityData" = Ok secData ->
      getitem secData "security" = Ok ticker ->
      ref_security flds corrId data security_data_dict
      = Raise (ValueError [Msg [Lit "Unknow security "; Repr ticker]])
      /\ bulkref_security flds corrId data security_data_dict
         = Raise (ValueError [Msg [Lit "Unknow security "; Repr ticker]]))
  /\ (forall data m element d fes n,
         getitem m "element" = Ok element ->
         getitem element "HistoricalDataResponse" = Ok d ->
         getitem d "securityData" = Ok secData ->
         getitem secData "fieldExceptions" = Ok fes ->
         py_len fes = Ok n ->
         bdh_message data (Decoded m) = Raise (ValueError [Obj (PyList data)])).
Proof.
  intros Herr. split.
  - intros sdd ticker flds corrId data Hs Ht.
    unfold ref_security, bulkref_security, checked_fieldData.
    rewrite Hs. simpl. rewrite Ht. simpl. rewrite Herr. simpl. auto.
  - intros data m element d fes n Hm He Hd Hf Hn.
    now apply (bdh_message_raises data m element d secData fes true n).
Qed.

(** C3, as the claim has it, fails: the response holds a known security
    and then an unknown one; the fault of the reference parser names the
    unknown security and does not carry the row made for the known one. *)
Lemma unknown_security_fault_drops_the_rows :
  ~ (exists e,
        _parse_ref (sample_con 500) ["PX_LAST"] false 1
                   (answered known_then_unknown) = Raise e
        /\ names_value (PyStr "XXX Equity") e
        /\ carries_rows [PyList [PyStr "IBM US Equity"; PyStr "PX_LAST";
                                 PyFloat "154.1"]] e).
Proof.
  intros (e & H & _ & Hrows). vm_compute in H. injection H as <-.
  unfold carries_rows in Hrows. simpl in Hrows.
  destruct Hrows as [Hrows|[]]. discriminate.
Qed.

Lemma existsb_first {X} (f : X -> bool) (l : list X) :
  existsb f l = true ->
  exists before x after,
    l = before ++ x :: after /\ existsb f before = false /\ f x = true.
Proof.
  induction l as [|y l IH]; simpl; [discriminate|].
  destruct (f y) eqn:Hy; simpl.
  - intros _. exists [], y, l. auto.
  - intros H. destruct (IH H) as (before & x & after & -> & Hb & Hx).
    exists (y :: before), x, after. simpl. rewrite Hy. auto.
Qed.

Lemma check_fieldException_shaped (fe_dict : pyval) :
  shaped fe_dict = true ->
  check_fieldException tt fe_dict
  = if invalid_field fe_dict then
      match fieldId_of fe_dict with
      | Ok fieldId => Raise (ValueError [Msg [Str fieldId; Lit ": INVALID_FIELD"]])
      | Raise e => Raise e
      | Hang => Hang
      end
    else Ok tt.
Proof.
  unfold shaped, invalid_field, subcategory_of, fieldId_of, check_fieldException.
  destruct (getitem fe_dict "fieldExceptions") as [fe| |]; simpl;
    try discriminate.
  destruct (getitem fe "errorInfo") as [e1| |]; simpl; try discriminate.
  destruct (getitem e1 "errorInfo") as [e2| |]; simpl; try discriminate.
  destruct (getitem e2 "subcategory") as [sub| |]; simpl; try discriminate.
  destruct (getitem fe "fieldId") as [fid| |]; simpl; try discriminate.
  reflexivity.
Qed.

Lemma check_none_invalid (entries : list pyval) :
  forallb shaped entries = true ->
  existsb invalid_field entries = false ->
  for_each check_fieldException entries tt = Ok tt.
Proof.
  induction entries as [|fe entries IH]; simpl; [reflexivity|].
  intros Hs Hi. apply andb_true_iff in Hs as [Hs Hss].
  apply orb_false_iff in Hi as [Hi His].
  rewrite (check_fieldException_shaped fe Hs), Hi. simpl. now apply IH.
Qed.

Lemma check_first_invalid (before after : list pyval) (fe_dict fieldId : pyval) :
  forallb shaped (before ++ fe_dict :: after) = true ->
  existsb invalid_field before = false ->
  invalid_field fe_dict = true ->
  fieldId_of fe_dict = Ok fieldId ->
  for_each check_fieldException (before ++ fe_dict :: after) tt
  = Raise (ValueError [Msg [Str fieldId; Lit ": INVALID_FIELD"]]).
Proof.
  intros Hs Hb Hi Hf. rewrite forallb_app in Hs.
  apply andb_true_iff in Hs as [Hsb Hs]. simpl in Hs.
  apply andb_true_iff in Hs as [Hsf _].
  rewrite (for_each_app _ _ _ _ _ (check_none_invalid before Hsb Hb)).
  simpl. rewrite (check_fieldException_shaped fe_dict Hsf), Hi, Hf.
  reflexivity.
Qed.

(** C4, as the code has it.  On a list of entries that have a subcategory
    and a field id, [_check_fieldExceptions], the check of the reference
    and bulk parsers, raises if and only if some entry has the subcategory
    [INVALID_FIELD]; the fault is [ValueError] with the text
    ['{}: INVALID_FIELD'] of the field id of the first such entry, and
    without such an entry the check returns.  The historical parser does
    not look at subcategories: it raises [ValueError] with the rows
    gathered so far whenever the list is not empty. *)
Theorem field_exception_faults (entries : list pyval) :
  forallb shaped entries = true ->
  ((exists e, _check_fieldExceptions (PyList entries) = Raise e)
   <-> existsb invalid_field entries = true)
  /\ (forall before fe_dict after fieldId,
         entries = before ++ fe_dict :: after ->
         existsb invalid_field before = false ->
         invalid_field fe_dict = true ->
         fieldId_of fe_dict = Ok fieldId ->
         _check_fieldExceptions (PyList entries)
         = Raise (ValueError [Msg [Str fieldId; Lit ": INVALID_FIELD"]]))
  /\ (existsb invalid_field entries = false ->
      _check_fieldExceptions (PyList entries) = Ok tt)
  /\ (forall data m element d secData has_error,
         getitem m "element" = Ok element ->
         getitem element "HistoricalDataResponse" = Ok d ->
         getitem d "securityData" = Ok secData ->
         contains "securityError" secData = Ok has_error ->
         getitem secData "fieldExceptions" = Ok (PyList entries) ->
         entries <> [] ->
         bdh_message data (Decoded m) = Raise (ValueError [Obj (PyList data)])).
Proof.
  intros Hs. unfold _check_fieldExceptions. simpl py_iter. simpl rbind.
  assert (Hfirst : forall before fe_dict after fieldId,
             entries = before ++ fe_dict :: after ->
             existsb invalid_field before = false ->
             invalid_field fe_dict = true ->
             fieldId_of fe_dict = Ok fieldId ->
             for_each check_fieldException entries tt
             = Raise (ValueError [Msg [Str fieldId; Lit ": INVALID_FIELD"]])).
  { intros before fe_dict after fieldId -> Hb Hi Hf.
    now apply check_first_invalid. }
  split; [|split; [exact Hfirst|split]].
  - split.
    + intros [e He]. destruct (existsb invalid_field entries) eqn:E; [reflexivity|].
      rewrite (check_none_invalid entries Hs E) in He. discriminate.
    + intros E. destruct (existsb_first _ _ E)
        as (before & fe_dict & after & Hentries & Hb & Hi).
      assert (Hsh : shaped fe_dict = true).
      { rewrite Hentries, forallb_app in Hs.
        apply andb_true_iff in Hs as [_ Hs]. simpl in Hs.
        now apply andb_true_iff in Hs as [Hs _]. }
      unfold shaped in Hsh.
      destruct (subcategory_of fe_dict); try discriminate.
      destruct (fieldId_of fe_dict) as [fieldId| |] eqn:Hf; try discriminate.
      eexists. now apply (Hfirst before fe_dict after fieldId).
  - now apply check_none_invalid.
  - intros data m element d secData has_error Hm He Hd Hc Hf Hne.
    apply (bdh_message_raises data m element d secData (PyList entries)
                              has_error (List.length entries));
      try assumption; [reflexivity|].
    destruct entries; [now elim Hne|]. simpl. apply orb_true_r.
Qed.

(** C4, as the claim has it, fails: the historical response holds one
    field exception whose subcategory is not [INVALID_FIELD], and
    [_bdh_list] raises. *)
Lemma other_subcategory_is_fatal_in_bdh :
  ~ ((exists e,
         _bdh_list (sample_con 500) (PyStr "IBM US Equity") (PyStr "PX_LAST")
                   (PyStr "20150629") (PyStr "20150630") [] []
                   (answering hist_with_exception) = Raise e)
     -> existsb invalid_field (map decoded not_applicable) = true).
Proof.
  intros H. assert (E : existsb invalid_field (map decoded not_applicable) = true).
  { apply H. eexists. vm_compute. reflexivity. }
  vm_compute in E. discriminate.
Qed.

Lemma bulk_entries_rows (ticker corrId : pyval) (fld : string) (i : Z)
      (ids : list pyval) (kvs : dict) :
  py_iter corrId = Ok ids ->
  forall data,
    for_each (fun data nv =>
                append_datum data [ticker; PyStr fld; PyStr (fst nv); snd nv;
                                   PyInt i] corrId)
             kvs data
    = Ok (data ++ map (fun nv => PyList ([ticker; PyStr fld; PyStr (fst nv);
                                          snd nv; PyInt i] ++ ids)) kvs).
Proof.
  intros Hids. induction kvs as [|nv kvs IH]; intros data; simpl.
  - now rewrite app_nil_r.
  - unfold append_datum at 1. rewrite Hids. simpl. rewrite IH.
    now rewrite <- app_assoc.
Qed.

Lemma bulk_elements_rows (ticker corrId : pyval) (fld : string)
      (ids : list pyval) (elems : list pyval) (records : list dict) :
  py_iter corrId = Ok ids ->
  Forall2 (fun elem kvs => getitem elem fld = Ok (PyDict kvs)) elems records ->
  forall i data,
    for_each (bulk_element ticker corrId fld) (enumerate_from i elems) data
    = Ok (data ++ bulk_rows ticker fld ids (enumerate_from i records)).
Proof.
  intros Hids. induction 1 as [|elem kvs elems records Hrec _ IH];
    intros i data; simpl.
  - now rewrite app_nil_r.
  - unfold bulk_element at 1. simpl. rewrite Hrec. simpl.
    rewrite (bulk_entries_rows ticker corrId fld i ids kvs Hids). simpl.
    rewrite IH. now rewrite <- app_assoc.
Qed.

(** C8, as the code has it.  For a field that is present in the field data
    of a subject: the reference parser raises [ValueError] with a text
    that names the field when the value is a list, the bulk parser raises
    [ValueError] with a text that names the field when the value is not a
    list, and for a list of records the bulk parser adds, for each record
    in order, one row for each entry of the record, every row with the
    zero-based position of its record. *)
Theorem bulk_mismatch_and_bulk_rows
        (ticker fieldData corrId : pyval) (data : list pyval) (fld : string)
        (v : pyval) :
  contains fld fieldData = Ok true ->
  getitem fieldData fld = Ok v ->
  (isinstance_list v = true ->
   ref_field ticker fieldData corrId data fld
   = Raise (ValueError
              [Msg [Lit "Field "; Repr (PyStr fld);
                    Lit " returns bulk reference data which is not supported"]]))
  /\ (isinstance_list v = false ->
      bulkref_field ticker fieldData corrId data fld
      = Raise (ValueError
                 [Msg [Lit "Cannot parse field "; Repr (PyStr fld);
                       Lit " which is not bulk reference data"]]))
  /\ (forall elems records ids,
         v = PyList elems ->
         Forall2 (fun elem kvs => getitem elem fld = Ok (PyDict kvs))
                 elems records ->
         py_iter corrId = Ok ids ->
         bulkref_field ticker fieldData corrId data fld
         = Ok (data ++ bulk_rows ticker fld ids (enumerate records))).
Proof.
  intros Hin Hget. split; [|split].
  - intros Hlist. unfold ref_field. rewrite Hin. simpl. rewrite Hget. simpl.
    rewrite Hlist. reflexivity.
  - intros Hscalar. unfold bulkref_field. rewrite Hin. simpl. rewrite Hget.
    simpl. rewrite Hscalar. reflexivity.
  - intros elems records ids -> Hrecords Hids.
    unfold bulkref_field. rewrite Hin. simpl. rewrite Hget. simpl.
    apply bulk_elements_rows; assumption.
Qed.

(** C8, as the claim has it, fails: the bulk field holds three records of
    two entries each, and the bulk parser makes six rows, two at each of
    the positions 0, 1 and 2, not one row for each record. *)
Lemma bulk_rows_are_not_one_per_element :
  ~ (exists rows,
        _parse_bulkref (sample_con 500) ["INDX_MWEIGHT"] false 1
                       (answered three_weights) = Ok rows
        /\ map row_position rows
           = [Some (PyInt 0); Some (PyInt 1); Some (PyInt 2)]).
Proof.
  intros (rows & H & Hpos). vm_compute in H. injection H as <-.
  vm_compute in Hpos. discriminate.
Qed.

(** ** The statements at sample inputs *)



(** C7, as the claim has it, fails: a record with one child decodes to a
    mapping under the record's own name, not to the mapping of the child's
    name to its value. *)
Lemma record_is_wrapped_in_its_name :
  ~ (_element_to_dict (record "securityData"
                              [leaf "security" (PyStr "IBM US Equity")])
     = Ok (PyDict [("security", PyStr "IBM US Equity")])).
Proof. vm_compute. discriminate. Qed.

(** C7 on a record with two children. *)
Lemma record_decodes_under_its_own_name_witness :
  _element_to_dict (record "securityData" two_children)
  = Ok (PyDict [("securityData",
                 PyDict [("security", PyStr "IBM US Equity");
                         ("sequenceNumber", PyInt 0)])]).
Proof.
  apply (record_decodes_under_its_own_name
           "securityData" false None None [] two_children
           ["security"; "sequenceNumber"]
           [PyStr "IBM US Equity"; PyInt 0]).
  - reflexivity.
  - constructor.
    + simpl. intros [H|[]]. discriminate.
    + constructor; [intros []|constructor].
  - reflexivity.
Defined.


(** C9 on a queue with a [PARTIAL_RESPONSE] event and then a [TIMEOUT]
    event. *)
Lemma timeout_event_raises_fixed_text_witness :
  yielded (_receive_events (sample_con 500) 1 false
                           (sample_session partial_then_timeout))
  = [Plain (sample_message (leaf "a" (PyInt 1)))]
  /\ ending_of (_receive_events (sample_con 500) 1 false
                                (sample_session partial_then_timeout))
     = Failed (RuntimeError [Lit "Timeout, increase BCon.timeout attribute"]).
Proof.
  apply (timeout_event_raises_fixed_text
           (sample_con 500) false 1 (sample_session partial_then_timeout)
           (firstn 1 partial_then_timeout)).
  - reflexivity.
  - simpl. lia.
  - reflexivity.
  - left. exists (mkEvent TIMEOUT []), []. split; reflexivity.
Defined.

(** C6 on a session whose queue holds a [RESPONSE] event. *)
Lemma adoption_polls_once_and_accepts_only_a_timeout_witness :
  fst (__init__ (fun _ _ => sample_session []) "localhost" 8194 false 500
                (Some (sample_session [mkEvent RESPONSE []])) None)
  = Raise (ValueError
             [Msg [Lit "Flush event queue of blpapi.Session prior to instantiation"]]).
Proof.
  apply (proj1 (proj2 (adoption_polls_once_and_accepts_only_a_timeout
                         (fun _ _ => sample_session []) "localhost" 8194 false
                         500 (sample_session [mkEvent RESPONSE []]) None
                         (mkEvent RESPONSE [])
                         (with_queue
                            (logged (Call_nextEvent 500)
                                    (sample_session [mkEvent RESPONSE []]))
                            [])
                         eq_refl))).
  discriminate.
Defined.

(** C5 on a started session whose second event is a [SERVICE_STATUS]
    event, and on a session that has not started. *)
Lemma start_fails_before_any_service_witness :
  fst (start (fresh_con 500)
             (sample_session [mkEvent SESSION_STATUS [];
                              mkEvent SERVICE_STATUS []]))
  = Raise (RuntimeError
             (expected_but_received "SESSION_STATUS" "SERVICE_STATUS"))
  /\ fst (start (fresh_con 500) not_started)
     = Raise (ConnectionError [Lit "Could not start blpapi.Session"]).
Proof.
  split.
  - apply (proj1 (proj1 (start_fails_before_any_service
                           (fresh_con 500)
                           (sample_session [mkEvent SESSION_STATUS [];
                                            mkEvent SERVICE_STATUS []])
                           (mkEvent SERVICE_STATUS []))
                        eq_refl
                        (awaited_second (mkEvent SESSION_STATUS [])
                                        (mkEvent SERVICE_STATUS []) [] eq_refl)
                        ltac:(discriminate))).
    reflexivity.
  - apply (proj1 (proj2 (start_fails_before_any_service
                           (fresh_con 500) not_started
                           (mkEvent SESSION_STATUS []))
                        eq_refl
                        (ex_intro _ [] eq_refl)
                        eq_refl)).
Defined.

(** C10 on a started connection and a session with a stale event. *)
Lemma send_hist_without_dates_witness :
  fst (_send_hist (sample_con 500) [PyStr "AUD1M CMPN Curncy"]
                  [PyStr "SETTLE_DT"] [] (PyStr "REFERENCE_DATE") []
                  (sample_session [mkEvent PARTIAL_RESPONSE []]))
  = Raise (ValueError [Msg [Lit "dates must by non empty"]]).
Proof.
  apply (proj1 (send_hist_without_dates
                  (sample_con 500) [PyStr "AUD1M CMPN Curncy"]
                  [PyStr "SETTLE_DT"] (PyStr "REFERENCE_DATE") []
                  (mkService "//blp/refdata")
                  (sample_session [mkEvent PARTIAL_RESPONSE []])
                  eq_refl)).
Defined.

(** C3 on the decoded record of an unknown security. *)
Lemma security_error_faults_witness :
  contains "securityError" (inner unknown_security "securityData") = Ok true
  /\ ref_security ["PX_LAST"] (PyList []) [] unknown_security
     = Raise (ValueError [Msg [Lit "Unknow security ";
                               Repr (PyStr "XXX Equity")]]).
Proof.
  split; [reflexivity|].
  apply (proj1 (security_error_faults (inner unknown_security "securityData")
                                      eq_refl)
               unknown_security (PyStr "XXX Equity") ["PX_LAST"] (PyList []) []);
    reflexivity.
Defined.

(** C4 on two entries, the second of which is [INVALID_FIELD]. *)
Lemma field_exception_faults_witness :
  forallb shaped two_exceptions = true
  /\ _check_fieldExceptions (PyList two_exceptions)
     = Raise (ValueError [Msg [Str (PyStr "BAD_FLD"); Lit ": INVALID_FIELD"]]).
Proof.
  split; [reflexivity|].
  apply (proj1 (proj2 (field_exception_faults two_exceptions eq_refl))
               (firstn 1 two_exceptions)
               (decoded (fieldException "BAD_FLD" "INVALID_FIELD")) []);
    reflexivity.
Defined.

(** C8 on a bulk field asked for on the reference path. *)
Lemma bulk_mismatch_and_bulk_rows_witness :
  ref_field (PyStr "BCOM Index") weights_fieldData (PyList []) [] "INDX_MWEIGHT"
  = Raise (ValueError
             [Msg [Lit "Field "; Repr (PyStr "INDX_MWEIGHT");
                   Lit " returns bulk reference data which is not supported"]]).
Proof.
  apply (proj1 (bulk_mismatch_and_bulk_rows
                  (PyStr "BCOM Index") weights_fieldData (PyList []) []
                  "INDX_MWEIGHT"
                  (inner weights_fieldData "INDX_MWEIGHT")
                  eq_refl eq_refl)).
  reflexivity.
Defined.

(** * Further properties *)

(** ** The element decoder *)

Lemma collect_raw_strings (ss : list string) :
  collect (map _element_to_dict (map (fun s => Raw (PyStr s)) ss))
  = Ok (map PyStr ss).
Proof.
  induction ss as [|s ss IH]; simpl; [reflexivity|].
  simpl in IH. rewrite IH. reflexivity.
Qed.

(** X1.  An array whose values are plain strings decodes to the list of
    these strings, in order. *)
Theorem strings_array_decodes_to_the_strings
        (name : string) (dtype : DataType) (isNull : bool)
        (getValue : option pyval) (getChoice : option node)
        (elements : list node) (ss : list string) :
  dtype <> CHOICE ->
  _element_to_dict
    (Element name dtype true isNull getValue getChoice
             (map (fun s => Raw (PyStr s)) ss) elements)
  = Ok (PyList (map PyStr ss)).
Proof.
  intros Hd. destruct dtype; [now elim Hd| |];
    simpl; rewrite collect_raw_strings; reflexivity.
Qed.

Lemma strings_array_decodes_to_the_strings_witness :
  _element_to_dict
    (Element "securities" SCALAR true false None None
             (map (fun s => Raw (PyStr s)) strings) [])
  = Ok (PyList [PyStr "IBM US Equity"; PyStr "MSFT US Equity"]).
Proof.
  apply (strings_array_decodes_to_the_strings
           "securities" SCALAR false None None [] strings).
  discriminate.
Defined.

Lemma collect_stops_at_raise {A} (before after : list (result A))
      (l : list A) (e : exn) :
  collect before = Ok l -> collect (before ++ Raise e :: after) = Raise e.
Proof.
  revert l. induction before as [|r before IH]; intros l H; [reflexivity|].
  apply collect_cons_inv in H as (a & l' & -> & H & ->).
  simpl. rewrite (IH l' H). reflexivity.
Qed.

(** X2.  A plain value that is not a string among the values of an array
    makes the decoder raise [AttributeError], once the values before it
    have been decoded. *)
Theorem plain_value_in_array_raises
        (name : string) (dtype : DataType) (isNull : bool)
        (getValue : option pyval) (getChoice : option node)
        (elements before after : list node) (v : pyval) (ds : list pyval) :
  dtype <> CHOICE ->
  collect (map _element_to_dict before) = Ok ds ->
  (forall s, v <> PyStr s) ->
  _element_to_dict
    (Element name dtype true isNull getValue getChoice
             (before ++ Raw v :: after) elements)
  = Raise AttributeError.
Proof.
  intros Hd Hbefore Hv.
  assert (Hraw : _element_to_dict (Raw v) = Raise AttributeError).
  { destruct v; try reflexivity. now elim (Hv s). }
  assert (H : collect (map _element_to_dict (before ++ Raw v :: after))
              = Raise AttributeError).
  { rewrite map_app, map_cons, Hraw.
    now apply collect_stops_at_raise with (l := ds). }
  destruct dtype; [now elim Hd| |]; simpl; simpl in H; rewrite H; reflexivity.
Qed.

Lemma plain_value_in_array_raises_witness :
  _element_to_dict
    (array "eidData" SCALAR [Raw (PyStr "a"); Raw (PyInt 35); Raw (PyStr "b")])
  = Raise AttributeError.
Proof.
  apply (plain_value_in_array_raises
           "eidData" SCALAR false None None [] [Raw (PyStr "a")]
           [Raw (PyStr "b")] (PyInt 35) [PyStr "a"]).
  - discriminate.
  - reflexivity.
  - discriminate.
Defined.

Lemma dict_set_keys (d : dict) (k k' : string) (v : pyval) :
  In k' (map fst (dict_set d k v)) <-> k' = k \/ In k' (map fst d).
Proof.
  induction d as [|[k0 v0] d IH]; simpl.
  - intuition.
  - destruct (String.eqb k k0) eqn:E; simpl.
    + apply String.eqb_eq in E. subst. intuition.
    + rewrite IH. intuition.
Qed.

Lemma dict_set_NoDup (d : dict) (k : string) (v : pyval) :
  NoDup (map fst d) -> NoDup (map fst (dict_set d k v)).
Proof.
  induction d as [|[k0 v0] d IH]; simpl; intros Hnd.
  - constructor; [intros []|constructor].
  - inversion Hnd as [|? ? Hnotin Hnd']; subst.
    destruct (String.eqb k k0) eqn:E; simpl.
    + now constructor.
    + constructor; [|now apply IH].
      rewrite dict_set_keys. intros [->|Hin]; [|contradiction].
      now rewrite String.eqb_refl in E.
Qed.

Lemma dict_get_set_same (d : dict) (k : string) (v : pyval) :
  dict_get (dict_set d k v) k = Some v.
Proof.
  induction d as [|[k0 v0] d IH]; simpl.
  - now rewrite String.eqb_refl.
  - destruct (String.eqb k k0) eqn:E; simpl; rewrite E; [reflexivity|exact IH].
Qed.

Lemma dict_get_set_other (d : dict) (k k' : string) (v : pyval) :
  k' <> k -> dict_get (dict_set d k v) k' = dict_get d k'.
Proof.
  intros Hne. induction d as [|[k0 v0] d IH]; simpl.
  - apply String.eqb_neq in Hne. now rewrite Hne.
  - destruct (String.eqb k k0) eqn:E; simpl.
    + apply String.eqb_eq in E. subst k0.
      apply String.eqb_neq in Hne. now rewrite Hne.
    + destruct (String.eqb k' k0); [reflexivity|exact IH].
Qed.

Lemma dict_comprehension_keys (value : node -> result pyval) (es : list node) :
  forall acc inner,
    dict_comprehension value es acc = Ok inner ->
    NoDup (map fst acc) ->
    NoDup (map fst inner)
    /\ (forall k, In k (map fst inner)
                  <-> In k (map fst acc) \/ In (Ok k) (map node_name es)).
Proof.
  induction es as [|e es IH]; intros acc inner H Hnd; simpl in H.
  - injection H as <-. split; [exact Hnd|]. simpl. intuition.
  - destruct (node_name e) as [k0| |] eqn:Hk; simpl in H; try discriminate.
    destruct (value e) as [v| |]; simpl in H; try discriminate.
    destruct (IH _ _ H (dict_set_NoDup acc k0 v Hnd)) as [Hnd' Hkeys].
    split; [exact Hnd'|]. intros k. rewrite Hkeys, dict_set_keys. simpl.
    rewrite Hk. split.
    + intros [[->|Hin]|Hin]; auto.
    + intros [Hin|[Heq|Hin]]; auto. injection Heq as ->. auto.
Qed.

Lemma dict_comprehension_keeps (value : node -> result pyval) (k : string)
      (es : list node) :
  Forall (fun x => node_name x <> Ok k) es ->
  forall acc inner,
    dict_comprehension value es acc = Ok inner ->
    dict_get inner k = dict_get acc k.
Proof.
  induction 1 as [|e es He _ IH]; intros acc inner H; simpl in H.
  - now injection H as <-.
  - destruct (node_name e) as [k0| |] eqn:Hk; simpl in H; try discriminate.
    destruct (value e) as [v| |]; simpl in H; try discriminate.
    rewrite (IH _ _ H). apply dict_get_set_other. congruence.
Qed.

Lemma dict_comprehension_last (value : node -> result pyval) (k : string)
      (e : node) (v : pyval) (after : list node) (before : list node) :
  node_name e = Ok k ->
  value e = Ok v ->
  Forall (fun x => node_name x <> Ok k) after ->
  forall acc inner,
    dict_comprehension value (before ++ e :: after) acc = Ok inner ->
    dict_get inner k = Some v.
Proof.
  intros Hk Hv Hafter. induction before as [|b before IH]; intros acc inner H.
  - simpl in H. rewrite Hk, Hv in H. simpl in H.
    rewrite (dict_comprehension_keeps value k after Hafter _ _ H).
    apply dict_get_set_same.
  - simpl in H.
    destruct (node_name b) as [k0| |]; simpl in H; try discriminate.
    destruct (value b) as [v0| |]; simpl in H; try discriminate.
    exact (IH _ _ H).
Qed.

(** X3.  Whatever the names of its children, a record node that decodes
    gives a mapping under its own name whose keys are distinct and are
    exactly the names of its children; under a name stands the decoded
    value of the last child that bears it. *)
Theorem record_keys_are_the_distinct_child_names
        (name : string) (isNull : bool) (getValue : option pyval)
        (getChoice : option node) (values children : list node) (d : pyval) :
  _element_to_dict
    (Element name SEQUENCE false isNull getValue getChoice values children)
  = Ok d ->
  exists inner,
    d = PyDict [(name, PyDict inner)]
    /\ NoDup (map fst inner)
    /\ (forall k, In k (map fst inner) <-> In (Ok k) (map node_name children))
    /\ (forall before e after k v,
           children = before ++ e :: after ->
           node_name e = Ok k ->
           Forall (fun x => node_name x <> Ok k) after ->
           _element_to_dict e = Ok v ->
           dict_get inner k = Some v).
Proof.
  simpl. destruct (dict_comprehension _element_to_dict children [])
    as [inner| |] eqn:Hinner; simpl; try discriminate.
  intros H. injection H as <-. exists inner.
  destruct (dict_comprehension_keys _ _ _ _ Hinner (NoDup_nil _))
    as [Hnd Hkeys].
  split; [reflexivity|split; [exact Hnd|split]].
  - intros k. rewrite Hkeys. simpl. intuition.
  - intros before e after k v -> Hk Hafter Hv.
    exact (dict_comprehension_last _ k e v after before Hk Hv Hafter _ _ Hinner).
Qed.

Lemma record_keys_are_the_distinct_child_names_witness :
  exists inner,
    PyDict [("fieldData", PyDict [("a", PyInt 3); ("b", PyInt 2)])]
    = PyDict [("fieldData", PyDict inner)]
    /\ NoDup (map fst inner)
    /\ (forall k, In k (map fst inner) <-> In (Ok k) (map node_name twice_a))
    /\ (forall before e after k v,
           twice_a = before ++ e :: after ->
           node_name e = Ok k ->
           Forall (fun x => node_name x <> Ok k) after ->
           _element_to_dict e = Ok v ->
           dict_get inner k = Some v).
Proof.
  apply (record_keys_are_the_distinct_child_names
           "fieldData" false None None [] twice_a).
  reflexivity.
Defined.

(** ** The event pump *)

Lemma receive_loop_unexpected
      (fuel : nat) (t : Z) (to_dict : bool) (N : Z) (s : Session)
      (ev : Event) (rest : list Event) :
  queue s = ev :: rest ->
  response_typed ev = false ->
  eventType ev <> TIMEOUT ->
  receive_loop (S fuel) t to_dict N s
  = mkRun [] (match _EVENT_DICT (eventType ev) with
              | Ok name => Failed (RuntimeError (unexpected_text name))
              | Raise e => Failed e
              | Hang => Hung
              end)
          (with_queue (logged (Call_nextEvent t) s) rest).
Proof.
  intros Hq Hty Hne. simpl. unfold nextEvent. rewrite Hq.
  unfold response_typed in Hty.
  destruct (eventType ev); try discriminate Hty; try reflexivity.
  now elim Hne.
Qed.

(** X4.  When a poll of the generator yields an event that is neither
    response-typed nor a [TIMEOUT] event, after a front of response-typed
    events that has not ended the run, the generator has yielded the
    messages of that front and raises: [RuntimeError] with the text
    ['Unexpected Event Type: {!r}'] of the name of the type, or the
    [KeyError] of the lookup when the type has no name in [_EVENT_DICT].
    The events behind it stay in the queue. *)
Theorem unexpected_event_ends_the_run
        (self : BCon) (to_dict : bool) (N : Z) (s : Session)
        (pre : list Event) (ev : Event) (rest : list Event) (ys : list item) :
  queue s = pre ++ ev :: rest ->
  forallb response_typed pre = true ->
  ~ (1 <= N <= count_responses pre)%Z ->
  collect (map (emit to_dict) (messages_of pre)) = Ok ys ->
  response_typed ev = false ->
  eventType ev <> TIMEOUT ->
  yielded (_receive_events self N to_dict s) = ys
  /\ queue (session_after (_receive_events self N to_dict s)) = rest
  /\ (forall name,
         _EVENT_DICT (eventType ev) = Ok name ->
         ending_of (_receive_events self N to_dict s)
         = Failed (RuntimeError [Lit "Unexpected Event Type: ";
                                 Repr (PyStr name)]))
  /\ (forall e,
         _EVENT_DICT (eventType ev) = Raise e ->
         ending_of (_receive_events self N to_dict s) = Failed e).
Proof.
  intros Hq Hall HN Hys Hty Hne.
  assert (E : _receive_events self N to_dict s
              = mkRun ys (match _EVENT_DICT (eventType ev) with
                          | Ok name => Failed (RuntimeError (unexpected_text name))
                          | Raise e => Failed e
                          | Hang => Hung
                          end)
                      (with_queue
                         (logged (Call_nextEvent (timeout self))
                                 (after_polls (timeout self) (List.length pre)
                                              (ev :: rest) s))
                         rest)).
  { unfold _receive_events. rewrite Hq, length_app. simpl List.length.
    replace (S (List.length pre + S (List.length rest)))
      with (List.length pre + S (S (List.length rest)))%nat by lia.
    rewrite (receive_loop_through pre _ _ _ _ s (ev :: rest) ys Hq Hall HN Hys).
    erewrite receive_loop_unexpected; [|reflexivity|exact Hty|exact Hne].
    unfold prepend. simpl. now rewrite app_nil_r. }
  rewrite E. simpl. repeat split.
  - now intros name ->.
  - now intros e ->.
Qed.

(** X4 on a queue with a [PARTIAL_RESPONSE] event and then a
    [SESSION_STATUS] event. *)
Lemma unexpected_event_ends_the_run_witness :
  yielded (_receive_events (sample_con 500) 1 false
                           (sample_session partial_then_status))
  = [Plain (sample_message (leaf "a" (PyInt 1)))]
  /\ queue (session_after (_receive_events (sample_con 500) 1 false
                                           (sample_session partial_then_status)))
     = [mkEvent RESPONSE []]
  /\ ending_of (_receive_events (sample_con 500) 1 false
                                (sample_session partial_then_status))
     = Failed (RuntimeError [Lit "Unexpected Event Type: ";
                             Repr (PyStr "SESSION_STATUS")]).
Proof.
  destruct (unexpected_event_ends_the_run
              (sample_con 500) false 1 (sample_session partial_then_status)
              (firstn 1 partial_then_status)
              (mkEvent SESSION_STATUS
                       [sample_message (leaf "SessionTerminated" PyNone)])
              [mkEvent RESPONSE []]
              [Plain (sample_message (leaf "a" (PyInt 1)))]
              eq_refl eq_refl ltac:(simpl; lia) eq_refl eq_refl
              ltac:(discriminate))
    as (Hy & Hq & Hname & _).
  split; [exact Hy|split; [exact Hq|]].
  apply Hname. reflexivity.
Defined.

(** X5.  A run with a timeout other than 0 always ends, with [break] or
    with an exception; and a run with [sent_events <= 0] never ends with
    [break], whatever the queue delivers. *)
Theorem ways_a_run_ends
        (self : BCon) (to_dict : bool) (N : Z) (s : Session) :
  (timeout self <> 0%Z ->
   ending_of (_receive_events self N to_dict s) <> Hung)
  /\ ((N <= 0)%Z ->
      ending_of (_receive_events self N to_dict s) <> Finished).
Proof.
  split.
  - intros Ht. apply receive_loop_ends; [exact Ht|lia].
  - intros HN Hfin. apply receive_loop_finished in Hfin
      as (pre & last & rest & _ & _ & _ & Hcount & _).
    pose proof (count_responses_nonneg pre). lia.
Qed.

(** X5 with [sent_events = 0] on a queue that holds two responses. *)
Lemma ways_a_run_ends_witness :
  ending_of (_receive_events (sample_con 500) 0 false
                             (sample_session partial_then_two_responses))
  <> Hung
  /\ ending_of (_receive_events (sample_con 500) 0 false
                                (sample_session partial_then_two_responses))
     <> Finished.
Proof.
  destruct (ways_a_run_ends (sample_con 500) false 0
                            (sample_session partial_then_two_responses))
    as [Hends Hbreak].
  split; [apply Hends; discriminate|apply Hbreak; lia].
Defined.

Lemma receive_loop_only_polls (fuel : nat) :
  forall (t : Z) (to_dict : bool) (N : Z) (s : Session),
    exists k,
      (k <= S (List.length (queue s)))%nat
      /\ session_after (receive_loop fuel t to_dict N s)
         = after_polls t k (skipn k (queue s)) s.
Proof.
  induction fuel as [|fuel IH]; intros t to_dict N s.
  - exists 0%nat. split; [lia|]. simpl. now rewrite after_polls_0.
  - simpl receive_loop. unfold nextEvent.
    destruct (queue s) as [|ev q] eqn:Hq.
    + exists 1%nat. split; [simpl; lia|].
      unfold after_polls, logged. rewrite Hq.
      destruct (t =? 0)%Z; reflexivity.
    + assert (Hstop : after_polls t 1 (skipn 1 (ev :: q)) s
                      = with_queue (logged (Call_nextEvent t) s) q)
        by reflexivity.
      assert (Hrec : forall n,
                 exists k,
                   (k <= S (List.length (ev :: q)))%nat
                   /\ session_after
                        (prepend (fst n) (receive_loop fuel t to_dict (snd n)
                           (with_queue (logged (Call_nextEvent t) s) q)))
                      = after_polls t k (skipn k (ev :: q)) s).
      { intros [ys n]. destruct (IH t to_dict n
                                     (with_queue (logged (Call_nextEvent t) s) q))
          as (k & Hk & Hs).
        exists (S k). simpl in Hk |- *. split; [lia|].
        rewrite Hs. apply after_polls_S. }
      assert (Hone : forall ys e,
                 exists k,
                   (k <= S (List.length (ev :: q)))%nat
                   /\ session_after
                        (mkRun ys e (with_queue (logged (Call_nextEvent t) s) q))
                      = after_polls t k (skipn k (ev :: q)) s).
      { intros ys e. exists 1%nat. split; [simpl; lia|]. now rewrite Hstop. }
      destruct (_EVENT_DICT (eventType ev)); try apply Hone.
      destruct (if in_RESPONSE_TYPES (eventType ev)
                then emit_all to_dict (messages ev) else ([], Ok tt))
        as [ys [[]| |]]; try apply Hone.
      destruct (EventType_eqb (eventType ev) RESPONSE).
      * destruct (N - 1 =? 0)%Z; [apply Hone|apply (Hrec (ys, (N - 1)%Z))].
      * destruct (negb (in_RESPONSE_TYPES (eventType ev)));
          [destruct (EventType_eqb (eventType ev) TIMEOUT); apply Hone
          |apply (Hrec (ys, N))].
Qed.

(** X6.  All that the generator does on the session is to poll it with
    the timeout of the connection: it makes at most one poll more than
    there are events in the queue, takes the events off the front of the
    queue in order, and makes no other call. *)
Theorem receive_events_only_polls
        (self : BCon) (to_dict : bool) (N : Z) (s : Session) :
  exists k,
    (k <= S (List.length (queue s)))%nat
    /\ calls (session_after (_receive_events self N to_dict s))
       = calls s ++ repeat (Call_nextEvent (timeout self)) k
    /\ queue (session_after (_receive_events self N to_dict s))
       = skipn k (queue s).
Proof.
  destruct (receive_loop_only_polls (S (List.length (queue s))) (timeout self)
                                    to_dict N s) as (k & Hk & Hs).
  exists k. unfold _receive_events. rewrite Hs. auto.
Qed.

(** ** Start-up *)

Lemma open_one_opens (name : string) (s : Session) (ev : Event)
      (q : list Event) :
  queue s = ev :: q ->
  eventType ev = SERVICE_STATUS ->
  openService_answer s name = true ->
  open_one name s
  = (Ok (mkService name),
     moved_on s q [Call_openService name; Call_nextEvent 0;
                   Call_getService name]).
Proof.
  intros Hq Hty Hopen. unfold open_one, openService.
  unfold bind at 1. rewrite Hopen.
  erewrite bind_Ok;
    [|apply (await_expected _ _ _ ev q);
      [exact Hq|exact Hty|eexists; reflexivity]].
  unfold getService, moved_on, with_queue, logged. simpl.
  now rewrite <- !app_assoc.
Qed.

Lemma open_one_refused (name : string) (s : Session) (ev : Event)
      (q : list Event) :
  queue s = ev :: q ->
  eventType ev = SERVICE_STATUS ->
  openService_answer s name = false ->
  open_one name s
  = (Raise (ConnectionError [Lit ("Could not open a " ++ name ++ " service")]),
     moved_on s q [Call_openService name; Call_nextEvent 0]).
Proof.
  intros Hq Hty Hopen. unfold open_one, openService.
  unfold bind at 1. rewrite Hopen.
  erewrite bind_Ok;
    [|apply (await_expected _ _ _ ev q);
      [exact Hq|exact Hty|eexists; reflexivity]].
  unfold raise, moved_on, with_queue, logged. simpl.
  now rewrite <- !app_assoc.
Qed.

Lemma open_one_unexpected (name ev_name : string) (s : Session) (ev : Event)
      (q : list Event) :
  queue s = ev :: q ->
  eventType ev <> SERVICE_STATUS ->
  _EVENT_DICT (eventType ev) = Ok ev_name ->
  open_one name s
  = (Raise (RuntimeError (expected_but_received "SERVICE_STATUS" ev_name)),
     moved_on s q [Call_openService name; Call_nextEvent 0]).
Proof.
  intros Hq Hty Hname. unfold open_one, openService.
  unfold bind at 1.
  erewrite bind_Raise;
    [|rewrite (await_offending SERVICE_STATUS "SERVICE_STATUS"
                               (logged (Call_openService name) s) ev q Hq Hty),
       Hname; reflexivity].
  unfold moved_on, with_queue, logged. simpl. now rewrite <- !app_assoc.
Qed.

(** X7.  On a session that starts, delivers two [SESSION_STATUS] events
    and then one [SERVICE_STATUS] event for each of the two services, and
    opens both services, [start] returns the connection with both
    services set and its other attributes as they were; it has made nine
    calls, in the order of the code, and leaves the events behind the
    four in the queue. *)
Theorem start_succeeds
        (self : BCon) (s : Session) (e1 e2 e3 e4 : Event) (rest : list Event) :
  start_answer s = true ->
  queue s = e1 :: e2 :: e3 :: e4 :: rest ->
  eventType e1 = SESSION_STATUS ->
  eventType e2 = SESSION_STATUS ->
  eventType e3 = SERVICE_STATUS ->
  eventType e4 = SERVICE_STATUS ->
  openService_answer s "//blp/refdata" = true ->
  openService_answer s "//blp/exrsvc" = true ->
  start self s
  = (Ok (mkBCon (timeout self) (_identity self) (debug self)
                (Some (mkService "//blp/refdata"))
                (Some (mkService "//blp/exrsvc"))),
     moved_on s rest
              [Call_start; Call_nextEvent 0; Call_nextEvent 0;
               Call_openService "//blp/refdata"; Call_nextEvent 0;
               Call_getService "//blp/refdata";
               Call_openService "//blp/exrsvc"; Call_nextEvent 0;
               Call_getService "//blp/exrsvc"]).
Proof.
  intros Hstart Hq H1 H2 H3 H4 Href Hexr.
  rewrite (start_started _ _ Hstart).
  set (s1 := with_queue (logged (Call_nextEvent 0) (logged Call_start s))
                        (e2 :: e3 :: e4 :: rest)).
  set (s2 := with_queue (logged (Call_nextEvent 0) s1) (e3 :: e4 :: rest)).
  set (s3 := moved_on s2 (e4 :: rest)
                      [Call_openService "//blp/refdata"; Call_nextEvent 0;
                       Call_getService "//blp/refdata"]).
  assert (A1 : await SESSION_STATUS "SESSION_STATUS" (logged Call_start s)
               = (Ok tt, s1))
    by (apply (await_expected _ _ _ e1);
        [exact Hq|exact H1|eexists; reflexivity]).
  assert (A2 : await SESSION_STATUS "SESSION_STATUS" s1 = (Ok tt, s2))
    by (apply (await_expected _ _ _ e2);
        [reflexivity|exact H2|eexists; reflexivity]).
  assert (O1 : open_one "//blp/refdata" s2
               = (Ok (mkService "//blp/refdata"), s3))
    by (apply (open_one_opens _ _ e3); [reflexivity|exact H3|exact Href]).
  assert (O2 : open_one "//blp/exrsvc" s3
               = (Ok (mkService "//blp/exrsvc"),
                  moved_on s3 rest
                           [Call_openService "//blp/exrsvc"; Call_nextEvent 0;
                            Call_getService "//blp/exrsvc"]))
    by (apply (open_one_opens _ _ e4); [reflexivity|exact H4|exact Hexr]).
  rewrite (bind_Ok _ _ _ _ _ (eq_trans (bind_Ok _ _ _ _ _ A1) A2)).
  unfold _init_services.
  rewrite (bind_Ok _ _ _ _ _ O1), (bind_Ok _ _ _ _ _ O2).
  unfold ret, s3, s2, s1, moved_on, with_queue, logged. simpl.
  now rewrite <- !app_assoc.
Qed.

(** X7 on a session that delivers the four status events. *)
Lemma start_succeeds_witness :
  fst (start (fresh_con 500) starting)
  = Ok (mkBCon 500 None false (Some (mkService "//blp/refdata"))
               (Some (mkService "//blp/exrsvc"))).
Proof.
  rewrite (start_succeeds (fresh_con 500) starting
                          (mkEvent SESSION_STATUS [])
                          (mkEvent SESSION_STATUS [])
                          (mkEvent SERVICE_STATUS [])
                          (mkEvent SERVICE_STATUS []) []
                          eq_refl eq_refl eq_refl eq_refl eq_refl eq_refl
                          eq_refl eq_refl).
  reflexivity.
Defined.

(** X8.  When the reference data service does not open, [_init_services]
    raises [ConnectionError] with a text that names the service, after it
    has polled the [SERVICE_STATUS] event, and does not try the second
    service; when the first service opens and the second does not, it
    raises [ConnectionError] with a text that names the second service. *)
Theorem service_that_does_not_open
        (self : BCon) (s : Session) (ev : Event) (q : list Event) :
  queue s = ev :: q ->
  eventType ev = SERVICE_STATUS ->
  (openService_answer s "//blp/refdata" = false ->
   _init_services self s
   = (Raise (ConnectionError [Lit "Could not open a //blp/refdata service"]),
      moved_on s q [Call_openService "//blp/refdata"; Call_nextEvent 0]))
  /\ (forall ev' q',
         openService_answer s "//blp/refdata" = true ->
         q = ev' :: q' ->
         eventType ev' = SERVICE_STATUS ->
         openService_answer s "//blp/exrsvc" = false ->
         _init_services self s
         = (Raise (ConnectionError [Lit "Could not open a //blp/exrsvc service"]),
            moved_on s q' [Call_openService "//blp/refdata"; Call_nextEvent 0;
                           Call_getService "//blp/refdata";
                           Call_openService "//blp/exrsvc"; Call_nextEvent 0])).
Proof.
  intros Hq Hty. split.
  - intros Href. unfold _init_services.
    rewrite (bind_Raise _ _ _ _ _
               (open_one_refused "//blp/refdata" s ev q Hq Hty Href)).
    reflexivity.
  - intros ev' q' Href -> Hty' Hexr. unfold _init_services.
    rewrite (bind_Ok _ _ _ _ _
               (open_one_opens "//blp/refdata" s ev (ev' :: q') Hq Hty Href)).
    rewrite (bind_Raise _ _ _ _ _
               (open_one_refused
                  "//blp/exrsvc"
                  (moved_on s (ev' :: q')
                            [Call_openService "//blp/refdata"; Call_nextEvent 0;
                             Call_getService "//blp/refdata"])
                  ev' q' eq_refl Hty' Hexr)).
    unfold moved_on. simpl. now rewrite <- !app_assoc.
Qed.

(** X8 on a session that refuses the reference data service. *)
Lemma service_that_does_not_open_witness :
  _init_services (fresh_con 500) refusing
  = (Raise (ConnectionError [Lit "Could not open a //blp/refdata service"]),
     moved_on refusing [mkEvent SERVICE_STATUS []]
              [Call_openService "//blp/refdata"; Call_nextEvent 0]).
Proof.
  apply (proj1 (service_that_does_not_open
                  (fresh_con 500) refusing (mkEvent SERVICE_STATUS [])
                  [mkEvent SERVICE_STATUS []] eq_refl eq_refl)).
  reflexivity.
Defined.

(** X9.  [_init_services] checks the type of the event before it looks at
    what [openService] answered: an event of another type than
    [SERVICE_STATUS] raises [RuntimeError] with a text that names the type
    received, whether the service has opened or not. *)
Theorem service_event_is_checked_first
        (self : BCon) (s : Session) (ev : Event) (q : list Event)
        (ev_name : string) :
  queue s = ev :: q ->
  eventType ev <> SERVICE_STATUS ->
  _EVENT_DICT (eventType ev) = Ok ev_name ->
  _init_services self s
  = (Raise (RuntimeError (expected_but_received "SERVICE_STATUS" ev_name)),
     moved_on s q [Call_openService "//blp/refdata"; Call_nextEvent 0]).
Proof.
  intros Hq Hty Hname. unfold _init_services.
  rewrite (bind_Raise _ _ _ _ _
             (open_one_unexpected "//blp/refdata" ev_name s ev q Hq Hty Hname)).
  reflexivity.
Qed.

(** X9 on a session that refuses the service and delivers a [RESPONSE]
    event. *)
Lemma service_event_is_checked_first_witness :
  fst (_init_services
         (fresh_con 500)
         (mkSession [mkEvent RESPONSE []] true (fun _ => false)
                    (fun _ _ => []) []))
  = Raise (RuntimeError (expected_but_received "SERVICE_STATUS" "RESPONSE")).
Proof.
  rewrite (service_event_is_checked_first
             (fresh_con 500)
             (mkSession [mkEvent RESPONSE []] true (fun _ => false)
                        (fun _ _ => []) [])
             (mkEvent RESPONSE []) [] "RESPONSE" eq_refl
             ltac:(discriminate) eq_refl).
  reflexivity.
Defined.

(** X10.  When the session has not started and the event polled with the
    timeout of the connection is not a [SESSION_STATUS] event, [start]
    raises nothing of its own: it goes on to [_init_services]. *)
Theorem start_goes_on_without_a_status_event
        (self : BCon) (s s1 : Session) (ev : Event) :
  start_answer s = false ->
  nextEvent (timeout self) (logged Call_start s) = (Ok ev, s1) ->
  eventType ev <> SESSION_STATUS ->
  start self s = _init_services self s1.
Proof.
  intros Hstart Hpoll Hty. unfold start, session_start.
  unfold bind at 1. rewrite Hstart.
  unfold bind at 1. unfold bind at 1. rewrite Hpoll.
  destruct (EventType_eqb (eventType ev) SESSION_STATUS) eqn:E; [|reflexivity].
  exfalso. apply Hty. destruct (eventType ev); try discriminate. reflexivity.
Qed.

(** X10 on a session that has not started and stays silent: the wait runs
    out, and [start] goes on to open the reference data service. *)
Lemma start_goes_on_without_a_status_event_witness :
  start (fresh_con 500) silent
  = _init_services (fresh_con 500)
                   (logged (Call_nextEvent 500) (logged Call_start silent)).
Proof.
  apply (start_goes_on_without_a_status_event
           (fresh_con 500) silent _ timeout_event eq_refl eq_refl).
  discriminate.
Defined.

(** ** The managed connection *)

Create HintDb stops.

Lemma never_stops_ret {A} (a : A) : never_stops (ret a).
Proof. intros s. reflexivity. Qed.

Lemma never_stops_raise {A} (e : exn) : never_stops (@raise A e).
Proof. intros s. reflexivity. Qed.

Lemma never_stops_lift {A} (r : result A) : never_stops (lift r).
Proof. intros s. reflexivity. Qed.

Lemma never_stops_bind {A B} (m : M A) (f : A -> M B) :
  never_stops m -> (forall a, never_stops (f a)) -> never_stops (bind m f).
Proof.
  intros Hm Hf s. unfold bind. specialize (Hm s).
  destruct (m s) as [[a| |] s']; simpl in *; try exact Hm.
  now rewrite Hf.
Qed.

Lemma filter_stop_logged (c : call) (s : Session) :
  is_stop c = false ->
  filter is_stop (calls (logged c s)) = filter is_stop (calls s).
Proof.
  intros Hc. simpl. rewrite filter_app. simpl. rewrite Hc. apply app_nil_r.
Qed.

Lemma never_stops_nextEvent (t : Z) : never_stops (nextEvent t).
Proof.
  intros s. unfold nextEvent.
  destruct (queue s); [destruct (t =? 0)%Z|]; now apply filter_stop_logged.
Qed.

Lemma never_stops_session_start : never_stops session_start.
Proof. intros s. now apply filter_stop_logged. Qed.

Lemma never_stops_openService (name : string) : never_stops (openService name).
Proof. intros s. now apply filter_stop_logged. Qed.

Lemma never_stops_getService (name : string) : never_stops (getService name).
Proof. intros s. now apply filter_stop_logged. Qed.

#[local] Hint Resolve never_stops_ret never_stops_raise never_stops_lift
  never_stops_nextEvent never_stops_session_start never_stops_openService
  never_stops_getService : stops.

Ltac no_stop :=
  repeat first
         [ apply never_stops_bind; [|intro]
         | match goal with
           | |- never_stops (if ?b then _ else _) => destruct b
           end
         | solve [auto with stops] ].

Lemma never_stops_await (expected : EventType) (expected_name : string) :
  never_stops (await expected expected_name).
Proof. unfold await. no_stop. Qed.

Lemma never_stops_open_one (name : string) : never_stops (open_one name).
Proof. unfold open_one. no_stop. Qed.

Lemma never_stops_init_services (self : BCon) :
  never_stops (_init_services self).
Proof. unfold _init_services. no_stop. Qed.

Lemma never_stops_start (self : BCon) : never_stops (start self).
Proof. unfold start. no_stop. Qed.

(** X11.  In [bopen], when [start] raises, the error comes out of the
    [with] statement, whatever the body is, and no [stop()] has been
    called on the session: the [try] block has not been entered.  When
    the connection has started and the body returns or raises, the
    outcome of the body is the outcome of the [with] statement and
    [stop()] is the call made last on the session, after the calls of
    the body. *)
Theorem bopen_stops_what_it_has_started
        (blpapi_Session : string -> Z -> Session) (host : string) (port : Z)
        (dbg : bool) (t : Z) (session : option Session)
        (identity : option pyval) (A : Type) (body : BCon -> M A)
        (con0 : BCon) (s0 : Session) :
  __init__ blpapi_Session host port dbg t session identity = (Ok con0, s0) ->
  (forall e,
      fst (start con0 s0) = Raise e ->
      fst (bopen blpapi_Session host port dbg t session identity body)
      = Raise e
      /\ filter is_stop
                (calls (snd (bopen blpapi_Session host port dbg t session
                                   identity body)))
         = filter is_stop (calls s0))
  /\ (forall con s1 r s2,
         start con0 s0 = (Ok con, s1) ->
         body con s1 = (r, s2) ->
         r <> Hang ->
         bopen blpapi_Session host port dbg t session identity body
         = (r, logged Call_stop s2)).
Proof.
  intros Hinit. unfold bopen. rewrite Hinit. split.
  - intros e Hstart.
    pose proof (never_stops_start con0 s0) as Hquiet.
    destruct (start con0 s0) as [[con| |] s1]; simpl in Hstart;
      try discriminate.
    injection Hstart as ->. simpl. auto.
  - intros con s1 r s2 Hstart Hbody Hr. rewrite Hstart, Hbody.
    destruct r as [a|e|]; [reflexivity|reflexivity|now elim Hr].
Qed.

(** X11 on a session that does not start, and with a body that raises on
    a session that starts. *)
Lemma bopen_stops_what_it_has_started_witness :
  (fst (bopen (fun _ _ => not_started) "localhost" 8194 false 500 None None
              (fun _ => ret tt))
   = Raise (ConnectionError [Lit "Could not start blpapi.Session"])
   /\ filter is_stop
             (calls (snd (bopen (fun _ _ => not_started) "localhost" 8194
                                false 500 None None (fun _ => ret tt))))
      = filter is_stop (calls not_started))
  /\ bopen (fun _ _ => starting) "localhost" 8194 false 500 None None
           (fun _ => @raise unit (ValueError [Msg [Lit "in the body"]]))
     = (Raise (ValueError [Msg [Lit "in the body"]]),
        logged Call_stop (snd (start (fresh_con 500) starting))).
Proof.
  split.
  - apply (proj1 (bopen_stops_what_it_has_started
                    (fun _ _ => not_started) "localhost" 8194 false 500 None
                    None unit (fun _ => ret tt) (fresh_con 500) not_started
                    eq_refl)).
    reflexivity.
  - apply (proj2 (bopen_stops_what_it_has_started
                    (fun _ _ => starting) "localhost" 8194 false 500 None None
                    unit
                    (fun _ => raise (ValueError [Msg [Lit "in the body"]]))
                    (fresh_con 500) starting eq_refl)
                 (mkBCon 500 None false (Some (mkService "//blp/refdata"))
                         (Some (mkService "//blp/exrsvc")))
                 (snd (start (fresh_con 500) starting))
                 (Raise (ValueError [Msg [Lit "in the body"]]))
                 (snd (start (fresh_con 500) starting))).
    + reflexivity.
    + reflexivity.
    + discriminate.
Defined.

(** ** Requests *)

Lemma fold_append_security (l : list pyval) :
  forall r, fold_left append_security l r
            = mkRequest (operation r) (securities r ++ l) (fields r)
                        (elements_set r) (overrides r).
Proof.
  induction l as [|t l IH]; intros r; simpl.
  - rewrite app_nil_r. now destruct r.
  - rewrite IH. simpl. now rewrite <- app_assoc.
Qed.

Lemma fold_append_field (l : list pyval) :
  forall r, fold_left append_field l r
            = mkRequest (operation r) (securities r) (fields r ++ l)
                        (elements_set r) (overrides r).
Proof.
  induction l as [|t l IH]; intros r; simpl.
  - rewrite app_nil_r. now destruct r.
  - rewrite IH. simpl. now rewrite <- app_assoc.
Qed.

Lemma fold_append_override (l : list (pyval * pyval)) :
  forall r, fold_left append_override l r
            = mkRequest (operation r) (securities r) (fields r)
                        (elements_set r) (overrides r ++ map override_of l).
Proof.
  induction l as [|ov l IH]; intros r; simpl.
  - rewrite app_nil_r. now destruct r.
  - rewrite IH. simpl. now rewrite <- app_assoc.
Qed.

Lemma find_app {X} (f : X -> bool) (l1 l2 : list X) :
  find f (l1 ++ l2)
  = match find f l1 with
    | Some x => Some x
    | None => find f l2
    end.
Proof.
  induction l1 as [|x l1 IH]; simpl; [reflexivity|].
  destruct (f x); [reflexivity|exact IH].
Qed.

Lemma dict_get_set (d : dict) (k name : string) (v : pyval) :
  dict_get (dict_set d k v) name
  = if String.eqb name k then Some v else dict_get d name.
Proof.
  destruct (String.eqb name k) eqn:E.
  - apply String.eqb_eq in E. subst. apply dict_get_set_same.
  - apply String.eqb_neq in E. now apply dict_get_set_other.
Qed.

Lemma fold_request_set (l : list (string * pyval)) :
  forall r,
    let r' := fold_left request_set l r in
    operation r' = operation r /\ securities r' = securities r
    /\ fields r' = fields r /\ overrides r' = overrides r
    /\ forall name,
        dict_get (elements_set r') name
        = match last_set l name with
          | Some v => Some v
          | None => dict_get (elements_set r) name
          end.
Proof.
  induction l as [|[k v] l IH]; intros r; simpl.
  - repeat split.
  - destruct (IH (request_set r (k, v))) as (Ho & Hs & Hf & Hov & Hget).
    simpl in Ho, Hs, Hf, Hov. repeat split; try assumption.
    intros name. rewrite Hget. unfold last_set. simpl rev.
    rewrite find_app. simpl find.
    destruct (find (fun nv => String.eqb name (fst nv)) (rev l));
      [reflexivity|].
    simpl. rewrite dict_get_set.
    now destruct (String.eqb name k).
Qed.

Lemma create_req_built
        (self : BCon) (rtype : string) (tickers flds : list pyval)
        (ovrds : list (pyval * pyval)) (setvals : list (string * pyval))
        (svc : Service) (s : Session) :
  refDataService self = Some svc ->
  exists request,
    _create_req self rtype tickers flds ovrds setvals s
    = (Ok request, drained s)
    /\ operation request = rtype
    /\ securities request = tickers
    /\ fields request = flds
    /\ overrides request = map override_of ovrds
    /\ forall name, dict_get (elements_set request) name = last_set setvals name.
Proof.
  intros Hsvc. unfold _create_req, bind.
  rewrite (flush_drains (queue s) s eq_refl), Hsvc.
  eexists. split; [reflexivity|].
  rewrite fold_append_override.
  set (r0 := fold_left append_field flds
                       (fold_left append_security tickers
                                  (createRequest rtype))).
  assert (Hr0 : r0 = mkRequest rtype tickers flds [] []).
  { unfold r0. now rewrite fold_append_field, fold_append_security. }
  destruct (fold_request_set setvals r0) as (Ho & Hs & Hf & Hov & Hget).
  simpl.
  split; [now rewrite Ho, Hr0|].
  split; [now rewrite Hs, Hr0|].
  split; [now rewrite Hf, Hr0|].
  split; [now rewrite Hov, Hr0|].
  intros name. rewrite Hget, Hr0. simpl.
  now destruct (last_set setvals name).
Qed.

(** X12.  On a started connection [_create_req] empties the queue and
    returns a request for the operation asked for whose securities and
    fields are the tickers and the fields in the order given, whose
    overrides are the overrides given, in order, each as a pair of
    [fieldId] and [value], and in which a name stands for the value set
    last under it. *)
Theorem create_req_keeps_the_order
        (self : BCon) (rtype : string) (tickers flds : list pyval)
        (ovrds : list (pyval * pyval)) (setvals : list (string * pyval))
        (svc : Service) (s : Session) :
  refDataService self = Some svc ->
  exists request,
    _create_req self rtype tickers flds ovrds setvals s
    = (Ok request, drained s)
    /\ operation request = rtype
    /\ securities request = tickers
    /\ fields request = flds
    /\ overrides request = map override_of ovrds
    /\ forall name, dict_get (elements_set request) name = last_set setvals name.
Proof. apply create_req_built. Qed.

(** X12 with two tickers and a setting that is set twice. *)
Lemma create_req_keeps_the_order_witness :
  exists request,
    _create_req (sample_con 500) "HistoricalDataRequest"
                [PyStr "IBM US Equity"; PyStr "MSFT US Equity"]
                [PyStr "PX_LAST"] [(PyStr "EQY_FUND_CRNCY", PyStr "USD")]
                [("periodicitySelection", PyStr "DAILY");
                 ("periodicitySelection", PyStr "MONTHLY")]
                (sample_session [mkEvent PARTIAL_RESPONSE []])
    = (Ok request, drained (sample_session [mkEvent PARTIAL_RESPONSE []]))
    /\ operation request = "HistoricalDataRequest"
    /\ securities request = [PyStr "IBM US Equity"; PyStr "MSFT US Equity"]
    /\ fields request = [PyStr "PX_LAST"]
    /\ overrides request
       = map override_of [(PyStr "EQY_FUND_CRNCY", PyStr "USD")]
    /\ forall name,
        dict_get (elements_set request) name
        = last_set [("periodicitySelection", PyStr "DAILY");
                    ("periodicitySelection", PyStr "MONTHLY")] name.
Proof.
  apply (create_req_keeps_the_order
           (sample_con 500) "HistoricalDataRequest"
           [PyStr "IBM US Equity"; PyStr "MSFT US Equity"]
           [PyStr "PX_LAST"] [(PyStr "EQY_FUND_CRNCY", PyStr "USD")]
           [("periodicitySelection", PyStr "DAILY");
            ("periodicitySelection", PyStr "MONTHLY")]
           (mkService "//blp/refdata")).
  reflexivity.
Defined.

(** X13.  On a connection that has not been started, so that its
    reference data service is not set, [_create_req] raises
    [AttributeError] once it has emptied the queue; [_bdh_list] and
    [_send_hist] raise the same error, and [_send_hist] has sent no
    request. *)
Theorem queries_before_start_raise
        (self : BCon) (s : Session) :
  refDataService self = None ->
  (forall rtype tickers flds ovrds setvals,
      _create_req self rtype tickers flds ovrds setvals s
      = (Raise AttributeError, drained s))
  /\ (forall tickers flds start_date end_date elms ovrds,
         _bdh_list self tickers flds start_date end_date elms ovrds s
         = Raise AttributeError)
  /\ (forall tickers flds dates date_field ovrds,
         _send_hist self tickers flds dates date_field ovrds s
         = (Raise AttributeError, drained s)).
Proof.
  intros Hsvc.
  assert (Hreq : forall rtype tickers flds ovrds setvals,
             _create_req self rtype tickers flds ovrds setvals s
             = (Raise AttributeError, drained s)).
  { intros. unfold _create_req, bind.
    rewrite (flush_drains (queue s) s eq_refl), Hsvc. reflexivity. }
  split; [exact Hreq|split].
  - intros. unfold _bdh_list, then_parse.
    rewrite (bind_Raise _ _ _ _ _ (Hreq _ _ _ _ _)). reflexivity.
  - intros. unfold _send_hist.
    rewrite (bind_Raise _ _ _ _ _ (Hreq _ _ _ _ _)). reflexivity.
Qed.

(** X13 on a connection as [__init__] leaves it. *)
Lemma queries_before_start_raise_witness :
  _bdh_list (fresh_con 500) (PyStr "IBM US Equity") (PyStr "PX_LAST")
            (PyStr "20150629") (PyStr "20150630") [] []
            (answering hist_with_exception)
  = Raise AttributeError.
Proof.
  apply (proj1 (proj2 (queries_before_start_raise
                         (fresh_con 500) (answering hist_with_exception)
                         eq_refl))).
Defined.

Lemma last_set_dates (elms : list (string * pyval)) (start_date end_date : pyval) :
  let setvals := elms ++ [("startDate", start_date)] ++ [("endDate", end_date)] in
  last_set setvals "startDate" = Some start_date
  /\ last_set setvals "endDate" = Some end_date
  /\ forall name, name <> "startDate" -> name <> "endDate" ->
                  last_set setvals name = last_set elms name.
Proof.
  simpl. unfold last_set. rewrite rev_app_distr. simpl.
  repeat split. intros name Hs He.
  apply String.eqb_neq in Hs, He. now rewrite Hs, He.
Qed.

(** X14.  On a started connection [_bdh_list] sends one request, without
    correlation id, for the tickers and fields given, in which [startDate]
    and [endDate] are the two dates given whatever [elms] sets under these
    names; and what it parses is the reply to this request alone: the
    events that were in the queue before the call are flushed and never
    reach the parser. *)
Theorem bdh_list_parses_the_reply_alone
        (self : BCon) (tickers flds start_date end_date : pyval)
        (elms : list (string * pyval)) (ovrds : list (pyval * pyval))
        (svc : Service) (s : Session) :
  refDataService self = Some svc ->
  exists request,
    operation request = "HistoricalDataRequest"
    /\ securities request = as_list tickers
    /\ fields request = as_list flds
    /\ overrides request = map override_of ovrds
    /\ dict_get (elements_set request) "startDate" = Some start_date
    /\ dict_get (elements_set request) "endDate" = Some end_date
    /\ (forall name, name <> "startDate" -> name <> "endDate" ->
                     dict_get (elements_set request) name = last_set elms name)
    /\ _bdh_list self tickers flds start_date end_date elms ovrds s
       = consume bdh_message
                 (_receive_events
                    self 1 true
                    (moved_on s (reply s request None)
                              (repeat Call_tryNextEvent
                                      (S (List.length (queue s)))
                                 ++ [Call_sendRequest request (_identity self)
                                                      None])))
                 [].
Proof.
  intros Hsvc.
  destruct (create_req_built
              self "HistoricalDataRequest" (as_list tickers) (as_list flds)
              ovrds
              (elms ++ [("startDate", start_date)] ++ [("endDate", end_date)])
              svc s Hsvc)
    as (request & Hreq & Ho & Hs & Hf & Hov & Hget).
  destruct (last_set_dates elms start_date end_date) as (Hsd & Hed & Hother).
  exists request.
  split; [exact Ho|]. split; [exact Hs|]. split; [exact Hf|].
  split; [exact Hov|].
  split; [now rewrite Hget|]. split; [now rewrite Hget|].
  split; [intros name H1 H2; rewrite Hget; now apply Hother|].
  unfold _bdh_list, then_parse. rewrite (bind_Ok _ _ _ _ _ Hreq).
  unfold sendRequest, drained, moved_on, with_queue, logged. simpl.
  now rewrite <- app_assoc.
Qed.

(** X14 on a session with a stale [RESPONSE] event in its queue: the rows
    are those of the reply. *)
Lemma bdh_list_parses_the_reply_alone_witness :
  exists request,
    dict_get (elements_set request) "startDate" = Some (PyStr "20150629")
    /\ _bdh_list (sample_con 500) (PyStr "IBM US Equity") (PyStr "PX_LAST")
                 (PyStr "20150629") (PyStr "20150630")
                 [("startDate", PyStr "19000101")] []
                 (mkSession [mkEvent RESPONSE []] true (fun _ => true)
                            (fun _ _ => [mkEvent RESPONSE []]) [])
       = consume bdh_message
                 (_receive_events
                    (sample_con 500) 1 true
                    (moved_on (mkSession [mkEvent RESPONSE []] true
                                         (fun _ => true)
                                         (fun _ _ => [mkEvent RESPONSE []]) [])
                              [mkEvent RESPONSE []]
                              (repeat Call_tryNextEvent 2
                                 ++ [Call_sendRequest request None None])))
                 [].
Proof.
  destruct (bdh_list_parses_the_reply_alone
              (sample_con 500) (PyStr "IBM US Equity") (PyStr "PX_LAST")
              (PyStr "20150629") (PyStr "20150630")
              [("startDate", PyStr "19000101")] []
              (mkService "//blp/refdata")
              (mkSession [mkEvent RESPONSE []] true (fun _ => true)
                         (fun _ _ => [mkEvent RESPONSE []]) [])
              eq_refl)
    as (request & _ & _ & _ & _ & Hsd & _ & _ & Hrun).
  exists request. split; [exact Hsd|exact Hrun].
Defined.

Lemma set_last_override_snoc (r : Request) (o : list dict) (d : dict)
      (k : string) (v : pyval) :
  overrides r = o ++ [d] ->
  set_last_override r k v = with_overrides r (o ++ [dict_set d k v]).
Proof.
  intros H. unfold set_last_override. rewrite H, rev_app_distr. simpl.
  now rewrite rev_involutive.
Qed.

Lemma send_date_sends (self : BCon) (date_field dt : pyval) (r : Request)
      (o : list dict) (d : dict) (s : Session) :
  overrides r = o ++ [d] ->
  settable d ->
  send_date self date_field r dt s
  = (Ok (dated (with_overrides r o) date_field dt),
     mkSession (queue s ++ reply s (dated (with_overrides r o) date_field dt)
                                  (Some dt))
               (start_answer s) (openService_answer s) (reply s)
               (calls s ++ [Call_sendRequest
                              (dated (with_overrides r o) date_field dt)
                              (_identity self) (Some dt)])).
Proof.
  intros Ho Hd. unfold send_date.
  rewrite (set_last_override_snoc r o d "fieldId" date_field Ho).
  rewrite (set_last_override_snoc
             (with_overrides r (o ++ [dict_set d "fieldId" date_field]))
             o (dict_set d "fieldId" date_field) "value" dt eq_refl).
  assert (E : dict_set (dict_set d "fieldId" date_field) "value" dt
              = override_of (date_field, dt))
    by (destruct Hd as [->|(x & y & ->)]; reflexivity).
  rewrite E. reflexivity.
Qed.

Lemma send_dates_sends (self : BCon) (date_field : pyval) (base : Request)
      (dates : list pyval) :
  forall (r : Request) (d : dict) (s : Session),
    r = with_overrides base (overrides base ++ [d]) ->
    settable d ->
    send_dates self date_field dates r s
    = (Ok tt,
       mkSession (queue s
                    ++ flat_map (fun dt => reply s (dated base date_field dt)
                                                 (Some dt)) dates)
                 (start_answer s) (openService_answer s) (reply s)
                 (calls s
                    ++ map (fun dt => Call_sendRequest
                                        (dated base date_field dt)
                                        (_identity self) (Some dt)) dates)).
Proof.
  induction dates as [|dt dates IH]; intros r d s Hr Hd.
  - simpl. rewrite !app_nil_r. now destruct s.
  - simpl send_dates.
    assert (Hstep := send_date_sends self date_field dt r (overrides base) d s).
    rewrite Hr in Hstep. specialize (Hstep eq_refl Hd).
    change (with_overrides
              (with_overrides base (overrides base ++ [d])) (overrides base))
      with (with_overrides base (overrides base)) in Hstep.
    assert (Hbase : dated (with_overrides base (overrides base)) date_field dt
                    = dated base date_field dt) by reflexivity.
    rewrite Hbase in Hstep. rewrite Hr, (bind_Ok _ _ _ _ _ Hstep).
    rewrite (IH (dated base date_field dt) (override_of (date_field, dt)) _
                eq_refl); [|right; eexists; eexists; reflexivity].
    simpl. now rewrite <- !app_assoc.
Qed.

Lemma send_hist_sent
      (self : BCon) (tickers flds dates : list pyval) (date_field : pyval)
      (ovrds : list (pyval * pyval)) (svc : Service) (s : Session) :
  refDataService self = Some svc ->
  dates <> [] ->
  exists base,
    operation base = "ReferenceDataRequest"
    /\ securities base = tickers
    /\ fields base = flds
    /\ overrides base = map override_of ovrds
    /\ _send_hist self tickers flds dates date_field ovrds s
       = (Ok tt,
          moved_on s
                   (flat_map (fun dt => reply s (dated base date_field dt)
                                              (Some dt)) dates)
                   (repeat Call_tryNextEvent (S (List.length (queue s)))
                      ++ map (fun dt => Call_sendRequest
                                          (dated base date_field dt)
                                          (_identity self) (Some dt)) dates)).
Proof.
  intros Hsvc Hdates.
  destruct (create_req_built self "ReferenceDataRequest" tickers flds ovrds []
                             svc s Hsvc)
    as (base & Hreq & Ho & Hs & Hf & Hov & _).
  exists base. repeat (split; [assumption|]).
  unfold _send_hist. rewrite (bind_Ok _ _ _ _ _ Hreq).
  destruct dates as [|dt dates]; [now elim Hdates|].
  change (Nat.eqb (List.length (dt :: dates)) 0) with false.
  cbv beta iota zeta.
  etransitivity;
    [apply (send_dates_sends self date_field base (dt :: dates) _ []
                             (drained s) eq_refl); now left|].
  unfold drained, moved_on. simpl. now rewrite <- !app_assoc.
Qed.

(** X15.  On a started connection [_send_hist] with dates sends one
    request for each date, in the order of the dates and after the calls
    that empty the queue: the request built by [_create_req] with one more
    override, the date field set to the date, sent under the date as its
    correlation id.  The queue then holds the replies to these requests,
    in order. *)
Theorem send_hist_sends_one_request_per_date
        (self : BCon) (tickers flds dates : list pyval) (date_field : pyval)
        (ovrds : list (pyval * pyval)) (svc : Service) (s : Session) :
  refDataService self = Some svc ->
  dates <> [] ->
  exists base,
    operation base = "ReferenceDataRequest"
    /\ securities base = tickers
    /\ fields base = flds
    /\ overrides base = map override_of ovrds
    /\ _send_hist self tickers flds dates date_field ovrds s
       = (Ok tt,
          moved_on s
                   (flat_map (fun dt => reply s (dated base date_field dt)
                                              (Some dt)) dates)
                   (repeat Call_tryNextEvent (S (List.length (queue s)))
                      ++ map (fun dt => Call_sendRequest
                                          (dated base date_field dt)
                                          (_identity self) (Some dt)) dates)).
Proof. apply send_hist_sent. Qed.

(** X15 with two dates on a session with a stale event. *)
Lemma send_hist_sends_one_request_per_date_witness :
  exists base,
    overrides base = map override_of [(PyStr "CURVE", PyStr "X")]
    /\ calls (snd (_send_hist (sample_con 500) [PyStr "AUD1M CMPN Curncy"]
                              [PyStr "SETTLE_DT"] two_dates
                              (PyStr "REFERENCE_DATE")
                              [(PyStr "CURVE", PyStr "X")]
                              (echoing [mkEvent PARTIAL_RESPONSE []])))
       = repeat Call_tryNextEvent 2
           ++ map (fun dt => Call_sendRequest
                               (dated base (PyStr "REFERENCE_DATE") dt)
                               None (Some dt)) two_dates.
Proof.
  destruct (send_hist_sends_one_request_per_date
              (sample_con 500) [PyStr "AUD1M CMPN Curncy"] [PyStr "SETTLE_DT"]
              two_dates (PyStr "REFERENCE_DATE") [(PyStr "CURVE", PyStr "X")]
              (mkService "//blp/refdata")
              (echoing [mkEvent PARTIAL_RESPONSE []]) eq_refl
              ltac:(discriminate))
    as (base & _ & _ & _ & Hov & Hsend).
  exists base. split; [exact Hov|]. rewrite Hsend. reflexivity.
Defined.

Lemma receive_events_reads_front
      (self : BCon) (to_dict : bool) (N : Z) (s : Session)
      (pre : list Event) (last : Event) (rest : list Event) (ys : list item) :
  queue s = pre ++ last :: rest ->
  forallb response_typed pre = true ->
  eventType last = RESPONSE ->
  count_responses pre = (N - 1)%Z ->
  collect (map (emit to_dict) (messages_of (pre ++ [last]))) = Ok ys ->
  exists s', _receive_events self N to_dict s = mkRun ys Finished s'
             /\ queue s' = rest.
Proof.
  intros Hq Hall Hlast Hcount Hys.
  pose proof (count_responses_nonneg pre) as Hnn.
  unfold _receive_events. rewrite Hq, length_app. simpl List.length.
  replace (S (List.length pre + S (List.length rest)))
    with (List.length pre + S (S (List.length rest)))%nat by lia.
  unfold messages_of in Hys. rewrite flat_map_app, map_app in Hys.
  apply collect_app in Hys as (ys1 & ys2 & Hys1 & Hys2 & ->).
  simpl flat_map in Hys2. rewrite app_nil_r in Hys2.
  rewrite (receive_loop_through pre _ _ _ _ s (last :: rest) ys1 Hq Hall);
    [|lia|exact Hys1].
  replace (N - count_responses pre)%Z with 1%Z by lia.
  erewrite receive_loop_last_response; [|reflexivity|exact Hlast|exact Hys2].
  eexists. split; reflexivity.
Qed.

Lemma count_responses_app (a b : list Event) :
  count_responses (a ++ b) = (count_responses a + count_responses b)%Z.
Proof.
  induction a as [|ev a IH]; [reflexivity|].
  rewrite <- app_comm_cons, !count_responses_cons, IH. lia.
Qed.

Lemma partials_are_no_responses (partials : list Event) :
  Forall (fun ev => eventType ev = PARTIAL_RESPONSE) partials ->
  forallb response_typed partials = true /\ count_responses partials = 0%Z.
Proof.
  induction 1 as [|ev partials Hev _ [IH1 IH2]]; [split; reflexivity|].
  rewrite count_responses_cons. simpl forallb. unfold response_typed at 1.
  rewrite Hev, IH1, IH2. split; reflexivity.
Qed.

Lemma replies_are_responses (f : pyval -> list Event) (dates : list pyval) :
  (forall dt, one_response (f dt)) ->
  forallb response_typed (flat_map f dates) = true
  /\ count_responses (flat_map f dates) = Z.of_nat (List.length dates).
Proof.
  intros Hf. induction dates as [|dt dates [IH1 IH2]]; [split; reflexivity|].
  destruct (Hf dt) as (partials & last & Hdt & Hpartials & Hlast).
  destruct (partials_are_no_responses partials Hpartials) as [Hp1 Hp2].
  simpl flat_map. rewrite Hdt, forallb_app, forallb_app, !count_responses_app.
  rewrite Hp1, Hp2, IH1, IH2, count_responses_cons, Hlast.
  simpl forallb. unfold response_typed. rewrite Hlast.
  split; [reflexivity|]. simpl List.length.
  cbn [EventType_eqb count_responses]. lia.
Qed.

(** X16.  [ref_hist] and [bulkref_hist] send their requests with
    [_send_hist] and read the replies with [sent_events = len(dates)].
    When the service answers every request with some [PARTIAL_RESPONSE]
    events and then one [RESPONSE] event, this count is right: the
    generator yields the messages of all the replies, ends with [break]
    at the last of them and leaves the queue empty, so that either parser
    returns what its loop makes of these messages. *)
Theorem hist_pump_reads_every_reply
        (self : BCon) (tickers flds dates : list pyval) (date_field : pyval)
        (ovrds : list (pyval * pyval)) (svc : Service) (s : Session)
        (names : list string) (ys : list item) :
  refDataService self = Some svc ->
  dates <> [] ->
  (forall request cid, one_response (reply s request cid)) ->
  collect (map (emit true)
               (messages_of
                  (queue (snd (_send_hist self tickers flds dates date_field
                                          ovrds s)))))
  = Ok ys ->
  yielded (_receive_events
             self (Z.of_nat (List.length dates)) true
             (snd (_send_hist self tickers flds dates date_field ovrds s)))
  = ys
  /\ ending_of (_receive_events
                  self (Z.of_nat (List.length dates)) true
                  (snd (_send_hist self tickers flds dates date_field ovrds s)))
     = Finished
  /\ queue (session_after
              (_receive_events
                 self (Z.of_nat (List.length dates)) true
                 (snd (_send_hist self tickers flds dates date_field ovrds s))))
     = []
  /\ _parse_ref self names true (Z.of_nat (List.length dates))
                (snd (_send_hist self tickers flds dates date_field ovrds s))
     = for_each (ref_message names true) ys []
  /\ _parse_bulkref self names true (Z.of_nat (List.length dates))
                    (snd (_send_hist self tickers flds dates date_field ovrds s))
     = for_each (bulkref_message names true) ys [].
Proof.
  intros Hsvc Hdates Hreply.
  destruct (send_hist_sent self tickers flds dates date_field ovrds svc s
                           Hsvc Hdates) as (base & _ & _ & _ & _ & ->).
  simpl snd. intros Hys.
  set (f := fun dt => reply s (dated base date_field dt) (Some dt)) in *.
  set (s' := moved_on s (flat_map f dates) _) in *.
  assert (Hf : forall dt, one_response (f dt)) by (intros dt; apply Hreply).
  destruct (exists_last Hdates) as (dates' & dl & ->).
  destruct (Hf dl) as (partials & last & Hdl & Hpartials & Hlast).
  destruct (partials_are_no_responses partials Hpartials) as [Hp1 Hp2].
  destruct (replies_are_responses f dates' Hf) as [Hr1 Hr2].
  assert (Hq : queue s' = (flat_map f dates' ++ partials) ++ last :: [])
    by (simpl; rewrite flat_map_app; simpl; rewrite app_nil_r, Hdl;
        now rewrite app_assoc).
  assert (Hrun : exists s'',
             _receive_events self (Z.of_nat (List.length (dates' ++ [dl])))
                             true s'
             = mkRun ys Finished s'' /\ queue s'' = []).
  { apply (receive_events_reads_front self true _ s'
                                      (flat_map f dates' ++ partials) last []).
    - exact Hq.
    - now rewrite forallb_app, Hr1, Hp1.
    - exact Hlast.
    - rewrite count_responses_app, Hr2, Hp2, length_app. simpl. lia.
    - rewrite <- Hq. exact Hys. }
  destruct Hrun as (s'' & Hrun & Hempty).
  unfold _parse_ref, _parse_bulkref, consume. rewrite Hrun. simpl.
  repeat split; try assumption.
  - now destruct (for_each (ref_message names true) ys []).
  - now destruct (for_each (bulkref_message names true) ys []).
Qed.

(** X16 with two dates on a service that answers every request with one
    [PARTIAL_RESPONSE] and one [RESPONSE] event: the rows of the two
    replies, each with the date of its request. *)
Lemma hist_pump_reads_every_reply_witness :
  _parse_ref (sample_con 500) ["SETTLE_DT"] true 2
             (snd (_send_hist (sample_con 500) [PyStr "AUD1M CMPN Curncy"]
                              [PyStr "SETTLE_DT"] two_dates
                              (PyStr "REFERENCE_DATE") []
                              (echoing [mkEvent PARTIAL_RESPONSE []])))
  = Ok [PyList [PyStr "AUD1M CMPN Curncy"; PyStr "SETTLE_DT";
                PyStr "2016-07-27"; PyStr "20160625"];
        PyList [PyStr "AUD1M CMPN Curncy"; PyStr "SETTLE_DT";
                PyStr "2016-07-27"; PyStr "20160626"]].
Proof.
  destruct (hist_pump_reads_every_reply
              (sample_con 500) [PyStr "AUD1M CMPN Curncy"] [PyStr "SETTLE_DT"]
              two_dates (PyStr "REFERENCE_DATE") []
              (mkService "//blp/refdata")
              (echoing [mkEvent PARTIAL_RESPONSE []]) ["SETTLE_DT"]
              (yielded
                 (_receive_events
                    (sample_con 500) 2 true
                    (snd (_send_hist (sample_con 500)
                                     [PyStr "AUD1M CMPN Curncy"]
                                     [PyStr "SETTLE_DT"] two_dates
                                     (PyStr "REFERENCE_DATE") []
                                     (echoing [mkEvent PARTIAL_RESPONSE []])))))
              eq_refl ltac:(discriminate)
              ltac:(intros request cid; eexists [_]; eexists;
                    split; [reflexivity|split; [repeat constructor|reflexivity]])
              eq_refl)
    as (_ & _ & _ & Hparse & _).
  exact Hparse.
Defined.

(** ** Rows of the parsers *)

Lemma checked_fieldData_clean
      (security_data_dict secData ticker fes outer fieldData : pyval) :
  getitem security_data_dict "securityData" = Ok secData ->
  getitem secData "security" = Ok ticker ->
  contains "securityError" secData = Ok false ->
  getitem secData "fieldExceptions" = Ok fes ->
  _check_fieldExceptions fes = Ok tt ->
  getitem secData "fieldData" = Ok outer ->
  getitem outer "fieldData" = Ok fieldData ->
  checked_fieldData security_data_dict = Ok (ticker, fieldData).
Proof.
  intros Hs Ht He Hf Hc Ho Hd. unfold checked_fieldData.
  rewrite Hs. simpl. rewrite Ht. simpl. rewrite He. simpl.
  rewrite Hf. simpl. rewrite Hc. simpl. rewrite Ho. simpl.
  rewrite Hd. reflexivity.
Qed.

Lemma ref_fields_rows (ticker corrId : pyval) (fd : dict) (ids : list pyval)
      (flds : list string) :
  py_iter corrId = Ok ids ->
  forallb (fun fld => negb (is_bulk fd fld)) flds = true ->
  forall data,
    for_each (ref_field ticker (PyDict fd) corrId) flds data
    = Ok (data ++ map (fun fld => PyList ([ticker; PyStr fld;
                                           value_or_nan fd fld] ++ ids)) flds).
Proof.
  intros Hids. induction flds as [|fld flds IH]; intros Hbulk data; simpl.
  - now rewrite app_nil_r.
  - simpl in Hbulk. apply andb_true_iff in Hbulk as [Hfld Hbulk].
    unfold is_bulk in Hfld. unfold value_or_nan at 1.
    unfold ref_field at 1.
    unfold append_datum, contains, dict_mem, getitem.
    destruct (dict_get fd fld) as [v|]; simpl.
    + apply negb_true_iff in Hfld. rewrite Hfld, Hids. simpl.
      rewrite (IH Hbulk). now rewrite <- app_assoc.
    + rewrite Hids. simpl. rewrite (IH Hbulk). now rewrite <- app_assoc.
Qed.

(** X17.  For the record of a subject without [securityError], whose
    field exceptions pass the check, and none of whose requested fields
    is a list, the reference parser adds one row for each requested
    field, in the order of the request: the ticker, the field, the value
    of the field, or [NaN] when the field is not in the field data, and
    then the correlation ids. *)
Theorem ref_rows_of_a_clean_record
        (security_data_dict secData ticker fes outer corrId : pyval)
        (fd : dict) (flds : list string) (ids data : list pyval) :
  getitem security_data_dict "securityData" = Ok secData ->
  getitem secData "security" = Ok ticker ->
  contains "securityError" secData = Ok false ->
  getitem secData "fieldExceptions" = Ok fes ->
  _check_fieldExceptions fes = Ok tt ->
  getitem secData "fieldData" = Ok outer ->
  getitem outer "fieldData" = Ok (PyDict fd) ->
  forallb (fun fld => negb (is_bulk fd fld)) flds = true ->
  py_iter corrId = Ok ids ->
  ref_security flds corrId data security_data_dict
  = Ok (data ++ map (fun fld => PyList ([ticker; PyStr fld;
                                         value_or_nan fd fld] ++ ids)) flds).
Proof.
  intros Hs Ht He Hf Hc Ho Hd Hbulk Hids. unfold ref_security.
  rewrite (checked_fieldData_clean _ _ _ _ _ _ Hs Ht He Hf Hc Ho Hd). simpl.
  now apply ref_fields_rows.
Qed.

(** X17 on a record that has one of the two fields asked for. *)
Lemma ref_rows_of_a_clean_record_witness :
  ref_security ["PX_LAST"; "DVD_FREQ"] (PyList [PyStr "20160625"])
               [PyList [PyStr "before"]] ibm_record
  = Ok [PyList [PyStr "before"];
        PyList [PyStr "IBM US Equity"; PyStr "PX_LAST"; PyFloat "154.1";
                PyStr "20160625"];
        PyList [PyStr "IBM US Equity"; PyStr "DVD_FREQ"; PyNaN;
                PyStr "20160625"]].
Proof.
  apply (ref_rows_of_a_clean_record
           ibm_record (inner ibm_record "securityData")
           (PyStr "IBM US Equity") (PyList [])
           (PyDict [("fieldData", PyDict [("PX_LAST", PyFloat "154.1")])])
           (PyList [PyStr "20160625"])
           [("PX_LAST", PyFloat "154.1")] ["PX_LAST"; "DVD_FREQ"]
           [PyStr "20160625"] [PyList [PyStr "before"]]);
    reflexivity.
Defined.

Lemma bulkref_fields_rows (ticker corrId : pyval) (fd : dict)
      (ids : list pyval) (records : string -> list dict) (flds : list string) :
  py_iter corrId = Ok ids ->
  Forall (fun fld =>
            match dict_get fd fld with
            | None => True
            | Some v =>
                exists elems,
                  v = PyList elems
                  /\ Forall2 (fun elem kvs => getitem elem fld = Ok (PyDict kvs))
                             elems (records fld)
            end) flds ->
  forall data,
    for_each (bulkref_field ticker (PyDict fd) corrId) flds data
    = Ok (data
            ++ flat_map
                 (fun fld =>
                    match dict_get fd fld with
                    | None => [PyList ([ticker; PyStr fld; PyNaN; PyNaN; PyNaN]
                                         ++ ids)]
                    | Some _ => bulk_rows ticker fld ids
                                          (enumerate (records fld))
                    end) flds).
Proof.
  intros Hids. induction 1 as [|fld flds Hfld _ IH]; intros data; simpl.
  - now rewrite app_nil_r.
  - unfold bulkref_field at 1.
    unfold append_datum, contains, dict_mem, getitem.
    destruct (dict_get fd fld) as [v|]; simpl.
    + destruct Hfld as (elems & -> & Hrecords). simpl.
      unfold enumerate.
      rewrite (bulk_elements_rows ticker corrId fld ids elems (records fld)
                                  Hids Hrecords 0%Z data).
      simpl. rewrite IH. now rewrite <- app_assoc.
    + rewrite Hids. simpl. rewrite IH. now rewrite <- app_assoc.
Qed.

(** X18.  For the record of a subject without [securityError] whose
    field exceptions pass the check, the bulk parser goes through the
    requested fields in order: for a field that is not in the field data
    it adds one row with [NaN] for the name, the value and the position,
    and for a field that holds a list of records it adds the rows of
    these records, which are none when the list is empty. *)
Theorem bulkref_rows_of_a_clean_record
        (security_data_dict secData ticker fes outer corrId : pyval)
        (fd : dict) (records : string -> list dict) (flds : list string)
        (ids data : list pyval) :
  getitem security_data_dict "securityData" = Ok secData ->
  getitem secData "security" = Ok ticker ->
  contains "securityError" secData = Ok false ->
  getitem secData "fieldExceptions" = Ok fes ->
  _check_fieldExceptions fes = Ok tt ->
  getitem secData "fieldData" = Ok outer ->
  getitem outer "fieldData" = Ok (PyDict fd) ->
  Forall (fun fld =>
            match dict_get fd fld with
            | None => True
            | Some v =>
                exists elems,
                  v = PyList elems
                  /\ Forall2 (fun elem kvs => getitem elem fld = Ok (PyDict kvs))
                             elems (records fld)
            end) flds ->
  py_iter corrId = Ok ids ->
  bulkref_security flds corrId data security_data_dict
  = Ok (data
          ++ flat_map
               (fun fld =>
                  match dict_get fd fld with
                  | None => [PyList ([ticker; PyStr fld; PyNaN; PyNaN; PyNaN]
                                       ++ ids)]
                  | Some _ => bulk_rows ticker fld ids (enumerate (records fld))
                  end) flds).
Proof.
  intros Hs Ht He Hf Hc Ho Hd Hflds Hids. unfold bulkref_security.
  rewrite (checked_fieldData_clean _ _ _ _ _ _ Hs Ht He Hf Hc Ho Hd). simpl.
  now apply bulkref_fields_rows.
Qed.

(** X18 on a record with one bulk field of two records, asked for this
    field and for one that is not there. *)
Lemma bulkref_rows_of_a_clean_record_witness :
  bulkref_security ["INDX_MWEIGHT"; "INDX_MEMBERS"] (PyList []) [] bcom_record
  = Ok [PyList [PyStr "BCOM Index"; PyStr "INDX_MWEIGHT";
                PyStr "Member Ticker and Exchange Code"; PyStr "BON8";
                PyInt 0];
        PyList [PyStr "BCOM Index"; PyStr "INDX_MWEIGHT";
                PyStr "Percentage Weight"; PyFloat "2.41"; PyInt 0];
        PyList [PyStr "BCOM Index"; PyStr "INDX_MWEIGHT";
                PyStr "Member Ticker and Exchange Code"; PyStr "C N8";
                PyInt 1];
        PyList [PyStr "BCOM Index"; PyStr "INDX_MWEIGHT";
                PyStr "Percentage Weight"; PyFloat "6.56"; PyInt 1];
        PyList [PyStr "BCOM Index"; PyStr "INDX_MEMBERS"; PyNaN; PyNaN;
                PyNaN]].
Proof.
  apply (bulkref_rows_of_a_clean_record
           bcom_record (inner bcom_record "securityData")
           (PyStr "BCOM Index") (PyList [])
           (inner (inner bcom_record "securityData") "fieldData")
           (PyList [])
           [("INDX_MWEIGHT",
             inner (inner (inner (inner bcom_record "securityData")
                                 "fieldData") "fieldData") "INDX_MWEIGHT")]
           weights ["INDX_MWEIGHT"; "INDX_MEMBERS"] [] []);
    try reflexivity.
  constructor.
  - eexists. split; [reflexivity|].
    constructor; [reflexivity|constructor; [reflexivity|constructor]].
  - constructor; [exact I|constructor].
Defined.

Lemma bdh_values_rows (ticker fd date : pyval) (kvs0 : dict) :
  getitem fd "fieldData" = Ok (PyDict kvs0) ->
  dict_get kvs0 "date" = Some date ->
  forall kvs data,
    for_each (bdh_value ticker fd) kvs data
    = Ok (data ++ bdh_rows ticker date kvs).
Proof.
  intros Hfd Hdate. induction kvs as [|[k v] kvs IH]; intros data.
  - simpl. now rewrite app_nil_r.
  - unfold bdh_rows in *. simpl for_each. unfold bdh_value at 1. simpl fst.
    simpl filter. destruct (String.eqb k "date"); simpl.
    + apply IH.
    + rewrite Hfd. simpl. rewrite Hdate. simpl. rewrite IH.
      now rewrite <- app_assoc.
Qed.

Lemma bdh_fieldDatas_rows (ticker : pyval) (fds : list pyval)
      (days : list (pyval * dict)) :
  Forall2 (fun fd day => getitem fd "fieldData" = Ok (PyDict (snd day))
                         /\ dict_get (snd day) "date" = Some (fst day))
          fds days ->
  forall data,
    for_each (bdh_fieldData ticker) fds data
    = Ok (data ++ flat_map (fun day => bdh_rows ticker (fst day) (snd day)) days).
Proof.
  induction 1 as [|fd day fds days [Hfd Hdate] _ IH]; intros data; simpl.
  - now rewrite app_nil_r.
  - unfold bdh_fieldData at 1. rewrite Hfd. simpl.
    rewrite (bdh_values_rows ticker fd (fst day) (snd day) Hfd Hdate). simpl.
    rewrite IH. now rewrite <- app_assoc.
Qed.

(** X19.  For a message without [securityError] and without field
    exceptions, the historical parser adds, for each element of
    [fieldData] in order, one row for each of its entries that is not the
    date, in the order of the entries: the date of the element, the
    ticker, the name of the entry and its value.  The rows it held before
    stay in front. *)
Theorem bdh_rows_of_a_clean_message
        (m element d secData fes ticker : pyval) (fds : list pyval)
        (days : list (pyval * dict)) (data : list pyval) :
  getitem m "element" = Ok element ->
  getitem element "HistoricalDataResponse" = Ok d ->
  getitem d "securityData" = Ok secData ->
  contains "securityError" secData = Ok false ->
  getitem secData "fieldExceptions" = Ok fes ->
  py_len fes = Ok 0%nat ->
  getitem secData "security" = Ok ticker ->
  getitem secData "fieldData" = Ok (PyList fds) ->
  Forall2 (fun fd day => getitem fd "fieldData" = Ok (PyDict (snd day))
                         /\ dict_get (snd day) "date" = Some (fst day))
          fds days ->
  bdh_message data (Decoded m)
  = Ok (data ++ flat_map (fun day => bdh_rows ticker (fst day) (snd day)) days).
Proof.
  intros Hm He Hd Hc Hf Hn Ht Hfd Hdays. unfold bdh_message.
  simpl msg_getitem. rewrite Hm. simpl. rewrite He. simpl. rewrite Hd. simpl.
  rewrite Hc. simpl. rewrite Hf. simpl. rewrite Hn. simpl. rewrite Ht. simpl.
  rewrite Hfd. simpl. now apply bdh_fieldDatas_rows.
Qed.

(** X19 on a message with two days of one field. *)
Lemma bdh_rows_of_a_clean_message_witness :
  bdh_message [] (Decoded two_days)
  = Ok [PyTuple [PyStr "2015-06-29"; PyStr "IBM US Equity"; PyStr "PX_LAST";
                 PyFloat "162.97"];
        PyTuple [PyStr "2015-06-30"; PyStr "IBM US Equity"; PyStr "PX_LAST";
                 PyFloat "162.66"]].
Proof.
  apply (bdh_rows_of_a_clean_message
           two_days (inner two_days "element")
           (inner (inner two_days "element") "HistoricalDataResponse")
           (inner (inner (inner two_days "element") "HistoricalDataResponse")
                  "securityData")
           (PyList []) (PyStr "IBM US Equity")
           (as_list
              (inner (inner (inner (inner two_days "element")
                                   "HistoricalDataResponse")
                            "securityData") "fieldData"))
           [(PyStr "2015-06-29",
             [("date", PyStr "2015-06-29"); ("PX_LAST", PyFloat "162.97")]);
            (PyStr "2015-06-30",
             [("date", PyStr "2015-06-30"); ("PX_LAST", PyFloat "162.66")])]
           []);
    try reflexivity.
  repeat constructor.
Defined.

(** X20.  An element of [fieldData] that has entries and no date among
    them makes the historical parser raise [KeyError] for ['date']: the
    element is not skipped, and the rows held so far are lost with the
    error. *)
Theorem bdh_element_without_date_raises
        (ticker fd : pyval) (kvs : dict) (data : list pyval) :
  getitem fd "fieldData" = Ok (PyDict kvs) ->
  dict_get kvs "date" = None ->
  kvs <> [] ->
  bdh_fieldData ticker data fd = Raise (KeyError (KName "date")).
Proof.
  intros Hfd Hdate Hne. unfold bdh_fieldData. rewrite Hfd.
  destruct kvs as [|[k v] kvs]; [now elim Hne|].
  change (dict_get ((k, v) :: kvs) "date")
    with (if String.eqb "date" k then Some v else dict_get kvs "date")
    in Hdate.
  destruct (String.eqb "date" k) eqn:E; [discriminate|].
  cbn [rbind items for_each].
  unfold bdh_value at 1. cbn [fst snd].
  rewrite String.eqb_sym, E, Hfd. cbn [rbind].
  unfold getitem at 1. cbn [dict_get]. rewrite E, Hdate. reflexivity.
Qed.

(** X20 on an element that holds a price and no date. *)
Lemma bdh_element_without_date_raises_witness :
  bdh_fieldData (PyStr "IBM US Equity") [PyTuple [PyStr "before"]]
                (PyDict [("fieldData", PyDict [("PX_LAST", PyFloat "162.97")])])
  = Raise (KeyError (KName "date")).
Proof.
  apply (bdh_element_without_date_raises
           (PyStr "IBM US Equity")
           (PyDict [("fieldData", PyDict [("PX_LAST", PyFloat "162.97")])])
           [("PX_LAST", PyFloat "162.97")] [PyTuple [PyStr "before"]]).
  - reflexivity.
  - reflexivity.
  - discriminate.
Defined.

Lemma for_each_appends (Q : pyval -> Prop) {X}
      (body : list pyval -> X -> result (list pyval)) (xs : list X) :
  appends Q body -> appends Q (fun data (_ : unit) => for_each body xs data).
Proof.
  intros Hbody. induction xs as [|x xs IH]; intros data u data' H; simpl in H.
  - injection H as <-. exists []. split; [now rewrite app_nil_r|constructor].
  - destruct (body data x) as [acc| |] eqn:Hx; simpl in H; try discriminate.
    destruct (Hbody _ _ _ Hx) as (rows1 & -> & HQ1).
    destruct (IH _ u _ H) as (rows2 & -> & HQ2).
    exists (rows1 ++ rows2). split; [now rewrite app_assoc|].
    apply Forall_app. now split.
Qed.

Lemma append_datum_row (data datum : list pyval) (corrId : pyval)
      (data' : list pyval) :
  append_datum data datum corrId = Ok data' ->
  exists ids, py_iter corrId = Ok ids /\ data' = data ++ [PyList (datum ++ ids)].
Proof.
  unfold append_datum. destruct (py_iter corrId) as [ids| |]; simpl;
    try discriminate.
  intros H. injection H as <-. eauto.
Qed.

Lemma append_datum_appends (corrId : pyval) (datum : list pyval) :
  appends (with_ids corrId) (fun data (_ : unit) => append_datum data datum corrId).
Proof.
  intros data u data' H. apply append_datum_row in H as (ids & Hids & ->).
  eexists. split; [reflexivity|]. constructor; [|constructor].
  intros ids' Hids'. rewrite Hids in Hids'. injection Hids' as <-.
  now exists datum.
Qed.

Lemma ref_field_appends (ticker fieldData corrId : pyval) :
  appends (with_ids corrId) (ref_field ticker fieldData corrId).
Proof.
  intros data fld data'. unfold ref_field.
  destruct (contains fld fieldData) as [[]| |]; simpl; try discriminate.
  - destruct (getitem fieldData fld) as [v| |]; simpl; try discriminate.
    destruct (isinstance_list v); [discriminate|].
    apply (append_datum_appends corrId _ data tt).
  - apply (append_datum_appends corrId _ data tt).
Qed.

Lemma bulk_element_appends (ticker corrId : pyval) (fld : string) :
  appends (with_ids corrId) (bulk_element ticker corrId fld).
Proof.
  intros data ix data'. unfold bulk_element.
  destruct (getitem (snd ix) fld) as [record| |]; simpl; try discriminate.
  destruct (items record) as [kvs| |]; simpl; try discriminate.
  apply (for_each_appends (with_ids corrId) _ kvs) with (x := tt).
  intros acc nv acc'. apply (append_datum_appends corrId _ acc tt).
Qed.

Lemma bulkref_field_appends (ticker fieldData corrId : pyval) :
  appends (with_ids corrId) (bulkref_field ticker fieldData corrId).
Proof.
  intros data fld data'. unfold bulkref_field.
  destruct (contains fld fieldData) as [[]| |]; simpl; try discriminate.
  - destruct (getitem fieldData fld) as [v| |]; simpl; try discriminate.
    destruct (isinstance_list v); [|discriminate]. simpl.
    destruct (py_iter v) as [vs| |]; simpl; try discriminate.
    apply (for_each_appends (with_ids corrId) _ (enumerate vs)) with (x := tt).
    apply bulk_element_appends.
  - apply (append_datum_appends corrId _ data tt).
Qed.

Lemma ref_security_appends (flds : list string) (corrId : pyval) :
  appends (with_ids corrId) (ref_security flds corrId).
Proof.
  intros data sdd data'. unfold ref_security.
  destruct (checked_fieldData sdd) as [[ticker fieldData]| |]; simpl;
    try discriminate.
  apply (for_each_appends (with_ids corrId) _ flds) with (x := tt).
  apply ref_field_appends.
Qed.

Lemma bulkref_security_appends (flds : list string) (corrId : pyval) :
  appends (with_ids corrId) (bulkref_security flds corrId).
Proof.
  intros data sdd data'. unfold bulkref_security.
  destruct (checked_fieldData sdd) as [[ticker fieldData]| |]; simpl;
    try discriminate.
  apply (for_each_appends (with_ids corrId) _ flds) with (x := tt).
  apply bulkref_field_appends.
Qed.

Lemma bdh_message_appends : appends (fun _ => True) bdh_message.
Proof.
  intros data msg data'. unfold bdh_message.
  destruct (msg_getitem msg "element") as [element| |]; simpl;
    try discriminate.
  destruct (getitem element "HistoricalDataResponse") as [d| |]; simpl;
    try discriminate.
  destruct (getitem d "securityData") as [secData| |]; simpl;
    try discriminate.
  destruct (contains "securityError" secData) as [err| |]; simpl;
    try discriminate.
  destruct (getitem secData "fieldExceptions") as [fes| |]; simpl;
    try discriminate.
  destruct (py_len fes) as [n| |]; simpl; try discriminate.
  destruct (err || Nat.ltb 0 n); [discriminate|].
  destruct (getitem secData "security") as [ticker| |]; simpl;
    try discriminate.
  destruct (getitem secData "fieldData") as [fldDatas| |]; simpl;
    try discriminate.
  destruct (py_iter fldDatas) as [fds| |]; simpl; try discriminate.
  apply (for_each_appends (fun _ => True) _ fds) with (x := tt).
  intros acc fd acc'. unfold bdh_fieldData.
  destruct (getitem fd "fieldData") as [inner| |] eqn:Hfd; simpl;
    try discriminate.
  destruct (items inner) as [kvs| |]; simpl; try discriminate.
  apply (for_each_appends (fun _ => True) _ kvs) with (x := tt).
  intros acc0 fv acc0'. unfold bdh_value.
  destruct (String.eqb (fst fv) "date").
  - intros H. injection H as <-. exists []. split;
      [now rewrite app_nil_r|constructor].
  - rewrite Hfd. simpl.
    destruct (getitem inner "date") as [date| |]; simpl; try discriminate.
    intros H. injection H as <-. eexists. split; [reflexivity|].
    constructor; [exact I|constructor].
Qed.

(** X21.  The loops of the three parsers only add rows: whenever the body
    of the message loop returns, the rows held before it are the front of
    the rows held after it, unchanged and in order.  With [keep_corrId],
    every row that the reference parser or the bulk parser adds for a
    message ends with the correlation ids of that message. *)
Theorem parsers_only_add_rows
        (flds : list string) (keep_corrId : bool) (data data' : list pyval)
        (msg : item) :
  (ref_message flds keep_corrId data msg = Ok data'
   \/ bulkref_message flds keep_corrId data msg = Ok data' ->
   exists rows,
     data' = data ++ rows
     /\ forall ids,
         keep_corrId = true ->
         msg_getitem msg "correlationIds" = Ok (PyList ids) ->
         Forall (ends_with ids) rows)
  /\ (bdh_message data msg = Ok data' -> exists rows, data' = data ++ rows).
Proof.
  split.
  - intros H.
    assert (E : exists corrId,
               (keep_corrId = true -> msg_getitem msg "correlationIds" = Ok corrId)
               /\ exists rows, data' = data ++ rows
                               /\ Forall (with_ids corrId) rows).
    { unfold ref_message, bulkref_message, corrId_and_response in H.
      destruct keep_corrId.
      - destruct (msg_getitem msg "correlationIds") as [corrId| |]; simpl in H;
          try (destruct H; discriminate).
        exists corrId. split; [reflexivity|].
        destruct (msg_getitem msg "element") as [element| |]; simpl in H;
          try (destruct H; discriminate).
        destruct (getitem element "ReferenceDataResponse") as [d| |];
          simpl in H; try (destruct H; discriminate).
        destruct (py_iter d) as [ds| |]; simpl in H;
          try (destruct H; discriminate).
        destruct H as [H|H].
        + apply (for_each_appends (with_ids corrId) _ ds
                                  (ref_security_appends flds corrId) data tt _ H).
        + apply (for_each_appends (with_ids corrId) _ ds
                                  (bulkref_security_appends flds corrId)
                                  data tt _ H).
      - exists (PyList []). split; [discriminate|]. simpl in H.
        destruct (msg_getitem msg "element") as [element| |]; simpl in H;
          try (destruct H; discriminate).
        destruct (getitem element "ReferenceDataResponse") as [d| |];
          simpl in H; try (destruct H; discriminate).
        destruct (py_iter d) as [ds| |]; simpl in H;
          try (destruct H; discriminate).
        destruct H as [H|H].
        + apply (for_each_appends (with_ids (PyList [])) _ ds
                                  (ref_security_appends flds (PyList []))
                                  data tt _ H).
        + apply (for_each_appends (with_ids (PyList [])) _ ds
                                  (bulkref_security_appends flds (PyList []))
                                  data tt _ H). }
    destruct E as (corrId & Hcorr & rows & -> & Hrows).
    exists rows. split; [reflexivity|]. intros ids Hkeep Hids.
    rewrite (Hcorr Hkeep) in Hids. injection Hids as ->.
    apply Forall_forall. intros row Hin.
    rewrite Forall_forall in Hrows. now apply (Hrows row Hin ids).
  - intros H. destruct (bdh_message_appends data msg data' H) as (rows & -> & _).
    now exists rows.
Qed.

(** X21 on a message with one correlation id and one security. *)
Lemma parsers_only_add_rows_witness :
  exists rows,
    [PyList [PyStr "before"];
     PyList [PyStr "IBM US Equity"; PyStr "PX_LAST"; PyFloat "154.1";
             PyStr "20160625"]]
    = [PyList [PyStr "before"]] ++ rows
    /\ forall ids,
        true = true ->
        msg_getitem (Decoded dated_message) "correlationIds" = Ok (PyList ids) ->
        Forall (ends_with ids) rows.
Proof.
  apply (proj1 (parsers_only_add_rows
                  ["PX_LAST"] true [PyList [PyStr "before"]]
                  [PyList [PyStr "before"];
                   PyList [PyStr "IBM US Equity"; PyStr "PX_LAST";
                           PyFloat "154.1"; PyStr "20160625"]]
                  (Decoded dated_message))).
  left. reflexivity.
Defined.

(** ** Intraday bars *)

(** X22.  On a started connection [bdib] empties the queue, sends one
    [IntradayBarRequest] without correlation id, and gathers its bars
    from the reply to this request alone.  In the request a name stands
    for the value set last under it, and [elms] is set after the five
    settings made from the arguments: a setting of [elms] under one of
    their names replaces the argument. *)
Theorem bdib_settings_and_reply
        (self : BCon)
        (ticker start_datetime end_datetime event_type interval : pyval)
        (elms : list (string * pyval)) (svc : Service) (s : Session) :
  refDataService self = Some svc ->
  exists request,
    operation request = "IntradayBarRequest"
    /\ securities request = []
    /\ fields request = []
    /\ overrides request = []
    /\ (forall name,
           dict_get (elements_set request) name
           = last_set (bar_settings ticker start_datetime end_datetime
                                    event_type interval ++ elms) name)
    /\ bdib_data self ticker start_datetime end_datetime event_type interval
                 elms s
       = consume bdib_message
                 (_receive_events
                    self 1 true
                    (moved_on s (reply s request None)
                              (repeat Call_tryNextEvent
                                      (S (List.length (queue s)))
                                 ++ [Call_sendRequest request (_identity self)
                                                      None])))
                 [].
Proof.
  intros Hsvc.
  set (fixed := bar_settings ticker start_datetime end_datetime event_type
                             interval).
  set (r0 := createRequest "IntradayBarRequest").
  destruct (fold_request_set (fixed ++ elms) r0)
    as (Ho & Hs & Hf & Hov & Hget).
  exists (fold_left request_set (fixed ++ elms) r0).
  split; [exact Ho|]. split; [exact Hs|]. split; [exact Hf|].
  split; [exact Hov|]. split.
  - intros name. rewrite Hget.
    destruct (last_set (fixed ++ elms) name); reflexivity.
  - unfold bdib_data, then_parse.
    unfold bind at 1. rewrite (flush_drains (queue s) s eq_refl), Hsvc.
    rewrite fold_left_app.
    unfold sendRequest, drained, moved_on, with_queue, logged. simpl.
    now rewrite <- app_assoc.
Qed.

(** X22 with a setting of [elms] that replaces the interval. *)
Lemma bdib_settings_and_reply_witness :
  exists request,
    dict_get (elements_set request) "interval" = Some (PyInt 5)
    /\ dict_get (elements_set request) "security"
       = Some (PyStr "CL1 Comdty").
Proof.
  destruct (bdib_settings_and_reply
              (sample_con 500) (PyStr "CL1 Comdty")
              (PyStr "2016-12-05T14:30:00") (PyStr "2016-12-05T14:35:00")
              (PyStr "TRADE") (PyInt 1) [("interval", PyInt 5)]
              (mkService "//blp/refdata") (sample_session []) eq_refl)
    as (request & _ & _ & _ & _ & Hget & _).
  exists request. rewrite !Hget. split; reflexivity.
Defined.
